(** * Incremental ingestion pipeline: a model of the extraction and
    orchestration core

    The development follows the Python sources file by file:
    - [models/base.py], [models/*.py]: the enumerations and the four tables;
    - [core/exceptions.py]: the exception hierarchy;
    - [schemas/normalized.py], [ingestion/transformers/normalizer.py]:
      the schema validation and the per-source normalizers;
    - [ingestion/loaders/postgres_loader.py]: the upsert loader, alone
      and in batches;
    - [ingestion/base.py]: checkpoints, run records, raw persistence;
    - [ingestion/runner.py]: the orchestrator;
    - [ingestion/extractors/api_extractor.py]: retry, circuit breaker and
      paging.

    Stateful code is written in state-passing style over a record of the
    database tables; a raised exception is the [Raise] case of a result. *)

From Stdlib Require Import ZArith List String Ascii Bool Arith Lia.
From Stdlib Require Import DecimalString.
From Stdlib Require OrderedTypeEx.
Import ListNotations.

Local Open Scope list_scope.
Local Open Scope string_scope.

(** ** Python values *)

(** The outcome of a Python conversion such as [float(v)]: a value, one of
    the exceptions the callers catch ([ValueError], [TypeError]), or any
    other exception ([OverflowError]), which the callers let through. *)
Inductive conv (A : Type) : Type :=
| Converted (a : A)
| ValueOrTypeError
| UncaughtError.
Arguments Converted {A} a.
Arguments ValueOrTypeError {A}.
Arguments UncaughtError {A}.

(** A [datetime]. An instant is an integer (microseconds): for a naive
    datetime the reading of its fields, for an aware one the UTC instant
    it denotes; [utcoffset] is [None] for a naive datetime. *)
Record datetime : Type := {
  instant : Z;
  utcoffset : option Z
}.

(** The naive datetime of an instant, as [datetime.utcnow()] returns it. *)
Definition naive (z : Z) : datetime := {| instant := z; utcoffset := None |}.

Definition aware (d : datetime) : bool :=
  match utcoffset d with Some _ => true | None => false end.

(** [a > b] on datetimes: [None] is the [TypeError] of comparing a naive
    with an aware one. *)
Definition datetime_gt (a b : datetime) : option bool :=
  if Bool.eqb (aware a) (aware b)
  then Some (instant b <? instant a)%Z
  else None.

(** Python's [float] is kept abstract: the pipeline only stores floats,
    compares them with the bounds of the schema, tests them for truth and
    truncates them with [int]. *)
Class PyFloat : Type := {
  pyfloat : Type;
  float_is_zero : pyfloat -> bool;
  float_ge0 : pyfloat -> bool;
  float_le5 : pyfloat -> bool;
  int_of_float : pyfloat -> conv Z
}.

(** A payload value, as [response.json()] or a CSV row delivers it. A dict
    is an association list in insertion order. *)
#[warnings="-register-all"]
Inductive json `{PyFloat} : Type :=
| JNull
| JBool (b : bool)
| JInt (z : Z)
| JFloat (f : pyfloat)
| JStr (s : string)
| JList (l : list json)
| JDict (d : list (string * json)).

Definition pydict `{PyFloat} : Type := list (string * json).

(** The builtins and library calls whose results the sources only pass
    along. [repr] is [str(v)] for a value that is not already a string,
    [coerce_str] is what the schema library makes of a non-string value
    given to a string field ([None]: a validation error), [int_of_str] is
    [int(s)] on text ([None]: it raised [ValueError]), [fromisoformat]
    is [datetime.fromisoformat] ([None]: it raised) and [isoformat] is
    [datetime.isoformat]. *)
Class PyBuiltins `{PyFloat} : Type := {
  float_of : json -> conv pyfloat;
  repr : json -> string;
  coerce_str : json -> option string;
  int_of_str : string -> option Z;
  fromisoformat : string -> option datetime;
  isoformat : datetime -> string
}.

Section PythonValues.
Context {PF : PyFloat} {PB : PyBuiltins}.

(** [str(v)] *)
Definition py_str (v : json) : string :=
  match v with
  | JStr s => s
  | _ => repr v
  end.

(** Truth value of a payload value ([if v:], [a or b]). *)
Definition truthy (v : json) : bool :=
  match v with
  | JNull => false
  | JBool b => b
  | JInt z => negb (z =? 0)%Z
  | JFloat f => negb (float_is_zero f)
  | JStr s => negb (s =? "")
  | JList l => match l with [] => false | _ => true end
  | JDict d => match d with [] => false | _ => true end
  end.

(** [d.get(k)]: [None] when the key is absent. *)
Fixpoint dict_lookup (k : string) (d : pydict) : option json :=
  match d with
  | [] => None
  | (k', v) :: rest => if k' =? k then Some v else dict_lookup k rest
  end.

(** [d.get(k, default)] *)
Definition get_or (k : string) (d : pydict) (default : json) : json :=
  match dict_lookup k d with
  | Some v => v
  | None => default
  end.

(** [d.get(k)], with Python's [None] for an absent key. *)
Definition get (k : string) (d : pydict) : json := get_or k d JNull.

(** [d[k] = v] *)
Fixpoint dict_set (k : string) (v : json) (d : pydict) : pydict :=
  match d with
  | [] => [(k, v)]
  | (k', v') :: rest =>
      if k' =? k then (k', v) :: rest else (k', v') :: dict_set k v rest
  end.

(** [k in names] *)
Definition mem (k : string) (names : list string) : bool :=
  existsb (String.eqb k) names.

(** [{k: v for k, v in d.items() if k not in names}] *)
Definition without (names : list string) (d : pydict) : pydict :=
  filter (fun kv => negb (mem (fst kv) names)) d.

End PythonValues.

(** ** Strings *)

(** A Python [str] is the sequence of its code points, and the strings
    of this development are those whose code points are below 256: a
    character of [string] is one code point, not one byte of an encoding,
    so [String.length] is [len] and counts characters.

    White space as [str.strip] and [str.isspace] see it among these code
    points: U+0009 to U+000D, U+001C to U+0020, U+0085 and U+00A0. *)
Definition is_space (c : ascii) : bool :=
  let n := nat_of_ascii c in
  (((9 <=? n) && (n <=? 13)) || ((28 <=? n) && (n <=? 32))
   || (n =? 133) || (n =? 160))%nat.

Fixpoint lstrip (s : string) : string :=
  match s with
  | EmptyString => EmptyString
  | String c rest => if is_space c then lstrip rest else s
  end.

Fixpoint rev_string (acc s : string) : string :=
  match s with
  | EmptyString => acc
  | String c rest => rev_string (String c acc) rest
  end.

Definition rstrip (s : string) : string :=
  rev_string EmptyString (lstrip (rev_string EmptyString s)).

(** [s.strip()] *)
Definition strip (s : string) : string := rstrip (lstrip s).

(** [s.split(sep)] for a one-character separator. *)
Fixpoint split_on (sep : ascii) (cur : string) (s : string) : list string :=
  match s with
  | EmptyString => [rev_string EmptyString cur]
  | String c rest =>
      if Ascii.eqb c sep
      then rev_string EmptyString cur :: split_on sep EmptyString rest
      else split_on sep (String c cur) rest
  end.

Definition split (sep : ascii) (s : string) : list string :=
  split_on sep EmptyString s.

(** [s.replace("Z", "+00:00")] *)
Fixpoint replace_Z (s : string) : string :=
  match s with
  | EmptyString => EmptyString
  | String c rest =>
      if Ascii.eqb c "Z"%char
      then "+00:00" ++ replace_Z rest
      else String c (replace_Z rest)
  end.

(** [s[:n]] *)
Definition truncate (n : nat) (s : string) : string := substring 0 n s.

(** [str(n)] for integers. *)
Definition str_of_Z (z : Z) : string := NilZero.string_of_int (Z.to_int z).
Definition str_of_nat (n : nat) : string := str_of_Z (Z.of_nat n).

(** [max(xs)] over strings: code point order, the first maximum wins. *)
Definition max_str (a b : string) : string := if String.ltb a b then b else a.

(** ** Enumerations ([models/base.py]) *)

Inductive SourceType : Type := API | CSV | RSS | FEED.

Inductive ETLStatus : Type := PENDING | RUNNING | SUCCESS | FAILED | PARTIAL.

Inductive ItemStatus : Type := ACTIVE | INACTIVE | DELETED | ITEM_PENDING.

Definition SourceType_eqb (a b : SourceType) : bool :=
  match a, b with
  | API, API | CSV, CSV | RSS, RSS | FEED, FEED => true
  | _, _ => false
  end.

(** [source_type.value] *)
Definition SourceType_value (t : SourceType) : string :=
  match t with API => "api" | CSV => "csv" | RSS => "rss" | FEED => "feed" end.

(** A terminal status of a run. *)
Definition is_terminal (s : ETLStatus) : bool :=
  match s with SUCCESS | FAILED | PARTIAL => true | _ => false end.

(** ** Tables ([models/*.py])

    Only the columns the pipeline writes or reads are kept; the surrogate
    [uuid] columns and the columns no code assigns are left out. Instants
    that the code reads from the clock are integers. *)

(** [schemas/normalized.py]: a validated [UnifiedItemCreate].
    [item_extra_metadata] is [None] when the field was not set: the
    attribute then reads as the empty dict of its default factory, and
    [dict(exclude_unset=True)] leaves it out. *)
Record UnifiedItemCreate `{PyFloat} : Type := {
  item_source_type : SourceType;
  item_source_name : string;
  item_external_id : string;
  item_raw_data_id : nat;
  item_title : string;
  item_description : option string;
  item_category : option string;
  item_url : option string;
  item_image_url : option string;
  item_author : option string;
  item_amount : option pyfloat;
  item_quantity : option Z;
  item_rating : option pyfloat;
  item_tags : list string;
  item_extra_metadata : option pydict;
  item_status : ItemStatus;
  item_published_at : option datetime
}.

(** [models/normalized_data.py]: a row of [unified_items]. The unique index
    [idx_unified_source_external] is on the first three columns. *)
Record UnifiedItem `{PyFloat} : Type := {
  ui_source_type : SourceType;
  ui_source_name : string;
  ui_external_id : string;
  ui_raw_data_id : option nat;
  ui_title : string;
  ui_description : option string;
  ui_category : option string;
  ui_url : option string;
  ui_image_url : option string;
  ui_author : option string;
  ui_amount : option pyfloat;
  ui_quantity : option Z;
  ui_rating : option pyfloat;
  ui_tags : list string;
  ui_metadata : option pydict;
  ui_status : ItemStatus;
  ui_published_at : option datetime;
  ui_created_at : Z;
  ui_updated_at : Z;
  ui_etl_run_id : option nat
}.

(** [models/raw_data.py]: a row of [raw_data]. *)
Record RawData `{PyFloat} : Type := {
  raw_id : nat;
  raw_source_type : SourceType;
  raw_source_name : string;
  raw_source_id : option string;
  raw_payload : pydict;
  raw_ingested_at : Z;
  raw_processed : bool;
  raw_processed_at : option Z;
  raw_etl_run_id : option nat
}.

(** [models/checkpoint.py]: a row of [etl_checkpoints], one per source. *)
Record ETLCheckpoint : Type := {
  cp_source_type : SourceType;
  cp_source_name : string;
  cp_checkpoint_type : string;
  cp_checkpoint_value : option string;
  cp_status : ETLStatus;
  cp_last_run_at : option Z;
  cp_last_success_at : option Z;
  cp_last_failure_at : option Z;
  cp_total_runs : Z;
  cp_total_records_processed : Z;
  cp_last_records_processed : Z;
  cp_error_message : option string;
  cp_created_at : Z;
  cp_updated_at : Z
}.

(** [models/etl_run.py]: a row of [etl_runs]. *)
Record ETLRun : Type := {
  run_pk : nat;
  run_source_type : SourceType;
  run_source_name : string;
  run_status : ETLStatus;
  run_started_at : Z;
  run_completed_at : option Z;
  run_duration : option Z;
  run_records_extracted : nat;
  run_records_loaded : nat;
  run_records_failed : nat;
  run_checkpoint_before : option string;
  run_checkpoint_after : option string;
  run_error_message : option string
}.

(** A write to [etl_runs], as the session commits it. *)
Inductive RunWrite : Type :=
| RunCreated (pk : nat) (status : ETLStatus)
| RunFinalized (pk : nat) (status : ETLStatus).

(** The database. [run_writes] is a ghost trace of the writes made to
    [etl_runs], oldest first; no code reads it. *)
Record DB `{PyFloat} : Type := {
  etl_checkpoints : list ETLCheckpoint;
  etl_runs : list ETLRun;
  raw_data : list RawData;
  unified_items : list UnifiedItem;
  run_writes : list RunWrite
}.

Definition empty_db `{PyFloat} : DB :=
  {| etl_checkpoints := []; etl_runs := []; raw_data := [];
     unified_items := []; run_writes := [] |}.

(** ** Exceptions ([core/exceptions.py]) *)

(** The classes of the hierarchy; [Foreign] is an exception class of Python
    or of a library ([httpx.ConnectError], [ValueError], ...). *)
Inductive ErrClass : Type :=
| ETLException
| ExtractionError
| APIExtractionError
| CSVExtractionError
| RSSExtractionError
| TransformationError
| ValidationError
| NormalizationError
| LoadError
| DatabaseError
| UpsertError
| CheckpointError
| RetryableError
| NonRetryableError
| NetworkError
| RateLimitError
| DatabaseConnectionError
| DeadlockError
| AuthenticationError
| SchemaValidationError
| DataFormatError
| ResourceNotFoundError
| Foreign (name : string).

(** [cls.__name__] *)
Definition class_name (c : ErrClass) : string :=
  match c with
  | ETLException => "ETLException"
  | ExtractionError => "ExtractionError"
  | APIExtractionError => "APIExtractionError"
  | CSVExtractionError => "CSVExtractionError"
  | RSSExtractionError => "RSSExtractionError"
  | TransformationError => "TransformationError"
  | ValidationError => "ValidationError"
  | NormalizationError => "NormalizationError"
  | LoadError => "LoadError"
  | DatabaseError => "DatabaseError"
  | UpsertError => "UpsertError"
  | CheckpointError => "CheckpointError"
  | RetryableError => "RetryableError"
  | NonRetryableError => "NonRetryableError"
  | NetworkError => "NetworkError"
  | RateLimitError => "RateLimitError"
  | DatabaseConnectionError => "DatabaseConnectionError"
  | DeadlockError => "DeadlockError"
  | AuthenticationError => "AuthenticationError"
  | SchemaValidationError => "SchemaValidationError"
  | DataFormatError => "DataFormatError"
  | ResourceNotFoundError => "ResourceNotFoundError"
  | Foreign name => name
  end.

Definition is_foreign (c : ErrClass) : bool :=
  match c with Foreign _ => true | _ => false end.

Definition ErrClass_eqb (a b : ErrClass) : bool :=
  Bool.eqb (is_foreign a) (is_foreign b) && (class_name a =? class_name b).

(** The base classes each [class] statement lists. *)
Definition bases (c : ErrClass) : list ErrClass :=
  match c with
  | ETLException => []
  | ExtractionError => [ETLException]
  | APIExtractionError => [ExtractionError]
  | CSVExtractionError => [ExtractionError]
  | RSSExtractionError => [ExtractionError]
  | TransformationError => [ETLException]
  | ValidationError => [TransformationError]
  | NormalizationError => [TransformationError]
  | LoadError => [ETLException]
  | DatabaseError => [LoadError]
  | UpsertError => [LoadError]
  | CheckpointError => [ETLException]
  | RetryableError => [ETLException]
  | NonRetryableError => [ETLException]
  | NetworkError => [RetryableError; APIExtractionError]
  | RateLimitError => [RetryableError; APIExtractionError]
  | DatabaseConnectionError => [RetryableError; DatabaseError]
  | DeadlockError => [RetryableError; DatabaseError]
  | AuthenticationError => [NonRetryableError; APIExtractionError]
  | SchemaValidationError => [NonRetryableError; ValidationError]
  | DataFormatError => [NonRetryableError; TransformationError]
  | ResourceNotFoundError => [NonRetryableError; ExtractionError]
  | Foreign _ => []
  end.

(** [issubclass(c, base)]; the hierarchy is four levels deep. *)
Fixpoint issubclass_upto (depth : nat) (c base : ErrClass) : bool :=
  ErrClass_eqb c base ||
  match depth with
  | O => false
  | S d => existsb (fun b => issubclass_upto d b base) (bases c)
  end.

Definition issubclass (c base : ErrClass) : bool := issubclass_upto 4 c base.

(** A raised exception: class, [message], [context] (values rendered as
    text) and [original_exception]. For a foreign exception the message is
    [str(e)]. *)
#[warnings="-register-all"]
Inductive exn : Type :=
| Exn (cls : ErrClass) (message : string) (context : list (string * string))
      (original_exception : option exn).

Definition exn_class (e : exn) : ErrClass :=
  match e with Exn c _ _ _ => c end.
Definition exn_message (e : exn) : string :=
  match e with Exn _ m _ _ => m end.
Definition exn_context (e : exn) : list (string * string) :=
  match e with Exn _ _ ctx _ => ctx end.
Definition exn_original (e : exn) : option exn :=
  match e with Exn _ _ _ o => o end.

(** [isinstance(e, base)] *)
Definition isinstance (e : exn) (base : ErrClass) : bool :=
  issubclass (exn_class e) base.

(** [context[k] = v] *)
Fixpoint ctx_set (k v : string) (ctx : list (string * string))
  : list (string * string) :=
  match ctx with
  | [] => [(k, v)]
  | (k', v') :: rest =>
      if k' =? k then (k', v) :: rest else (k', v') :: ctx_set k v rest
  end.

Fixpoint ctx_lookup (k : string) (ctx : list (string * string))
  : option string :=
  match ctx with
  | [] => None
  | (k', v) :: rest => if k' =? k then Some v else ctx_lookup k rest
  end.

(** [", ".join(f"{k}={v}" for k, v in context.items())] *)
Definition render_context (ctx : list (string * string)) : string :=
  String.concat ", " (map (fun kv => fst kv ++ "=" ++ snd kv) ctx).

(** [str(e)]: [ETLException.__str__] for the classes of the hierarchy. *)
Fixpoint exn_str (e : exn) : string :=
  match e with
  | Exn (Foreign _) m _ _ => m
  | Exn c m ctx orig =>
      (class_name c ++ ": " ++ m)
      ++ match ctx with
         | [] => ""
         | _ => " | Context: " ++ render_context ctx
         end
      ++ match orig with
         | None => ""
         | Some o =>
             " | Caused by: " ++ class_name (exn_class o) ++ ": " ++ exn_str o
         end
  end.

Section Exceptions.
Context {PF : PyFloat} {PB : PyBuiltins}.

(** [ETLException.__init__], raised at instant [now]. *)
Definition ETLException_init (now : Z) (c : ErrClass) (message : string)
    (context : list (string * string)) (original : option exn) : exn :=
  Exn c message (ctx_set "error_timestamp" (isoformat (naive now)) context)
    original.

(** [RateLimitError.__init__] *)
Definition RateLimitError_init (now : Z) (message : string)
    (context : list (string * string)) (original : option exn)
    (retry_after : option Z) : exn :=
  let e := ETLException_init now RateLimitError message context original in
  match retry_after with
  | Some n =>
      if (n =? 0)%Z then e
      else Exn RateLimitError message
             (ctx_set "retry_after" (str_of_Z n) (exn_context e)) original
  | None => e
  end.

End Exceptions.

(** Results of fallible code. *)
Inductive result (A : Type) : Type :=
| Return (a : A)
| Raise (e : exn).
Arguments Return {A} a.
Arguments Raise {A} e.

(** A small notation for sequencing fallible steps. *)
Definition bind {A B : Type} (r : result A) (k : A -> result B) : result B :=
  match r with
  | Return a => k a
  | Raise e => Raise e
  end.

Notation "'let*' x ':=' r 'in' k" := (bind r (fun x => k))
  (at level 10, x name, r at level 100, k at level 200).

(** ** Schema validation ([schemas/normalized.py]) *)

Module Schema.
Section Schema.
Context {PF : PyFloat} {PB : PyBuiltins}.

(** The keyword arguments a normalizer gives to [UnifiedItemCreate]. A
    field that a normalizer does not pass is [JNull] or [None], its
    default. *)
Record ItemArgs : Type := {
  arg_source_type : SourceType;
  arg_source_name : string;
  arg_external_id : string;
  arg_raw_data_id : nat;
  arg_title : json;
  arg_description : json;
  arg_category : json;
  arg_url : json;
  arg_image_url : json;
  arg_author : json;
  arg_amount : option pyfloat;
  arg_quantity : option Z;
  arg_rating : option pyfloat;
  arg_tags : json;
  arg_extra_metadata : pydict;
  arg_published_at : option datetime
}.

(** [Field(..., min_length=lo, max_length=hi)] on a string. *)
Definition length_between (lo : nat) (hi : option nat) (s : string)
  : option string :=
  if (lo <=? String.length s)%nat
     && match hi with
        | Some h => (String.length s <=? h)%nat
        | None => true
        end
  then Some s else None.

(** A value given to a [str] field. *)
Definition as_str (v : json) : option string :=
  match v with
  | JNull => None
  | JStr s => Some s
  | _ => coerce_str v
  end.

(** A required [str] field. *)
Definition str_required (lo : nat) (hi : option nat) (v : json)
  : option string :=
  match as_str v with
  | Some s => length_between lo hi s
  | None => None
  end.

(** An [Optional[str]] field; the outer [None] is a validation error. *)
Definition str_optional (hi : option nat) (v : json)
  : option (option string) :=
  match v with
  | JNull => Some None
  | _ => match as_str v with
         | Some s => option_map Some (length_between 0 hi s)
         | None => None
         end
  end.

(** [clean_title]: runs after the length constraints of the field. *)
Definition clean_title (v : string) : option string :=
  if negb (v =? "")
  then let v' := strip v in
       if v' =? "" then None else Some v'
  else Some v.

(** [[t.strip() for t in s.split(",") if t.strip()]] *)
Definition comma_tags (s : string) : list string :=
  filter (fun t => negb (t =? "")) (map strip (split ","%char s)).

(** [clean_tags] (a [pre] validator) *)
Definition clean_tags (v : json) : list string :=
  match v with
  | JNull => []
  | JStr s => comma_tags s
  | JList l =>
      filter (fun t => negb (t =? "")) (map (fun t => strip (py_str t)) l)
  | _ => []
  end.

(** [Field(None, ge=0)] and [Field(None, ge=0, le=5)] *)
Definition amount_ok (a : option pyfloat) : bool :=
  match a with Some f => float_ge0 f | None => true end.
Definition quantity_ok (q : option Z) : bool :=
  match q with Some n => (0 <=? n)%Z | None => true end.
Definition rating_ok (r : option pyfloat) : bool :=
  match r with Some f => float_ge0 f && float_le5 f | None => true end.

(** The names of the fields whose validation fails, in declaration order. *)
Definition field_errors (a : ItemArgs) : list string :=
  (match length_between 1 (Some 100%nat) (arg_source_name a) with
   | Some _ => [] | None => ["source_name"] end
   ++ match length_between 1 (Some 255%nat) (arg_external_id a) with
      | Some _ => [] | None => ["external_id"] end
   ++ match str_required 1 (Some 500%nat) (arg_title a) with
      | Some s => match clean_title s with
                  | Some _ => [] | None => ["title"] end
      | None => ["title"] end
   ++ match str_optional None (arg_description a) with
      | Some _ => [] | None => ["description"] end
   ++ match str_optional (Some 200%nat) (arg_category a) with
      | Some _ => [] | None => ["category"] end
   ++ match str_optional (Some 2048%nat) (arg_url a) with
      | Some _ => [] | None => ["url"] end
   ++ match str_optional (Some 2048%nat) (arg_image_url a) with
      | Some _ => [] | None => ["image_url"] end
   ++ match str_optional (Some 200%nat) (arg_author a) with
      | Some _ => [] | None => ["author"] end
   ++ (if amount_ok (arg_amount a) then [] else ["amount"])
   ++ (if quantity_ok (arg_quantity a) then [] else ["quantity"])
   ++ (if rating_ok (arg_rating a) then [] else ["rating"]))%list.

(** The schema library's [ValidationError], naming the fields. *)
Definition validation_error (fields : list string) : exn :=
  Exn (Foreign "ValidationError") (String.concat ", " fields) [] None.

Definition title_of (a : ItemArgs) : string :=
  match str_required 1 (Some 500%nat) (arg_title a) with
  | Some s => match clean_title s with Some t => t | None => s end
  | None => ""
  end.

Definition optional_of (hi : option nat) (v : json) : option string :=
  match str_optional hi v with Some o => o | None => None end.

(** The constructor of [UnifiedItemCreate], with its validators. The
    field [extra_metadata] is declared with the alias [metadata], so it is
    populated from a keyword of that name only: the keyword
    [extra_metadata] that the normalizers pass is ignored and the field
    stays unset. *)
Definition UnifiedItemCreate_init (a : ItemArgs) : result UnifiedItemCreate :=
  match field_errors a with
  | [] =>
      Return
        {| item_source_type := arg_source_type a;
           item_source_name := arg_source_name a;
           item_external_id := arg_external_id a;
           item_raw_data_id := arg_raw_data_id a;
           item_title := title_of a;
           item_description := optional_of None (arg_description a);
           item_category := optional_of (Some 200%nat) (arg_category a);
           item_url := optional_of (Some 2048%nat) (arg_url a);
           item_image_url := optional_of (Some 2048%nat) (arg_image_url a);
           item_author := optional_of (Some 200%nat) (arg_author a);
           item_amount := arg_amount a;
           item_quantity := arg_quantity a;
           item_rating := arg_rating a;
           item_tags := clean_tags (arg_tags a);
           item_extra_metadata := None;
           item_status := ACTIVE;
           item_published_at := arg_published_at a |}
  | fields => Raise (validation_error fields)
  end.

End Schema.
End Schema.

(** ** Normalizer ([ingestion/transformers/normalizer.py]) *)

Module DataNormalizer.
Import Schema.
Section DataNormalizer.
Context {PF : PyFloat} {PB : PyBuiltins}.

Record t : Type := {
  source_type : SourceType;
  source_name : string
}.

(** An exception of [float] or [int] other than the two the parsers catch. *)
Definition uncaught_conversion : exn :=
  Exn (Foreign "OverflowError") "cannot convert" [] None.

(** [value is None or value == ""] *)
Definition blank (value : json) : bool :=
  match value with
  | JNull => true
  | JStr s => s =? ""
  | _ => false
  end.

Definition _parse_float (value : json) : result (option pyfloat) :=
  if blank value then Return None
  else match float_of value with
       | Converted f => Return (Some f)
       | ValueOrTypeError => Return None
       | UncaughtError => Raise uncaught_conversion
       end.

Definition _parse_int (value : json) : result (option Z) :=
  if blank value then Return None
  else match float_of value with
       | Converted f =>
           match int_of_float f with
           | Converted n => Return (Some n)
           | ValueOrTypeError => Return None
           | UncaughtError => Raise uncaught_conversion
           end
       | ValueOrTypeError => Return None
       | UncaughtError => Raise uncaught_conversion
       end.

(** The bare [except] makes this one total. *)
Definition _parse_datetime (value : json) : option datetime :=
  if blank value then None
  else fromisoformat (replace_Z (py_str value)).

(** [a or b] *)
Definition py_or (a b : json) : json := if truthy a then a else b.

Definition _normalize_api (self : t) (record : pydict) (raw_data_id : nat)
  : result UnifiedItemCreate :=
  let* amount :=
    _parse_float (get_or "price" record (get "cost" record)) in
  let* quantity :=
    _parse_int (get_or "quantity" record (get "stock" record)) in
  let* rating := _parse_float (get "rating" record) in
  UnifiedItemCreate_init
    {| arg_source_type := source_type self;
       arg_source_name := source_name self;
       arg_external_id :=
         py_str (get_or "id" record (get_or "item_id" record (JStr "")));
       arg_raw_data_id := raw_data_id;
       arg_title :=
         get_or "name" record (get_or "title" record (JStr "Untitled"));
       arg_description := get_or "description" record (JStr "");
       arg_category := get "category" record;
       arg_url := get "url" record;
       arg_image_url := get_or "image_url" record (get "thumbnail" record);
       arg_author := get "author" record;
       arg_amount := amount;
       arg_quantity := quantity;
       arg_rating := rating;
       arg_tags :=
         match get "tags" record with
         | JList l => get_or "tags" record (JList [])
         | _ => JList []
         end;
       arg_extra_metadata :=
         without ["id"; "name"; "title"; "description"; "category"] record;
       arg_published_at :=
         _parse_datetime
           (get_or "created_date" record (get "created_at" record)) |}.

Definition _normalize_csv (self : t) (record : pydict) (raw_data_id : nat)
  : result UnifiedItemCreate :=
  let tags :=
    if truthy (get "keywords" record) || truthy (get "tags" record)
    then match py_or (get "keywords" record) (get "tags" record) with
         | JStr tags_str => comma_tags tags_str
         | _ => []
         end
    else [] in
  let* amount :=
    _parse_float (get_or "cost" record (get "price" record)) in
  let* quantity :=
    _parse_int (get_or "quantity" record (get "qty" record)) in
  UnifiedItemCreate_init
    {| arg_source_type := source_type self;
       arg_source_name := source_name self;
       arg_external_id :=
         py_str (get_or "id" record (get_or "row_id" record (JStr "")));
       arg_raw_data_id := raw_data_id;
       arg_title :=
         get_or "product_name" record
           (get_or "name" record (get_or "title" record (JStr "Untitled")));
       arg_description :=
         get_or "details" record (get_or "description" record (JStr ""));
       arg_category := get "category" record;
       arg_url := get_or "url" record (get "link" record);
       arg_image_url := JNull;
       arg_author := JNull;
       arg_amount := amount;
       arg_quantity := quantity;
       arg_rating := None;
       arg_tags := JList (map JStr tags);
       arg_extra_metadata :=
         without ["id"; "row_id"; "product_name"; "name"; "details";
                  "category"] record;
       arg_published_at :=
         _parse_datetime (get_or "date" record (get "created_at" record)) |}.

Definition _normalize_rss (self : t) (record : pydict) (raw_data_id : nat)
  : result UnifiedItemCreate :=
  UnifiedItemCreate_init
    {| arg_source_type := source_type self;
       arg_source_name := source_name self;
       arg_external_id :=
         py_str (get_or "id" record (get_or "guid" record (JStr "")));
       arg_raw_data_id := raw_data_id;
       arg_title := get_or "title" record (JStr "Untitled");
       arg_description :=
         get_or "summary" record (get_or "description" record (JStr ""));
       arg_category := get "category" record;
       arg_url := get "link" record;
       arg_image_url := JNull;
       arg_author := get "author" record;
       arg_amount := None;
       arg_quantity := None;
       arg_rating := None;
       arg_tags := get_or "tags" record (JList []);
       arg_extra_metadata :=
         fold_left (fun d kv => dict_set (fst kv) (snd kv) d)
           (without ["id"; "title"; "summary"; "link"] record)
           [("content", get_or "content" record (JStr ""))];
       arg_published_at := _parse_datetime (get "published" record) |}.

Definition normalize (self : t) (raw_record : pydict) (raw_data_id : nat)
  : result UnifiedItemCreate :=
  match source_type self with
  | API => _normalize_api self raw_record raw_data_id
  | CSV => _normalize_csv self raw_record raw_data_id
  | RSS => _normalize_rss self raw_record raw_data_id
  | FEED =>
      Raise (Exn (Foreign "ValueError")
               ("Unknown source type: " ++ "SourceType.FEED") [] None)
  end.

End DataNormalizer.
End DataNormalizer.

(** ** Loader ([ingestion/loaders/postgres_loader.py]) *)

Module PostgresLoader.
Section PostgresLoader.
Context `{PF : PyFloat}.

(** [if etl_run_id: item_dict["etl_run_id"] = etl_run_id]: the column is
    left NULL for [None] and for [0]. *)
Definition run_id_value (etl_run_id : option nat) : option nat :=
  match etl_run_id with
  | Some (S n) => Some (S n)
  | _ => None
  end.

(** The row [insert(UnifiedItem).values(...)] proposes at instant [now]:
    the item's fields, and the column defaults ([created_at] and
    [updated_at] are [datetime.utcnow]). It is the [excluded] row of the
    statement. *)
Definition proposed_row (now : Z) (etl_run_id : option nat)
    (item : UnifiedItemCreate) : UnifiedItem :=
  {| ui_source_type := item_source_type item;
     ui_source_name := item_source_name item;
     ui_external_id := item_external_id item;
     ui_raw_data_id := Some (item_raw_data_id item);
     ui_title := item_title item;
     ui_description := item_description item;
     ui_category := item_category item;
     ui_url := item_url item;
     ui_image_url := item_image_url item;
     ui_author := item_author item;
     ui_amount := item_amount item;
     ui_quantity := item_quantity item;
     ui_rating := item_rating item;
     ui_tags := item_tags item;
     ui_metadata := item_extra_metadata item;
     ui_status := item_status item;
     ui_published_at := item_published_at item;
     ui_created_at := now;
     ui_updated_at := now;
     ui_etl_run_id := run_id_value etl_run_id |}.

(** The conflict target: [(source_type, source_name, external_id)]. *)
Definition conflicts (existing excluded : UnifiedItem) : bool :=
  SourceType_eqb (ui_source_type existing) (ui_source_type excluded)
  && (ui_source_name existing =? ui_source_name excluded)
  && (ui_external_id existing =? ui_external_id excluded).

(** [on_conflict_do_update(set_={...})]: the fifteen columns of [set_] take
    the excluded row's values, the others keep the existing ones. *)
Definition on_conflict_do_update (existing excluded : UnifiedItem)
  : UnifiedItem :=
  {| ui_source_type := ui_source_type existing;
     ui_source_name := ui_source_name existing;
     ui_external_id := ui_external_id existing;
     ui_raw_data_id := ui_raw_data_id existing;
     ui_title := ui_title excluded;
     ui_description := ui_description excluded;
     ui_category := ui_category excluded;
     ui_url := ui_url excluded;
     ui_image_url := ui_image_url excluded;
     ui_author := ui_author excluded;
     ui_amount := ui_amount excluded;
     ui_quantity := ui_quantity excluded;
     ui_rating := ui_rating excluded;
     ui_tags := ui_tags excluded;
     ui_metadata := ui_metadata excluded;
     ui_status := ui_status excluded;
     ui_published_at := ui_published_at excluded;
     ui_created_at := ui_created_at existing;
     ui_updated_at := ui_updated_at excluded;
     ui_etl_run_id := ui_etl_run_id excluded |}.

(** One [INSERT ... ON CONFLICT DO UPDATE] against the table. *)
Fixpoint execute (excluded : UnifiedItem) (table : list UnifiedItem)
  : list UnifiedItem :=
  match table with
  | [] => [excluded]
  | row :: rest =>
      if conflicts row excluded
      then on_conflict_do_update row excluded :: rest
      else row :: execute excluded rest
  end.

(** [load]: the table after the commit and the returned count. The
    statements of one call read the clock as [now]. *)
Definition load (now : Z) (items : list UnifiedItemCreate)
    (etl_run_id : option nat) (table : list UnifiedItem)
  : list UnifiedItem * nat :=
  match items with
  | [] => (table, 0%nat)
  | _ =>
      fold_left
        (fun (state : list UnifiedItem * nat) item =>
           (execute (proposed_row now etl_run_id item) (fst state),
            (snd state + 1)%nat))
        items (table, 0%nat)
  end.

(** The natural key of a row. *)
Definition key (row : UnifiedItem) : SourceType * string * string :=
  (ui_source_type row, ui_source_name row, ui_external_id row).

End PostgresLoader.
End PostgresLoader.

(** ** Source client base class ([ingestion/base.py]) *)

Module DataSource.
Section DataSource.
Context {PF : PyFloat} {PB : PyBuiltins}.

(** A source client. The three abstract methods are fields; [etl_run] is
    the attribute [self.etl_run], held as the primary key of the run row
    the object refers to. [fetch_data] is the behaviour of the source as a
    function of the checkpoint it is asked from. *)
Record t : Type := {
  source_type : SourceType;
  source_name : string;
  checkpoint_type : string;
  fetch_data : string -> result (list pydict);
  extract_record_id : pydict -> string;
  extract_timestamp : pydict -> option datetime;
  etl_run : option nat
}.

Definition set_etl_run (self : t) (pk : option nat) : t :=
  {| source_type := source_type self;
     source_name := source_name self;
     checkpoint_type := checkpoint_type self;
     fetch_data := fetch_data self;
     extract_record_id := extract_record_id self;
     extract_timestamp := extract_timestamp self;
     etl_run := pk |}.

(** The [where] clause shared by the queries on a source. *)
Definition of_source (self : t) (st : SourceType) (sn : string) : bool :=
  SourceType_eqb st (source_type self) && (sn =? source_name self).

Definition get_checkpoint (self : t) (db : DB) : option ETLCheckpoint :=
  find (fun c => of_source self (cp_source_type c) (cp_source_name c))
       (etl_checkpoints db).

Definition set_checkpoints (db : DB) (cps : list ETLCheckpoint) : DB :=
  {| etl_checkpoints := cps;
     etl_runs := etl_runs db;
     raw_data := raw_data db;
     unified_items := unified_items db;
     run_writes := run_writes db |}.

Definition set_runs (db : DB) (runs : list ETLRun) (writes : list RunWrite)
  : DB :=
  {| etl_checkpoints := etl_checkpoints db;
     etl_runs := runs;
     raw_data := raw_data db;
     unified_items := unified_items db;
     run_writes := writes |}.

Definition set_raw_data (db : DB) (rows : list RawData) : DB :=
  {| etl_checkpoints := etl_checkpoints db;
     etl_runs := etl_runs db;
     raw_data := rows;
     unified_items := unified_items db;
     run_writes := run_writes db |}.

Definition set_unified_items (db : DB) (rows : list UnifiedItem) : DB :=
  {| etl_checkpoints := etl_checkpoints db;
     etl_runs := etl_runs db;
     raw_data := raw_data db;
     unified_items := rows;
     run_writes := run_writes db |}.

(** The [else] branch of [create_or_update_checkpoint]. *)
Definition updated_checkpoint (now : Z) (checkpoint_value : string)
    (status : ETLStatus) (records_processed : nat)
    (error_message : option string) (c : ETLCheckpoint) : ETLCheckpoint :=
  {| cp_source_type := cp_source_type c;
     cp_source_name := cp_source_name c;
     cp_checkpoint_type := cp_checkpoint_type c;
     cp_checkpoint_value := Some checkpoint_value;
     cp_status := status;
     cp_last_run_at := Some now;
     cp_last_success_at :=
       match status with SUCCESS => Some now | _ => cp_last_success_at c end;
     cp_last_failure_at :=
       match status with FAILED => Some now | _ => cp_last_failure_at c end;
     cp_total_runs := (cp_total_runs c + 1)%Z;
     cp_total_records_processed :=
       (cp_total_records_processed c + Z.of_nat records_processed)%Z;
     cp_last_records_processed := Z.of_nat records_processed;
     cp_error_message := error_message;
     cp_created_at := cp_created_at c;
     cp_updated_at := now |}.

(** The [if checkpoint is None] branch. *)
Definition new_checkpoint (self : t) (now : Z) (checkpoint_value : string)
    (status : ETLStatus) (records_processed : nat)
    (error_message : option string) : ETLCheckpoint :=
  {| cp_source_type := source_type self;
     cp_source_name := source_name self;
     cp_checkpoint_type := checkpoint_type self;
     cp_checkpoint_value := Some checkpoint_value;
     cp_status := status;
     cp_last_run_at := Some now;
     cp_last_success_at :=
       match status with SUCCESS => Some now | _ => None end;
     cp_last_failure_at :=
       match status with FAILED => Some now | _ => None end;
     cp_total_runs := 1%Z;
     cp_total_records_processed := Z.of_nat records_processed;
     cp_last_records_processed := Z.of_nat records_processed;
     cp_error_message := error_message;
     cp_created_at := now;
     cp_updated_at := now |}.

(** The row of the source, which the unique index makes the only one, is
    updated in place. *)
Definition create_or_update_checkpoint (self : t) (now : Z)
    (checkpoint_value : string) (status : ETLStatus)
    (records_processed : nat) (error_message : option string) (db : DB)
  : DB :=
  match get_checkpoint self db with
  | None =>
      set_checkpoints db
        (etl_checkpoints db
         ++ [new_checkpoint self now checkpoint_value status
               records_processed error_message])%list
  | Some _ =>
      set_checkpoints db
        (map (fun c =>
                if of_source self (cp_source_type c) (cp_source_name c)
                then updated_checkpoint now checkpoint_value status
                       records_processed error_message c
                else c)
             (etl_checkpoints db))
  end.

(** [start_etl_run]: the new row gets the next primary key. The sequence
    of a table is taken to have given out the keys [1], ..., [n] of its
    [n] rows, so the next key is [n + 1]. *)
Definition start_etl_run (self : t) (now : Z)
    (checkpoint_before : option string) (db : DB) : t * DB :=
  let pk := S (List.length (etl_runs db)) in
  let row :=
    {| run_pk := pk;
       run_source_type := source_type self;
       run_source_name := source_name self;
       run_status := RUNNING;
       run_started_at := now;
       run_completed_at := None;
       run_duration := None;
       run_records_extracted := 0;
       run_records_loaded := 0;
       run_records_failed := 0;
       run_checkpoint_before := checkpoint_before;
       run_checkpoint_after := None;
       run_error_message := None |} in
  (set_etl_run self (Some pk),
   set_runs db (etl_runs db ++ [row])%list
     (run_writes db ++ [RunCreated pk RUNNING])%list).

(** The assignments of [complete_etl_run] to the run row. *)
Definition completed_run (now : Z) (status : ETLStatus)
    (records_extracted records_loaded records_failed : nat)
    (checkpoint_after error_message : option string) (r : ETLRun) : ETLRun :=
  {| run_pk := run_pk r;
     run_source_type := run_source_type r;
     run_source_name := run_source_name r;
     run_status := status;
     run_started_at := run_started_at r;
     run_completed_at := Some now;
     run_duration := Some (now - run_started_at r)%Z;
     run_records_extracted := records_extracted;
     run_records_loaded := records_loaded;
     run_records_failed := records_failed;
     run_checkpoint_before := run_checkpoint_before r;
     run_checkpoint_after := checkpoint_after;
     run_error_message := error_message |}.

Definition complete_etl_run (self : t) (now : Z) (status : ETLStatus)
    (records_extracted records_loaded records_failed : nat)
    (checkpoint_after error_message : option string) (db : DB) : DB :=
  match etl_run self with
  | Some pk =>
      set_runs db
        (map (fun r =>
                if (run_pk r =? pk)%nat
                then completed_run now status records_extracted
                       records_loaded records_failed checkpoint_after
                       error_message r
                else r)
             (etl_runs db))
        (run_writes db ++ [RunFinalized pk status])%list
  | None => db
  end.

(** [save_raw_data]: one unprocessed row per record, with the next primary
    keys in order, counted from the number of rows as in
    [start_etl_run]. *)
Definition new_raw_rows (self : t) (now : Z) (first_id : nat)
    (records : list pydict) : list RawData :=
  map (fun ir : nat * pydict =>
         {| raw_id := fst ir;
            raw_source_type := source_type self;
            raw_source_name := source_name self;
            raw_source_id := Some (extract_record_id self (snd ir));
            raw_payload := snd ir;
            raw_ingested_at := now;
            raw_processed := false;
            raw_processed_at := None;
            raw_etl_run_id := etl_run self |})
      (combine (seq first_id (List.length records)) records).

Definition save_raw_data (self : t) (now : Z) (records : list pydict)
    (db : DB) : list RawData * DB :=
  let rows :=
    new_raw_rows self now (S (List.length (raw_data db))) records in
  (rows, set_raw_data db (raw_data db ++ rows)%list).

(** [max(xs)] *)
Definition max_of {A : Type} (max2 : A -> A -> A) (xs : list A)
  : option A :=
  match xs with
  | [] => None
  | x :: rest => Some (fold_left max2 rest x)
  end.

(** [max(xs)] over datetimes, [best] being the greatest so far: each
    element is compared with it, and the comparison of a naive with an
    aware datetime raises [TypeError] ([None]). *)
Fixpoint max_datetime (best : datetime) (rest : list datetime)
  : option datetime :=
  match rest with
  | [] => Some best
  | ts :: rest =>
      match datetime_gt ts best with
      | Some true => max_datetime ts rest
      | Some false => max_datetime best rest
      | None => None
      end
  end.

Definition naive_and_aware : exn :=
  Exn (Foreign "TypeError")
    "can't compare offset-naive and offset-aware datetimes" [] None.

(** [[self.extract_timestamp(r) for r in records
     if self.extract_timestamp(r)]]; a datetime is always true. *)
Fixpoint timestamps_of (self : t) (records : list pydict) : list datetime :=
  match records with
  | [] => []
  | r :: rest =>
      match extract_timestamp self r with
      | Some ts => ts :: timestamps_of self rest
      | None => timestamps_of self rest
      end
  end.

Definition _calculate_checkpoint (self : t) (now : Z)
    (records : list pydict) : result string :=
  if checkpoint_type self =? "timestamp" then
    match timestamps_of self records with
    | ts :: rest =>
        match max_datetime ts rest with
        | Some m => Return (isoformat m)
        | None => Raise naive_and_aware
        end
    | [] => Return (isoformat (naive now))
    end
  else if checkpoint_type self =? "id" then
    match max_of max_str (map (extract_record_id self) records) with
    | Some id => Return id
    | None => Return (isoformat (naive now))
    end
  else Return (isoformat (naive now)).

(** The dictionary [run_incremental] returns. *)
Record Extracted : Type := {
  ex_status : string;
  ex_records_extracted : nat;
  ex_records_loaded : option nat;
  ex_checkpoint : option string;
  ex_raw_data_ids : list nat;
  ex_message : option string
}.

(** [checkpoint.checkpoint_value or ""] *)
Definition current_value (checkpoint : option ETLCheckpoint) : string :=
  match checkpoint with
  | Some c =>
      match cp_checkpoint_value c with
      | Some v => v
      | None => ""
      end
  | None => ""
  end.

(** The handler of [run_incremental]: the run row and the checkpoint row
    are marked failed, the checkpoint value stays, and the error goes on
    to the caller. *)
Definition failed_incremental {A : Type} (self : t) (now : Z)
    (checkpoint_value : string) (e : exn) (db : DB) : result A * t * DB :=
  let db :=
    complete_etl_run self now FAILED 0 0 0 None (Some (exn_str e)) db in
  let db :=
    create_or_update_checkpoint self now checkpoint_value FAILED 0
      (Some (exn_str e)) db in
  (Raise e, self, db).

(** [run_incremental], all clock readings of the call taken as [now]. *)
Definition run_incremental (self : t) (now : Z) (db : DB)
  : result Extracted * t * DB :=
  let checkpoint_value := current_value (get_checkpoint self db) in
  let (self, db) := start_etl_run self now (Some checkpoint_value) db in
  match fetch_data self checkpoint_value with
  | Raise e => failed_incremental self now checkpoint_value e db
  | Return records =>
      let records_extracted := List.length records in
      if (records_extracted =? 0)%nat then
        let db :=
          complete_etl_run self now SUCCESS 0 0 0 (Some checkpoint_value)
            None db in
        let db :=
          create_or_update_checkpoint self now checkpoint_value SUCCESS 0
            None db in
        (Return {| ex_status := "success";
                   ex_records_extracted := 0;
                   ex_records_loaded := None;
                   ex_checkpoint := None;
                   ex_raw_data_ids := [];
                   ex_message := Some "No new data" |},
         self, db)
      else
        let (raw_records, db) := save_raw_data self now records db in
        match _calculate_checkpoint self now records with
        | Raise e => failed_incremental self now checkpoint_value e db
        | Return new_checkpoint =>
            let db :=
              complete_etl_run self now SUCCESS records_extracted
                records_extracted 0 (Some new_checkpoint) None db in
            let db :=
              create_or_update_checkpoint self now new_checkpoint SUCCESS
                records_extracted None db in
            (Return {| ex_status := "success";
                       ex_records_extracted := records_extracted;
                       ex_records_loaded := Some records_extracted;
                       ex_checkpoint := Some new_checkpoint;
                       ex_raw_data_ids := map raw_id raw_records;
                       ex_message := None |},
             self, db)
        end
  end.

End DataSource.
End DataSource.

(** ** Orchestrator ([ingestion/runner.py]) *)

Module ETLRunner.
Section ETLRunner.
Context {PF : PyFloat} {PB : PyBuiltins}.

(** An entry of [error_details]. *)
Record ErrorDetail : Type := {
  phase : string;
  raw_data_id : nat;
  error_type : string;
  error_message : string
}.

(** The dictionary [run] returns. *)
Record Summary : Type := {
  status : string;
  records_extracted : nat;
  records_loaded : nat;
  records_failed : nat;
  message : option string;
  error_details : list ErrorDetail
}.

(** What the environment does to one call of [run]: the clock reading, and
    the exception, if any, that [PostgresLoader.load] raises (a failing
    session, or the patched loader of the recovery test). A raising load
    commits nothing, and the [rollback()] that follows it ends the
    transaction that the query of PHASE 2 began: it expires the objects of
    the session, the run row of the source client among them. *)
Record Env : Type := {
  now : Z;
  load_raises : option exn
}.

(** The accumulators of the normalization loop. *)
Record Normalized : Type := {
  normalized_items : list UnifiedItemCreate;
  failed_raw_ids : list nat;
  failed_details : list ErrorDetail
}.

(** PHASE 3: each raw record is normalized on its own; a failure is
    recorded and the loop goes on. *)
Fixpoint normalize_all (normalizer : DataNormalizer.t)
    (raw_records : list RawData) (acc : Normalized) : Normalized :=
  match raw_records with
  | [] => acc
  | raw :: rest =>
      match DataNormalizer.normalize normalizer (raw_payload raw)
              (raw_id raw) with
      | Return normalized =>
          normalize_all normalizer rest
            {| normalized_items := normalized_items acc ++ [normalized];
               failed_raw_ids := failed_raw_ids acc;
               failed_details := failed_details acc |}
      | Raise e =>
          normalize_all normalizer rest
            {| normalized_items := normalized_items acc;
               failed_raw_ids := failed_raw_ids acc ++ [raw_id raw];
               failed_details :=
                 failed_details acc
                 ++ [{| phase := "normalization";
                        raw_data_id := raw_id raw;
                        error_type := class_name (exn_class e);
                        error_message := exn_str e |}] |}
      end
  end%list.

(** PHASE 2: the unprocessed rows of the source, at most 1000, in table
    order. *)
Definition unprocessed (extractor : DataSource.t) (db : DB) : list RawData :=
  firstn 1000
    (filter (fun raw =>
               DataSource.of_source extractor (raw_source_type raw)
                 (raw_source_name raw)
               && negb (raw_processed raw))
            (raw_data db)).

(** [raw.processed = True; raw.processed_at = ...] *)
Definition mark_processed (processed_at : option Z) (raw : RawData)
  : RawData :=
  {| raw_id := raw_id raw;
     raw_source_type := raw_source_type raw;
     raw_source_name := raw_source_name raw;
     raw_source_id := raw_source_id raw;
     raw_payload := raw_payload raw;
     raw_ingested_at := raw_ingested_at raw;
     raw_processed := true;
     raw_processed_at := processed_at;
     raw_etl_run_id := raw_etl_run_id raw |}.

(** [extractor.etl_run.completed_at if extractor.etl_run else None] *)
Definition completed_at_of (extractor : DataSource.t) (db : DB) : option Z :=
  match DataSource.etl_run extractor with
  | Some pk =>
      match find (fun r => (run_pk r =? pk)%nat) (etl_runs db) with
      | Some r => run_completed_at r
      | None => None
      end
  | None => None
  end.

(** PHASE 5: the fetched rows that did not fail normalization are marked.
    The rows of the table that the session holds are found by their
    primary keys, which are taken to be distinct. *)
Definition mark_all (extractor : DataSource.t) (raw_records : list RawData)
    (failed : list nat) (db : DB) : DB :=
  let successfully_processed_ids :=
    map raw_id
      (filter (fun raw => negb (existsb (Nat.eqb (raw_id raw)) failed))
              raw_records) in
  DataSource.set_raw_data db
    (map (fun raw =>
            if existsb (Nat.eqb (raw_id raw)) successfully_processed_ids
            then mark_processed (completed_at_of extractor db) raw
            else raw)
         (raw_data db)).

Definition source_context (extractor : DataSource.t)
  : list (string * string) :=
  [("source_type", SourceType_value (DataSource.source_type extractor));
   ("source_name", DataSource.source_name extractor)].

(** The handler of [(ExtractionError, LoadError, DatabaseError)] when no
    transaction was open at its [rollback()], which then does nothing: the
    run row is marked failed and the error goes on to the caller. *)
Definition fail_run (env : Env) (extractor : DataSource.t) (db : DB)
    (records_extracted records_loaded records_failed : nat) (e : exn)
  : result Summary * DataSource.t * DB :=
  (Raise e, extractor,
   DataSource.complete_etl_run extractor (now env) FAILED records_extracted
     records_loaded records_failed None (Some (exn_message e)) db).

(** What reading an expired attribute of a row raises under the
    asynchronous session: the refresh it needs cannot be awaited. *)
Definition missing_greenlet : exn :=
  Exn (Foreign "MissingGreenlet")
    ("greenlet_spawn has not been called; can't call await_only() here. "
     ++ "Was IO attempted in an unexpected place?")
    [] None.

(** The same handler after the rollback of a failed load. The run row is
    expired, and [complete_etl_run] reads its [started_at] to compute the
    duration: this raises before the commit, so the row is not written,
    and the error that leaves [run] is this one instead of [e]. The
    assignments made to the row before the error stay pending in the
    session; they are not part of the database, and what a later commit
    of the same session does with them is not followed. *)
Definition fail_run_expired (extractor : DataSource.t) (db : DB) (e : exn)
  : result Summary * DataSource.t * DB :=
  match DataSource.etl_run extractor with
  | Some _ => (Raise missing_greenlet, extractor, db)
  | None => (Raise e, extractor, db)
  end.

(** [run(extractor)] *)
Definition run (env : Env) (extractor : DataSource.t) (db : DB)
  : result Summary * DataSource.t * DB :=
  (* PHASE 1: extraction *)
  match DataSource.run_incremental extractor (now env) db with
  | (Raise e, extractor, db) =>
      if isinstance e ExtractionError
      then fail_run env extractor db 0 0 0 e
      else fail_run env extractor db 0 0 0
             (ETLException_init (now env) ExtractionError
                "Unexpected error during extraction"
                (source_context extractor) (Some e))
  | (Return extract_result, extractor, db) =>
      if negb (DataSource.ex_status extract_result =? "success")
      then fail_run env extractor db 0 0 0
             (ETLException_init (now env) ExtractionError
                "Extraction phase failed"
                (source_context extractor
                 ++ [("extract_result",
                      DataSource.ex_status extract_result)])%list
                None)
      else
      let records_extracted :=
        DataSource.ex_records_extracted extract_result in
      if (records_extracted =? 0)%nat
      then (Return {| status := "success";
                      records_extracted := 0;
                      records_loaded := 0;
                      records_failed := 0;
                      message := Some "No new data";
                      error_details := [] |},
            extractor, db)
      else
      (* PHASE 2: the unprocessed raw data of the source *)
      let raw_records := unprocessed extractor db in
      (* PHASE 3: normalization *)
      let normalizer :=
        {| DataNormalizer.source_type := DataSource.source_type extractor;
           DataNormalizer.source_name := DataSource.source_name extractor |} in
      let n :=
        normalize_all normalizer raw_records
          {| normalized_items := [];
             failed_raw_ids := [];
             failed_details := [] |} in
      let records_failed := List.length (failed_raw_ids n) in
      (* PHASE 4: load *)
      let loaded : result (nat * DB) :=
        match normalized_items n with
        | [] => Return (0%nat, db)
        | items =>
            match load_raises env with
            | Some e =>
                Raise
                  (ETLException_init (now env) LoadError
                     "Failed to load normalized data"
                     (source_context extractor
                      ++ [("records_to_load",
                           str_of_nat (List.length items));
                          ("operation", "UPSERT");
                          ("table_name", "unified_items")])%list
                     (Some e))
            | None =>
                let (table, count) :=
                  PostgresLoader.load (now env) items None
                    (unified_items db) in
                Return (count, DataSource.set_unified_items db table)
            end
        end in
      match loaded with
      | Raise e => fail_run_expired extractor db e
      | Return (records_loaded, db) =>
          (* PHASE 5: mark the raw data as processed *)
          let db := mark_all extractor raw_records (failed_raw_ids n) db in
          (* PHASE 6: finalize the run *)
          let db :=
            DataSource.complete_etl_run extractor (now env)
              (if (records_failed =? 0)%nat then SUCCESS else PARTIAL)
              records_extracted records_loaded records_failed
              (DataSource.ex_checkpoint extract_result)
              (if (0 <? records_failed)%nat
               then Some (str_of_nat records_failed ++ " records failed")
               else None)
              db in
          (Return {| status :=
                       if (records_failed =? 0)%nat
                       then "success" else "partial_success";
                     records_extracted := records_extracted;
                     records_loaded := records_loaded;
                     records_failed := records_failed;
                     message := None;
                     error_details := failed_details n |},
           extractor, db)
      end
  end.

End ETLRunner.
End ETLRunner.

(** ** API client ([ingestion/extractors/api_extractor.py]) *)

Module APIExtractor.
Section APIExtractor.
Context {PF : PyFloat} {PB : PyBuiltins}.

(** Instants and delays are in microseconds. *)
Definition seconds (n : Z) : Z := (n * 1000000)%Z.

(** The attributes of the client: the configuration and the circuit
    breaker. [retry_delay] is in microseconds, [_circuit_breaker_timeout]
    in seconds as in the source; [timeout] is the float that is handed to
    the HTTP client. *)
Record t : Type := {
  source_name : string;
  api_url : string;
  max_retries : nat;
  retry_delay : Z;
  timeout : pyfloat;
  _circuit_breaker_failures : Z;
  _circuit_breaker_threshold : Z;
  _circuit_breaker_open_until : option Z;
  _circuit_breaker_timeout : Z
}.

(** [__init__] with its defaults; the default of [timeout] is [30.0]. *)
Definition init (source_name api_url : string) (timeout : pyfloat) : t :=
  {| source_name := source_name;
     api_url := api_url;
     max_retries := 3;
     retry_delay := seconds 1;
     timeout := timeout;
     _circuit_breaker_failures := 0;
     _circuit_breaker_threshold := 5;
     _circuit_breaker_open_until := None;
     _circuit_breaker_timeout := 60 |}.

Definition set_breaker (self : t) (failures : Z) (open_until : option Z)
  : t :=
  {| source_name := source_name self;
     api_url := api_url self;
     max_retries := max_retries self;
     retry_delay := retry_delay self;
     timeout := timeout self;
     _circuit_breaker_failures := failures;
     _circuit_breaker_threshold := _circuit_breaker_threshold self;
     _circuit_breaker_open_until := open_until;
     _circuit_breaker_timeout := _circuit_breaker_timeout self |}.

(** An HTTP response: the status, the body, the [Retry-After] header and
    what [raise_for_status()] raises, if anything. *)
Record Response : Type := {
  status_code : Z;
  text : string;
  retry_after_header : option string;
  raise_for_status : option exn
}.

(** What one call of [client.get] does. *)
Inductive Reply : Type :=
| Responds (response : Response)
| RaisesTimeout (e : exn)
| RaisesNetworkError (e : exn)
| RaisesOther (e : exn).

(** The world of the client: the clock, and how many requests were sent.
    The [n]-th request gets the reply [network n]. *)
Record World : Type := {
  clock : Z;
  requests : nat
}.

Definition Network : Type := nat -> Reply.

(** [await asyncio.sleep(delay)] *)
Definition sleep (delay : Z) (w : World) : World :=
  {| clock := (clock w + Z.max 0 delay)%Z; requests := requests w |}.

Definition sent (w : World) : World :=
  {| clock := clock w; requests := S (requests w) |}.

Definition at_time (now : Z) (w : World) : World :=
  {| clock := now; requests := requests w |}.

(** [utcnow] is the reading of [datetime.utcnow()]. *)
Definition _is_circuit_open (self : t) (utcnow : Z) : bool * t :=
  match _circuit_breaker_open_until self with
  | None => (false, self)
  | Some open_until =>
      if (open_until <=? utcnow)%Z
      then (false, set_breaker self 0 None)
      else (true, self)
  end.

Definition _record_failure (self : t) (utcnow : Z) : t :=
  let failures := (_circuit_breaker_failures self + 1)%Z in
  if (_circuit_breaker_threshold self <=? failures)%Z
  then set_breaker self failures
         (Some (utcnow + seconds (_circuit_breaker_timeout self))%Z)
  else set_breaker self failures (_circuit_breaker_open_until self).

Definition _record_success (self : t) : t := set_breaker self 0 None.

(** [self.retry_delay * (2 ** attempt)] *)
Definition backoff (self : t) (attempt : nat) : Z :=
  (retry_delay self * 2 ^ Z.of_nat attempt)%Z.

(** [attempt < self.max_retries - 1] *)
Definition may_retry (self : t) (attempt : nat) : bool :=
  (Z.of_nat attempt <? Z.of_nat (max_retries self) - 1)%Z.

(** The outcome of one pass through the body of the retry loop. *)
Inductive Pass : Type :=
| Continue (self : t) (w : World) (last_exception : option exn)
| Finished (r : result Response) (self : t) (w : World).

Definition request_context (self : t) (url : string)
  : list (string * string) :=
  [("api_url", url); ("source_name", source_name self)].

Definition retry_count (attempt : nat) : string * string :=
  ("retry_count", str_of_nat (attempt + 1)).

(** The handlers of [httpx.TimeoutException] and [httpx.NetworkError]. *)
Definition on_transport_error (self : t) (url : string) (attempt : nat)
    (what : string) (extra : list (string * string)) (e : exn) (w : World)
  : Pass :=
  if may_retry self attempt
  then Continue self (sleep (backoff self attempt) w) (Some e)
  else Finished
         (Raise
            (ETLException_init (clock w) NetworkError
               (what ++ " after " ++ str_of_nat (max_retries self)
                ++ " retries")
               (request_context self url ++ extra ++ [retry_count attempt])
               (Some e)))
         (_record_failure self (clock w)) w.

(** The handler of [Exception]: it also receives what the [try] block
    itself raises, other than the two errors re-raised just before it. *)
Definition on_exception (self : t) (url : string) (attempt : nat) (e : exn)
    (w : World) : Pass :=
  if may_retry self attempt
  then Continue self (sleep (backoff self attempt) w) (Some e)
  else Finished
         (Raise
            (ETLException_init (clock w) APIExtractionError
               ("Unexpected error after " ++ str_of_nat (max_retries self)
                ++ " retries")
               (request_context self url ++ [retry_count attempt])
               (Some e)))
         (_record_failure self (clock w)) w.

(** [int(response.headers.get("Retry-After", delay))]: the header as an
    integer of seconds, or the delay truncated to whole seconds; [None]
    when [int] raises. *)
Definition retry_after_seconds (self : t) (attempt : nat)
    (response : Response) : option Z :=
  match retry_after_header response with
  | Some h => int_of_str h
  | None => Some (Z.quot (backoff self attempt) (seconds 1))
  end.

Definition status_context (status : Z) (self : t) (url : string)
  : list (string * string) :=
  ("status_code", str_of_Z status) :: request_context self url.

(** The body of the [try] for a response. *)
Definition on_response (self : t) (url : string) (attempt : nat)
    (response : Response) (last : option exn) (w : World) : Pass :=
  let status := status_code response in
  if (status =? 401)%Z || (status =? 403)%Z then
    Finished
      (Raise (ETLException_init (clock w) AuthenticationError
                ("Authentication failed for " ++ url)
                (status_context status self url) None))
      (_record_failure self (clock w)) w
  else if (status =? 404)%Z then
    Finished
      (Raise (ETLException_init (clock w) ResourceNotFoundError
                ("Resource not found: " ++ url)
                (status_context 404 self url) None))
      (_record_failure self (clock w)) w
  else if (status =? 429)%Z then
    match retry_after_seconds self attempt response with
    | None =>
        on_exception self url attempt
          (Exn (Foreign "ValueError") "invalid literal for int()" [] None) w
    | Some retry_after =>
        if may_retry self attempt
        then Continue self (sleep (seconds retry_after) w) last
        else
          on_exception (_record_failure self (clock w)) url attempt
            (RateLimitError_init (clock w)
               ("Rate limit exceeded for " ++ url)
               (status_context 429 self url ++ [retry_count attempt])
               None (Some retry_after))
            w
    end
  else if (500 <=? status)%Z then
    if may_retry self attempt
    then Continue self (sleep (backoff self attempt) w) last
    else
      on_exception (_record_failure self (clock w)) url attempt
        (ETLException_init (clock w) NetworkError
           ("Server error after " ++ str_of_nat (max_retries self)
            ++ " retries")
           (status_context status self url
            ++ [retry_count attempt;
                ("response_body", truncate 500 (text response))])
           None)
        w
  else
    match raise_for_status response with
    | Some e => on_exception self url attempt e w
    | None => Finished (Return response) (_record_success self) w
    end.

(** One iteration of [for attempt in range(self.max_retries)]. *)
Definition attempt_once (network : Network) (self : t) (url : string)
    (attempt : nat) (last : option exn) (w : World) : Pass :=
  let reply := network (requests w) in
  let w := sent w in
  match reply with
  | Responds response => on_response self url attempt response last w
  | RaisesTimeout e =>
      on_transport_error self url attempt "Request timeout"
        [("timeout", repr (JFloat (timeout self)))] e w
  | RaisesNetworkError e =>
      on_transport_error self url attempt "Network error" [] e w
  | RaisesOther e => on_exception self url attempt e w
  end.

Fixpoint retry_loop (network : Network) (url : string)
    (attempts : list nat) (self : t) (last : option exn) (w : World)
  : result Response * t * World :=
  match attempts with
  | [] =>
      (Raise (ETLException_init (clock w) APIExtractionError
                "Max retries exceeded" (request_context self url) last),
       self, w)
  | attempt :: rest =>
      match attempt_once network self url attempt last w with
      | Continue self w last => retry_loop network url rest self last w
      | Finished r self w => (r, self, w)
      end
  end.

Definition circuit_open_error (self : t) (url : string) (w : World) : exn :=
  ETLException_init (clock w) APIExtractionError
    ("Circuit breaker is open for " ++ source_name self)
    [("source_name", source_name self);
     ("api_url", url);
     ("open_until",
      match _circuit_breaker_open_until self with
      | Some open_until => isoformat (naive open_until)
      | None => ""
      end)]
    None.

Definition _make_request_with_retry (network : Network) (self : t)
    (url : string) (w : World) : result Response * t * World :=
  match _is_circuit_open self (clock w) with
  | (true, self) => (Raise (circuit_open_error self url w), self, w)
  | (false, self) =>
      retry_loop network url (seq 0 (max_retries self)) self None w
  end.

(** [extract_record_id] and [extract_timestamp] *)
Definition extract_record_id (id_field : string) (record : pydict)
  : string :=
  py_str (get_or id_field record (JStr "")).

Definition extract_timestamp (timestamp_field : string) (record : pydict)
  : option datetime :=
  let timestamp_str := get timestamp_field record in
  if truthy timestamp_str
  then match timestamp_str with
       | JStr s => fromisoformat (replace_Z s)
       | _ => None
       end
  else None.

(** The client as a source, with the default field names; [fetch] is what
    [fetch_data] returns for a checkpoint. *)
Definition source (name : string) (fetch : string -> result (list pydict))
  : DataSource.t :=
  {| DataSource.source_type := API;
     DataSource.source_name := name;
     DataSource.checkpoint_type := "timestamp";
     DataSource.fetch_data := fetch;
     DataSource.extract_record_id := extract_record_id "id";
     DataSource.extract_timestamp := extract_timestamp "created_at";
     DataSource.etl_run := None |}.

End APIExtractor.
End APIExtractor.

(** ** File client ([ingestion/extractors/csv_extractor.py]) *)

Module CSVExtractor.
Section CSVExtractor.
Context {PF : PyFloat} {PB : PyBuiltins}.

Definition extract_record_id (id_column : string) (record : pydict)
  : string :=
  py_str (get_or id_column record (JStr "")).

(** Only text timestamps are payload values here. *)
Definition extract_timestamp (timestamp_column : option string)
    (record : pydict) : option datetime :=
  match timestamp_column with
  | Some column =>
      if negb (column =? "") && truthy (get column record)
      then match get column record with
           | JStr s => fromisoformat s
           | _ => None
           end
      else None
  | None => None
  end.

(** [checkpoint_type = "timestamp" if timestamp_column else "id"] *)
Definition source (name : string) (timestamp_column : option string)
    (fetch : string -> result (list pydict)) : DataSource.t :=
  {| DataSource.source_type := CSV;
     DataSource.source_name := name;
     DataSource.checkpoint_type :=
       match timestamp_column with
       | Some column => if column =? "" then "id" else "timestamp"
       | None => "id"
       end;
     DataSource.fetch_data := fetch;
     DataSource.extract_record_id := extract_record_id "id";
     DataSource.extract_timestamp := extract_timestamp timestamp_column;
     DataSource.etl_run := None |}.

End CSVExtractor.
End CSVExtractor.

(** ** Loading in batches ([PostgresLoader.load_batch]) *)

Module Batches.
Section Batches.
Context `{PF : PyFloat}.

(** [range(0, stop, step)]: the multiples of [step] below [stop]; empty for
    a negative step, and a [ValueError] for a zero one. *)
Definition range_step (stop : nat) (step : Z) : result (list nat) :=
  if (step =? 0)%Z then
    Raise (Exn (Foreign "ValueError") "range() arg 3 must not be zero" []
             None)
  else if (step <? 0)%Z then Return []
  else
    let s := Z.to_nat step in
    Return (map (fun k => (k * s)%nat) (seq 0 ((stop + s - 1) / s))).

(** [items[i:i + batch_size]] for a positive [batch_size]. *)
Definition slice {A : Type} (i size : nat) (items : list A) : list A :=
  firstn size (skipn i items).

(** The state of the loop: the table, [total_loaded], and the number of
    calls of [load] made so far. *)
Definition batch_step (clock : nat -> Z) (items : list UnifiedItemCreate)
    (etl_run_id : option nat) (size : nat)
    (state : list UnifiedItem * nat * nat) (i : nat)
  : list UnifiedItem * nat * nat :=
  let '(table, total_loaded, calls) := state in
  let (table, count) :=
    PostgresLoader.load (clock calls) (slice i size items) etl_run_id
      table in
  (table, (total_loaded + count)%nat, S calls).

(** [load_batch]: the [k]-th call of [load] reads the clock as [clock k].
    The result is the table and [total_loaded]. *)
Definition load_batch (clock : nat -> Z) (items : list UnifiedItemCreate)
    (etl_run_id : option nat) (batch_size : Z) (table : list UnifiedItem)
  : result (list UnifiedItem * nat) :=
  let* starts := range_step (List.length items) batch_size in
  Return
    (fst (fold_left
            (batch_step clock items etl_run_id (Z.to_nat batch_size))
            starts (table, 0%nat, 0%nat))).

End Batches.
End Batches.

(** ** Paging through the API ([APIExtractor.fetch_data]) *)

Module APIPages.
Section APIPages.
Context {PF : PyFloat} {PB : PyBuiltins}.
Import APIExtractor.

(** [records = data if list, data.get("data", data.get("results", []))
    if dict, else []] *)
Definition page_records (data : json) : json :=
  match data with
  | JList _ => data
  | JDict d => get_or "data" d (get_or "results" d (JList []))
  | _ => JList []
  end.

(** The one-character strings of a string, as iteration yields them. *)
Definition characters (s : string) : list json :=
  map (fun c => JStr (String c EmptyString)) (list_ascii_of_string s).

(** [all_records.extend(records)]: a list gives its elements, a string
    its characters, a dict its keys; a number or a boolean is not
    iterable ([None]: [TypeError]). *)
Definition extend (all_records : list json) (records : json)
  : option (list json) :=
  match records with
  | JList l => Some (all_records ++ l)%list
  | JStr s => Some (all_records ++ characters s)%list
  | JDict d => Some (all_records ++ map (fun kv => JStr (fst kv)) d)%list
  | _ => None
  end.

(** The test that ends the loop after a page that had records. *)
Definition last_page (data records : json) : bool :=
  match data with
  | JDict d => negb (truthy (get_or "has_next" d (JBool false)))
  | _ =>
      match records with
      | JList l => (List.length l <? 100)%nat
      | _ => true
      end
  end.

Definition page_context (self : t) (page : nat) : list (string * string) :=
  [("api_url", api_url self);
   ("source_name", source_name self);
   ("page", str_of_nat page)].

(** The two [except] clauses around the loop: the errors of the client are
    raised again as they are, any other is wrapped. *)
Definition on_fetch_error (self : t) (w : World) (page : nat)
    (all_records : list json) (e : exn) : exn :=
  if isinstance e APIExtractionError
     || isinstance e NetworkError
     || isinstance e AuthenticationError
     || isinstance e ResourceNotFoundError
  then e
  else ETLException_init (clock w) APIExtractionError
         "Unexpected error during data fetch"
         (page_context self page
          ++ [("records_fetched", str_of_nat (List.length all_records))])
         (Some e).

(** The [while True] loop, one request per page. [json_of] is
    [response.json()] on the body. The headers and the query parameters
    ([since], [page]) only go to the server, whose replies are those of
    [network]. The loop has no bound of its own: [None] is a loop that
    has not ended after [fuel] pages. *)
Fixpoint fetch_pages (json_of : string -> result json) (network : Network)
    (fuel : nat) (self : t) (w : World) (page : nat)
    (all_records : list json)
  : option (result (list json) * t * World) :=
  match fuel with
  | O => None
  | S fuel =>
      match _make_request_with_retry network self (api_url self) w with
      | (Raise e, self, w) =>
          Some (Raise (on_fetch_error self w page all_records e), self, w)
      | (Return response, self, w) =>
          match json_of (text response) with
          | Raise e =>
              Some
                (Raise
                   (on_fetch_error self w page all_records
                      (ETLException_init (clock w) APIExtractionError
                         "Failed to parse JSON response"
                         (page_context self page
                          ++ [("response_body",
                               truncate 500 (text response))])
                         (Some e))),
                 self, w)
          | Return data =>
              let records := page_records data in
              if negb (truthy records)
              then Some (Return all_records, self, w)
              else
                match extend all_records records with
                | None =>
                    Some
                      (Raise
                         (on_fetch_error self w page all_records
                            (Exn (Foreign "TypeError")
                               "object is not iterable" [] None)),
                       self, w)
                | Some all_records =>
                    if last_page data records
                    then Some (Return all_records, self, w)
                    else fetch_pages json_of network fuel self w (S page)
                           all_records
                end
          end
      end
  end.

(** [fetch_data]: the loop from page 1 with no record. *)
Definition fetch_data (json_of : string -> result json) (network : Network)
    (fuel : nat) (self : t) (w : World)
  : option (result (list json) * t * World) :=
  fetch_pages json_of network fuel self w 1 [].

End APIPages.
End APIPages.

(** ** An executable interpretation of the builtins

    Used to run the model on concrete inputs: floats are restricted to
    whole numbers, numeric text is decimal, and a datetime is written as
    the decimal number of its instant instead of ISO-8601 text, followed
    by [+00:00] when it is aware; UTC is the only offset. *)

Module WholeNumbers.

Definition floats : PyFloat :=
  {| pyfloat := Z;
     float_is_zero := fun f => (f =? 0)%Z;
     float_ge0 := fun f => (0 <=? f)%Z;
     float_le5 := fun f => (f <=? 5)%Z;
     int_of_float := fun f => Converted f |}.

Definition parse_int (s : string) : option Z :=
  option_map Z.of_int (NilZero.int_of_string s).

Definition to_float (v : @json floats) : conv Z :=
  match v with
  | JInt z => Converted z
  | JFloat f => Converted f
  | JBool b => Converted (if b then 1 else 0)%Z
  | JStr s =>
      match parse_int (strip s) with
      | Some z => Converted z
      | None => ValueOrTypeError
      end
  | _ => ValueOrTypeError
  end.

Definition to_text (v : @json floats) : string :=
  match v with
  | JNull => "None"
  | JBool true => "True"
  | JBool false => "False"
  | JInt z => str_of_Z z
  | JFloat f => str_of_Z f ++ ".0"
  | JStr s => s
  | JList _ => "[...]"
  | JDict _ => "{...}"
  end.

(** [s] without the suffix [+00:00], if it ends with it. *)
Fixpoint without_utc (s : string) : option string :=
  match s with
  | EmptyString => None
  | String c rest =>
      if s =? "+00:00" then Some EmptyString
      else option_map (String c) (without_utc rest)
  end.

Definition parse_datetime (s : string) : option datetime :=
  match without_utc s with
  | Some digits =>
      option_map (fun z => {| instant := z; utcoffset := Some 0%Z |})
        (parse_int digits)
  | None => option_map naive (parse_int s)
  end.

Definition print_datetime (d : datetime) : string :=
  match utcoffset d with
  | Some _ => str_of_Z (instant d) ++ "+00:00"
  | None => str_of_Z (instant d)
  end.

Definition builtins : @PyBuiltins floats :=
  {| float_of := to_float;
     repr := to_text;
     coerce_str := fun _ => None;
     int_of_str := fun s => parse_int (strip s);
     fromisoformat := parse_datetime;
     isoformat := print_datetime |}.

End WholeNumbers.

(** ** Concrete inputs *)

Module Scenario.
Import WholeNumbers.
#[local] Existing Instance floats.
#[local] Existing Instance builtins.

(** An item of the API source [shop], with the optional fields absent. *)
Definition widget (external_id title : string) (raw_data_id : nat)
  : @UnifiedItemCreate floats :=
  {| item_source_type := API;
     item_source_name := "shop";
     item_external_id := external_id;
     item_raw_data_id := raw_data_id;
     item_title := title;
     item_description := None;
     item_category := None;
     item_url := None;
     item_image_url := None;
     item_author := None;
     item_amount := None;
     item_quantity := None;
     item_rating := None;
     item_tags := [];
     item_extra_metadata := None;
     item_status := ACTIVE;
     item_published_at := None |}.

(** The API client of the source [shop] with its default settings. *)
Definition url : string := "https://api.example.com/data".
Definition shop_client : APIExtractor.t :=
  APIExtractor.init "shop" url 30%Z.

(** A server that answers every request with status 500. *)
Definition server_error : APIExtractor.Response :=
  {| APIExtractor.status_code := 500;
     APIExtractor.text := "boom";
     APIExtractor.retry_after_header := None;
     APIExtractor.raise_for_status :=
       Some (Exn (Foreign "HTTPStatusError") "Server error" [] None) |}.
Definition always_500 : APIExtractor.Network :=
  fun _ => APIExtractor.Responds server_error.

(** A transport on which every request times out. *)
Definition always_timeout : APIExtractor.Network :=
  fun _ =>
    APIExtractor.RaisesTimeout
      (Exn (Foreign "ConnectTimeout") "timed out" [] None).

Definition idle : APIExtractor.World :=
  {| APIExtractor.clock := 0; APIExtractor.requests := 0 |}.

(** Payloads of the API source [shop]. Instants are written as decimal
    numbers under [WholeNumbers]. *)
Definition record_a : @pydict floats :=
  [("id", JStr "1"); ("name", JStr "A"); ("price", JInt 10);
   ("created_at", JStr "1705312800")].
Definition record_b : @pydict floats :=
  [("id", JStr "2"); ("name", JStr "B"); ("price", JInt 20);
   ("created_at", JStr "1705316400")].

(** The first payload with its timestamp in UTC: the [Z] of the text makes
    the datetime aware. *)
Definition record_utc : @pydict floats :=
  [("id", JStr "1"); ("name", JStr "A"); ("price", JInt 10);
   ("created_at", JStr "1705312800Z")].

(** A payload with no timestamp field. *)
Definition record_undated : @pydict floats :=
  [("id", JStr "3"); ("name", JStr "C"); ("price", JInt 30)].

(** A payload whose title is blank and whose price is not a number. *)
Definition record_blank_title : @pydict floats :=
  [("id", JStr "4"); ("name", JStr "   "); ("price", JStr "not_a_number")].

(** A payload with a title, no id and a price that is not a number. *)
Definition record_without_id : @pydict floats :=
  [("name", JStr "E"); ("price", JStr "not_a_number")].

(** A payload with an id and a price that is not a number. *)
Definition record_bad_price : @pydict floats :=
  [("id", JStr "6"); ("name", JStr "F"); ("price", JStr "not_a_number")].

(** A source that honours the checkpoint: both records on the first
    request, nothing once a checkpoint is set. *)
Definition shop : DataSource.t :=
  APIExtractor.source "shop"
    (fun checkpoint =>
       if checkpoint =? "" then Return [record_a; record_b] else Return []).

(** The source of the recovery test: the same two records on every
    request. *)
Definition shop_replaying : DataSource.t :=
  APIExtractor.source "shop" (fun _ => Return [record_a; record_b]).


(** A source that delivers one valid record and one with a blank title. *)
Definition shop_mixed : DataSource.t :=
  APIExtractor.source "shop"
    (fun _ => Return [record_a; record_blank_title]).

(** A source whose batch has an aware and a naive timestamp. *)
Definition shop_two_zones : DataSource.t :=
  APIExtractor.source "shop" (fun _ => Return [record_utc; record_b]).

(** A source whose only record has no timestamp. *)
Definition shop_undated : DataSource.t :=
  APIExtractor.source "shop" (fun _ => Return [record_undated]).

(** A file source with id checkpoints. *)
Definition products : DataSource.t :=
  CSVExtractor.source "products" None
    (fun _ => Return [record_b; record_a]).

Definition shop_normalizer : DataNormalizer.t :=
  {| DataNormalizer.source_type := API;
     DataNormalizer.source_name := "shop" |}.

(** A run in which nothing fails, and one in which the loader raises. *)
Definition calm (now : Z) : ETLRunner.Env :=
  {| ETLRunner.now := now; ETLRunner.load_raises := None |}.
Definition failing_load (now : Z) : ETLRunner.Env :=
  {| ETLRunner.now := now;
     ETLRunner.load_raises :=
       Some (Exn (Foreign "Exception") "Simulated DB failure during load"
               [] None) |}.

(** The counts of a summary: extracted, loaded, failed. *)
Definition counts (r : result ETLRunner.Summary) : option (nat * nat * nat) :=
  match r with
  | Return s =>
      Some (ETLRunner.records_extracted s, ETLRunner.records_loaded s,
            ETLRunner.records_failed s)
  | Raise _ => None
  end.

(** Instants of the examples, in microseconds. *)
Definition t1 : Z := 1705320000.
Definition t2 : Z := 1705330000.

End Scenario.

(** ** Further concrete inputs *)

Module Replies.
Import WholeNumbers Scenario.
#[local] Existing Instance floats.
#[local] Existing Instance builtins.

(** A reply of status 200 with the given body. *)
Definition ok_response (body : string) : APIExtractor.Response :=
  {| APIExtractor.status_code := 200;
     APIExtractor.text := body;
     APIExtractor.retry_after_header := None;
     APIExtractor.raise_for_status := None |}.

(** A reply of status 401. *)
Definition denied : APIExtractor.Response :=
  {| APIExtractor.status_code := 401;
     APIExtractor.text := "denied";
     APIExtractor.retry_after_header := None;
     APIExtractor.raise_for_status :=
       Some (Exn (Foreign "HTTPStatusError") "Client error" [] None) |}.

(** A reply of status 429 that asks for a wait of seven seconds. *)
Definition limited : APIExtractor.Response :=
  {| APIExtractor.status_code := 429;
     APIExtractor.text := "slow down";
     APIExtractor.retry_after_header := Some "7";
     APIExtractor.raise_for_status :=
       Some (Exn (Foreign "HTTPStatusError") "Client error" [] None) |}.

Definition timed_out : exn :=
  Exn (Foreign "ConnectTimeout") "timed out" [] None.

Definition always_ok : APIExtractor.Network :=
  fun _ => APIExtractor.Responds (ok_response "short").
Definition always_denied : APIExtractor.Network :=
  fun _ => APIExtractor.Responds denied.
Definition limited_then_ok : APIExtractor.Network :=
  fun n =>
    match n with
    | O => APIExtractor.Responds limited
    | _ => APIExtractor.Responds (ok_response "short")
    end.

(** The bodies the servers of the paging examples send, and what
    [response.json()] makes of them. *)
Definition full_page : list (@json floats) := repeat (JInt 1) 100.
Definition short_page : list (@json floats) := [JInt 2].
Definition more_object : @pydict floats :=
  [("data", JList [JInt 1]); ("has_next", JBool true)].
Definition end_object : @pydict floats := [("data", JList [JInt 2])].

Definition json_of (body : string) : result (@json floats) :=
  if body =? "full" then Return (JList full_page)
  else if body =? "short" then Return (JList short_page)
  else if body =? "more" then Return (JDict more_object)
  else if body =? "end" then Return (JDict end_object)
  else Raise (Exn (Foreign "JSONDecodeError") "Expecting value" [] None).

Definition list_server : APIExtractor.Network :=
  fun n =>
    match n with
    | O => APIExtractor.Responds (ok_response "full")
    | _ => APIExtractor.Responds (ok_response "short")
    end.
Definition object_server : APIExtractor.Network :=
  fun n =>
    match n with
    | O => APIExtractor.Responds (ok_response "more")
    | _ => APIExtractor.Responds (ok_response "end")
    end.
Definition garbled_server : APIExtractor.Network :=
  fun _ => APIExtractor.Responds (ok_response "<html>").

(** A source whose client gives up on a timeout. *)
Definition shop_down : DataSource.t :=
  APIExtractor.source "shop"
    (fun _ =>
       Raise (Exn NetworkError "Request timeout after 3 retries" []
                (Some timed_out))).

(** Three items, two of them under the same key. *)
Definition three_widgets : list (@UnifiedItemCreate floats) :=
  [widget "1" "old" 1; widget "1" "new" 2; widget "2" "other" 3].

(** The checkpoint writes of three runs. *)
Definition three_runs : list (Z * string * ETLStatus * nat) :=
  [(1%Z, "a", SUCCESS, 2%nat); (2%Z, "a", FAILED, 0%nat);
   (3%Z, "c", SUCCESS, 5%nat)].

End Replies.

(** * Properties of the loader *)

Section LoaderProperties.
Context `{PF : PyFloat}.
Import PostgresLoader.

(** The table after the statements of [items], without the count. *)
Definition run_statements (now : Z) (etl_run_id : option nat)
    (items : list UnifiedItemCreate) (table : list UnifiedItem)
  : list UnifiedItem :=
  fold_left (fun t item => execute (proposed_row now etl_run_id item) t)
            items table.

(** A row with its [updated_at] column blanked. *)
Definition without_updated_at (row : UnifiedItem) : UnifiedItem :=
  {| ui_source_type := ui_source_type row;
     ui_source_name := ui_source_name row;
     ui_external_id := ui_external_id row;
     ui_raw_data_id := ui_raw_data_id row;
     ui_title := ui_title row;
     ui_description := ui_description row;
     ui_category := ui_category row;
     ui_url := ui_url row;
     ui_image_url := ui_image_url row;
     ui_author := ui_author row;
     ui_amount := ui_amount row;
     ui_quantity := ui_quantity row;
     ui_rating := ui_rating row;
     ui_tags := ui_tags row;
     ui_metadata := ui_metadata row;
     ui_status := ui_status row;
     ui_published_at := ui_published_at row;
     ui_created_at := ui_created_at row;
     ui_updated_at := 0%Z;
     ui_etl_run_id := ui_etl_run_id row |}.

(** Whether the statement for [item] conflicts with [row]. *)
Definition hits (row : UnifiedItem) (item : UnifiedItemCreate) : bool :=
  SourceType_eqb (ui_source_type row) (item_source_type item)
  && (ui_source_name row =? item_source_name item)
  && (ui_external_id row =? item_external_id item).

(** What a row becomes under the statements that conflict with it. *)
Definition absorb (now : Z) (etl_run_id : option nat)
    (items : list UnifiedItemCreate) (row : UnifiedItem) : UnifiedItem :=
  fold_left
    (fun r item => on_conflict_do_update r (proposed_row now etl_run_id item))
    items row.

Lemma SourceType_eqb_eq (a b : SourceType) :
  SourceType_eqb a b = true <-> a = b.
Proof. destruct a, b; simpl; split; intros H; congruence. Qed.

Lemma conflicts_key (a b : UnifiedItem) :
  conflicts a b = true <-> key a = key b.
Proof.
  unfold conflicts, key.
  rewrite !andb_true_iff, SourceType_eqb_eq, !String.eqb_eq.
  split.
  - intros [[-> ->] ->]. reflexivity.
  - intros H. inversion H. auto.
Qed.

Lemma load_as_fold now items rid table :
  load now items rid table =
  fold_left
    (fun (state : list UnifiedItem * nat) item =>
       (execute (proposed_row now rid item) (fst state), (snd state + 1)%nat))
    items (table, 0%nat).
Proof. destruct items; reflexivity. Qed.

Lemma fold_count now rid items :
  forall table n,
    snd (fold_left
           (fun (state : list UnifiedItem * nat) item =>
              (execute (proposed_row now rid item) (fst state),
               (snd state + 1)%nat))
           items (table, n))
    = (n + List.length items)%nat.
Proof.
  induction items as [|item items IH]; intros table n; simpl.
  - lia.
  - rewrite IH. lia.
Qed.

Lemma fold_table now rid items :
  forall table n,
    fst (fold_left
           (fun (state : list UnifiedItem * nat) item =>
              (execute (proposed_row now rid item) (fst state),
               (snd state + 1)%nat))
           items (table, n))
    = run_statements now rid items table.
Proof.
  induction items as [|item items IH]; intros table n; simpl.
  - reflexivity.
  - apply IH.
Qed.

Lemma load_table now items rid table :
  fst (load now items rid table) = run_statements now rid items table.
Proof. rewrite load_as_fold. apply fold_table. Qed.

Lemma load_count now items rid table :
  snd (load now items rid table) = List.length items.
Proof. rewrite load_as_fold, fold_count. reflexivity. Qed.

(** *** Keys *)

Lemma execute_keys (x : UnifiedItem) :
  forall table,
    map key (execute x table) =
    if existsb (fun r => conflicts r x) table
    then map key table
    else (map key table ++ [key x])%list.
Proof.
  induction table as [|r rest IH]; simpl.
  - reflexivity.
  - destruct (conflicts r x) eqn:Hc; simpl.
    + reflexivity.
    + rewrite IH. destruct (existsb _ rest); reflexivity.
Qed.

Lemma no_conflict_fresh (x : UnifiedItem) :
  forall table,
    existsb (fun r => conflicts r x) table = false ->
    ~ In (key x) (map key table).
Proof.
  induction table as [|r rest IH]; simpl; intros H.
  - tauto.
  - apply orb_false_iff in H. destruct H as [Hc Hrest].
    intros [Heq | Hin].
    + apply conflicts_key in Heq. congruence.
    + exact (IH Hrest Hin).
Qed.

Lemma execute_NoDup (x : UnifiedItem) (table : list UnifiedItem) :
  NoDup (map key table) -> NoDup (map key (execute x table)).
Proof.
  intros Hnd. rewrite execute_keys.
  destruct (existsb _ table) eqn:Hex.
  - exact Hnd.
  - apply NoDup_app.
    + exact Hnd.
    + repeat constructor. simpl. tauto.
    + intros k Hk [<- | []]. exact (no_conflict_fresh x table Hex Hk).
Qed.

Lemma run_statements_NoDup now rid items :
  forall table,
    NoDup (map key table) ->
    NoDup (map key (run_statements now rid items table)).
Proof.
  induction items as [|item items IH]; intros table Hnd; simpl.
  - exact Hnd.
  - apply IH, execute_NoDup, Hnd.
Qed.

(** *** Rows *)

Lemma update_update (r x y : UnifiedItem) :
  on_conflict_do_update (on_conflict_do_update r x) y
  = on_conflict_do_update r y.
Proof. reflexivity. Qed.

Lemma update_absorb now rid items :
  forall r y,
    on_conflict_do_update (absorb now rid items r) y
    = on_conflict_do_update r y.
Proof.
  induction items as [|item items IH]; intros r y; simpl.
  - reflexivity.
  - unfold absorb in *. simpl. rewrite IH. apply update_update.
Qed.

Lemma absorb_last now rid items item (r : UnifiedItem) :
  absorb now rid (items ++ [item]) r
  = on_conflict_do_update r (proposed_row now rid item).
Proof.
  unfold absorb. rewrite fold_left_app. simpl.
  apply (update_absorb now rid items).
Qed.

Lemma hits_conflicts now rid (r : UnifiedItem) item :
  conflicts r (proposed_row now rid item) = hits r item.
Proof. reflexivity. Qed.

Lemma hits_update (r x : UnifiedItem) item :
  hits (on_conflict_do_update r x) item = hits r item.
Proof. reflexivity. Qed.

Lemma hits_absorb now rid items :
  forall r item, hits (absorb now rid items r) item = hits r item.
Proof.
  induction items as [|i items IH]; intros r item.
  - reflexivity.
  - unfold absorb in *. simpl. rewrite IH. apply hits_update.
Qed.

Lemma hits_proposed now rid item :
  hits (proposed_row now rid item) item = true.
Proof.
  unfold hits. simpl. rewrite !String.eqb_refl.
  destruct (item_source_type item); reflexivity.
Qed.

(** The statements split by the first row of the table: those that conflict
    with it are absorbed by it, the others go on to the rest. *)
Lemma run_statements_cons now rid items :
  forall r rest,
    run_statements now rid items (r :: rest)
    = absorb now rid (filter (hits r) items) r
      :: run_statements now rid
           (filter (fun item => negb (hits r item)) items) rest.
Proof.
  induction items as [|item items IH]; intros r rest.
  - reflexivity.
  - unfold run_statements in *. simpl.
    rewrite hits_conflicts. destruct (hits r item) eqn:Hh; simpl.
    + rewrite IH. reflexivity.
    + apply IH.
Qed.

Lemma nil_or_last {A} (l : list A) :
  l = [] \/ exists l' a, l = (l' ++ [a])%list.
Proof.
  induction l as [|a l' _] using rev_ind.
  - now left.
  - right. now exists l', a.
Qed.

(** Any view [f] of the rows that cannot tell a conflicting update at
    [now2] from one at [now1] is left unchanged by running the statements
    a second time. *)
Section SecondPass.
Variables (now1 now2 : Z) (rid : option nat).
Variable f : UnifiedItem -> UnifiedItem.
Hypothesis f_update :
  forall (r : UnifiedItem) item,
    f (on_conflict_do_update r (proposed_row now2 rid item))
    = f (on_conflict_do_update r (proposed_row now1 rid item)).
Hypothesis f_insert :
  forall item,
    f (on_conflict_do_update (proposed_row now1 rid item)
         (proposed_row now2 rid item))
    = f (proposed_row now1 rid item).

Lemma absorb_twice items (r : UnifiedItem) :
  f (absorb now2 rid items (absorb now1 rid items r))
  = f (absorb now1 rid items r).
Proof.
  destruct (nil_or_last items) as [-> | (items' & item & ->)].
  - reflexivity.
  - rewrite !absorb_last, update_update. apply f_update.
Qed.

Lemma absorb_inserted item items :
  f (absorb now2 rid (item :: items)
       (absorb now1 rid items (proposed_row now1 rid item)))
  = f (absorb now1 rid items (proposed_row now1 rid item)).
Proof.
  destruct (nil_or_last items) as [-> | (items' & last & ->)].
  - simpl. apply f_insert.
  - rewrite app_comm_cons, !absorb_last, update_update. apply f_update.
Qed.

Lemma second_pass_bounded :
  forall n items table,
    (List.length items + List.length table <= n)%nat ->
    map f (run_statements now2 rid items
             (run_statements now1 rid items table))
    = map f (run_statements now1 rid items table).
Proof.
  induction n as [|n IH]; intros items table Hn.
  - destruct items, table; simpl in Hn; try lia. reflexivity.
  - destruct table as [|r rest].
    + destruct items as [|item items]; [reflexivity|].
      change (run_statements now1 rid (item :: items) [])
        with (run_statements now1 rid items [proposed_row now1 rid item]).
      rewrite run_statements_cons.
      rewrite run_statements_cons.
      simpl filter.
      rewrite hits_absorb, hits_proposed. simpl.
      rewrite (filter_ext _ (hits (proposed_row now1 rid item)))
        by (intros a; apply hits_absorb).
      rewrite (filter_ext
                 (fun i => negb (hits (absorb now1 rid _ _) i))
                 (fun i => negb (hits (proposed_row now1 rid item) i)))
        by (intros a; now rewrite hits_absorb).
      f_equal.
      * apply absorb_inserted.
      * apply IH.
        pose proof (filter_length_le
                      (fun i => negb (hits (proposed_row now1 rid item) i))
                      items).
        simpl in *. lia.
    + rewrite run_statements_cons.
      rewrite run_statements_cons.
      rewrite (filter_ext _ (hits r)) by (intros a; apply hits_absorb).
      rewrite (filter_ext
                 (fun i => negb (hits (absorb now1 rid _ _) i))
                 (fun i => negb (hits r i)))
        by (intros a; now rewrite hits_absorb).
      simpl. f_equal.
      * apply absorb_twice.
      * apply IH.
        pose proof (filter_length_le (fun i => negb (hits r i)) items).
        simpl in *. lia.
Qed.

Lemma second_pass items table :
  map f (run_statements now2 rid items (run_statements now1 rid items table))
  = map f (run_statements now1 rid items table).
Proof. now apply (second_pass_bounded _ items table (le_n _)). Qed.

End SecondPass.

(** *** The instant of a load *)

(** What a load at [now] of [items] makes of the stored row [r]: a row
    that some item conflicts with takes the instant of the load in its
    [updated_at], any other row is left as it was. *)
Definition touched (now : Z) (items : list UnifiedItemCreate)
    (r r' : UnifiedItem) : Prop :=
  if existsb (hits r) items then ui_updated_at r' = now else r' = r.

Lemma filter_existsb_false {A} (p : A -> bool) (l : list A) :
  existsb p l = false -> filter p l = [].
Proof.
  induction l as [|a l IH]; simpl; [reflexivity|].
  destruct (p a); simpl; [discriminate | exact IH].
Qed.

Lemma absorb_touched now rid items (r : UnifiedItem) :
  touched now items r (absorb now rid (filter (hits r) items) r).
Proof.
  unfold touched.
  destruct (existsb (hits r) items) eqn:E.
  - apply existsb_exists in E. destruct E as (item & Hin & Hh).
    assert (Hsel : In item (filter (hits r) items))
      by (apply filter_In; now split).
    destruct (nil_or_last (filter (hits r) items))
      as [Hnil | (l & a & Hl)].
    + rewrite Hnil in Hsel. destruct Hsel.
    + rewrite Hl, absorb_last. reflexivity.
  - now rewrite (filter_existsb_false _ _ E).
Qed.

Lemma hits_same_key (r r' : UnifiedItem) item :
  hits r item = true -> hits r' item = true -> key r = key r'.
Proof.
  rewrite <- !(hits_conflicts 0%Z None), !conflicts_key. congruence.
Qed.

(** The statements that do not conflict with [r] hold every statement
    that conflicts with a row of another key. *)
Lemma existsb_hits_others (r r' : UnifiedItem) :
  key r <> key r' ->
  forall items,
    existsb (hits r') (filter (fun item => negb (hits r item)) items)
    = existsb (hits r') items.
Proof.
  intros Hne. induction items as [|item items IH]; simpl; [reflexivity|].
  destruct (hits r item) eqn:Hr; simpl.
  - destruct (hits r' item) eqn:Hr'; [|exact IH].
    elim Hne. exact (hits_same_key r r' item Hr Hr').
  - now rewrite IH.
Qed.

Lemma Forall2_impl_In {A B} (R R' : A -> B -> Prop) (l : list A)
    (l' : list B) :
  (forall a b, In a l -> R a b -> R' a b) ->
  Forall2 R l l' -> Forall2 R' l l'.
Proof.
  intros H F. induction F as [|a b l l' Hab F IH]; constructor.
  - apply H; [now left | exact Hab].
  - apply IH. intros x y Hx. apply H. now right.
Qed.

(** With one row per key, a load rewrites the stored rows in place, each
    of them [touched], and appends the rows it inserts. *)
Lemma run_statements_touched now rid :
  forall table items,
    NoDup (map key table) ->
    exists updated inserted,
      run_statements now rid items table = (updated ++ inserted)%list
      /\ Forall2 (touched now items) table updated.
Proof.
  induction table as [|r rest IH]; intros items Hnd.
  - exists [], (run_statements now rid items []).
    split; [reflexivity | constructor].
  - rewrite run_statements_cons.
    simpl in Hnd. inversion Hnd as [|? ? Hfresh Hnd']; subst.
    destruct (IH (filter (fun item => negb (hits r item)) items) Hnd')
      as (updated & inserted & Heq & Hall).
    exists (absorb now rid (filter (hits r) items) r :: updated), inserted.
    split; [now rewrite Heq|].
    constructor; [apply absorb_touched|].
    apply (Forall2_impl_In
             (touched now (filter (fun item => negb (hits r item)) items)));
      [|exact Hall].
    intros a b Ha. unfold touched.
    rewrite (existsb_hits_others r a); [tauto|].
    intros Hk. apply Hfresh. rewrite Hk. now apply in_map.
Qed.

End LoaderProperties.

(** C10: the loader returns the length of the list it was given, whether a
    statement inserted a row or updated one, so loading the same items
    again reports the same count. *)
Theorem load_returns_item_count `{PF : PyFloat}
    (now : Z) (items : list UnifiedItemCreate) (etl_run_id : option nat)
    (table : list UnifiedItem) :
  snd (PostgresLoader.load now items etl_run_id table) = List.length items
  /\ forall now',
       snd (PostgresLoader.load now' items etl_run_id
              (fst (PostgresLoader.load now items etl_run_id table)))
       = snd (PostgresLoader.load now items etl_run_id table).
Proof.
  split.
  - apply load_count.
  - intros now'. now rewrite !load_count.
Qed.

(** C3, as amended: loading the same items a second time adds no row and
    leaves no duplicate key; every row keeps the values the first load
    left, except [updated_at]: in each row that one of the items conflicts
    with it takes the instant of the second load, and a row that no item
    conflicts with is left as it was; when both loads read the same
    instant the table is unchanged. *)
Theorem load_twice_same_rows `{PF : PyFloat}
    (now1 now2 : Z) (items : list UnifiedItemCreate)
    (etl_run_id : option nat) (table : list UnifiedItem) :
  NoDup (map PostgresLoader.key table) ->
  let once := fst (PostgresLoader.load now1 items etl_run_id table) in
  let twice := fst (PostgresLoader.load now2 items etl_run_id once) in
  NoDup (map PostgresLoader.key twice)
  /\ map without_updated_at twice = map without_updated_at once
  /\ Forall2
       (fun row row' =>
          if existsb (hits row) items
          then ui_updated_at row' = now2
          else row' = row)
       once twice
  /\ (now2 = now1 -> twice = once).
Proof.
  intros Hnd once twice. subst once twice.
  rewrite !load_table.
  assert (Hsame :
            map without_updated_at
              (run_statements now2 etl_run_id items
                 (run_statements now1 etl_run_id items table))
            = map without_updated_at
                (run_statements now1 etl_run_id items table))
    by (apply second_pass; reflexivity).
  split; [|split; [exact Hsame|split]].
  - now apply run_statements_NoDup, run_statements_NoDup.
  - destruct (run_statements_touched now2 etl_run_id
                (run_statements now1 etl_run_id items table) items)
      as (updated & inserted & Heq & Hall);
      [now apply run_statements_NoDup|].
    assert (Hlen : List.length inserted = 0%nat).
    { apply (f_equal (@List.length _)) in Hsame.
      rewrite !length_map, Heq, length_app in Hsame.
      rewrite (Forall2_length Hall) in Hsame. lia. }
    destruct inserted; [|discriminate].
    rewrite Heq, app_nil_r. exact Hall.
  - intros ->.
    rewrite <- (map_id (run_statements now1 etl_run_id items
                          (run_statements now1 etl_run_id items table))).
    rewrite <- (map_id (run_statements now1 etl_run_id items table)) at 2.
    apply second_pass; reflexivity.
Qed.

(** * Properties of the API client *)

Section BreakerProperties.
Context {PF : PyFloat} {PB : PyBuiltins}.
Import APIExtractor.

(** The failures recorded at the instants [times], in order. *)
Definition record_failures (self : t) (times : list Z) : t :=
  fold_left _record_failure times self.

(** Requests made one after the other with the same client, the clock
    reading [start] when each begins: the results, and the client and the
    world after the last. *)
Fixpoint requests_at (network : Network) (url : string) (starts : list Z)
    (self : t) (w : World) : list (result Response) * t * World :=
  match starts with
  | [] => ([], self, w)
  | start :: rest =>
      let first := _make_request_with_retry network self url
                     (at_time start w) in
      let others :=
        requests_at network url rest (snd (fst first)) (snd first) in
      (fst (fst first) :: fst (fst others), snd (fst others), snd others)
  end.

Lemma record_failure_config (self : t) (now : Z) :
  _circuit_breaker_threshold (_record_failure self now)
  = _circuit_breaker_threshold self
  /\ _circuit_breaker_timeout (_record_failure self now)
     = _circuit_breaker_timeout self
  /\ max_retries (_record_failure self now) = max_retries self
  /\ _circuit_breaker_failures (_record_failure self now)
     = (_circuit_breaker_failures self + 1)%Z.
Proof.
  unfold _record_failure.
  destruct (_ <=? _)%Z; simpl; auto.
Qed.

Lemma record_failures_config (times : list Z) :
  forall self,
    _circuit_breaker_threshold (record_failures self times)
    = _circuit_breaker_threshold self
    /\ _circuit_breaker_timeout (record_failures self times)
       = _circuit_breaker_timeout self
    /\ max_retries (record_failures self times) = max_retries self
    /\ _circuit_breaker_failures (record_failures self times)
       = (_circuit_breaker_failures self + Z.of_nat (List.length times))%Z.
Proof.
  induction times as [|now times IH]; intros self.
  - simpl. repeat split; lia.
  - unfold record_failures in *. cbn [fold_left List.length].
    destruct (IH (_record_failure self now)) as (H1 & H2 & H3 & H4).
    destruct (record_failure_config self now) as (G1 & G2 & G3 & G4).
    rewrite H1, H2, H3, H4, G1, G2, G3, G4.
    repeat split; lia.
Qed.

(** Once the tally reaches the threshold the breaker is open until the
    cooldown after the last failure has passed. *)
Lemma record_failure_opens (self : t) (now : Z) :
  (_circuit_breaker_threshold self <= _circuit_breaker_failures self + 1)%Z ->
  _circuit_breaker_open_until (_record_failure self now)
  = Some (now + seconds (_circuit_breaker_timeout self))%Z.
Proof.
  intros H. unfold _record_failure.
  destruct (Z.leb_spec (_circuit_breaker_threshold self)
                       (_circuit_breaker_failures self + 1)) as [_|Hlt];
    [|lia].
  reflexivity.
Qed.

(** Every pass through the loop body sends exactly one request. *)
Lemma attempt_once_sends (network : Network) (self : t) (url : string)
    (attempt : nat) (last : option exn) (w : World) :
  match attempt_once network self url attempt last w with
  | Continue _ w' _ => requests w' = S (requests w)
  | Finished _ _ w' => requests w' = S (requests w)
  end.
Proof.
  unfold attempt_once, on_response, on_transport_error, on_exception.
  destruct (network (requests w)) as [response | e | e | e];
    repeat match goal with
           | |- context [if ?b then _ else _] => destruct b
           | |- context [match ?o with Some _ => _ | None => _ end] =>
               destruct o
           end; reflexivity.
Qed.

Lemma retry_loop_sends (network : Network) (url : string) :
  forall attempts self last w,
    (requests w <= requests (snd (retry_loop network url attempts self
                                    last w)))%nat.
Proof.
  induction attempts as [|attempt rest IH]; intros self last w; simpl.
  - lia.
  - pose proof (attempt_once_sends network self url attempt last w) as H.
    destruct (attempt_once network self url attempt last w)
      as [self' w' last' | r self' w'].
    + specialize (IH self' last' w'). lia.
    + simpl. lia.
Qed.



End BreakerProperties.

(** * Properties of normalization *)

Section NormalizerProperties.
Context {PF : PyFloat} {PB : PyBuiltins}.
Import Schema DataNormalizer.

(** The value each normalizer hands to the [title] field. *)
Definition title_value (kind : SourceType) (record : pydict) : json :=
  match kind with
  | API => get_or "name" record (get_or "title" record (JStr "Untitled"))
  | CSV =>
      get_or "product_name" record
        (get_or "name" record (get_or "title" record (JStr "Untitled")))
  | RSS => get_or "title" record (JStr "Untitled")
  | FEED => JNull
  end.

(** The text each normalizer hands to the [external_id] field. *)
Definition external_id_value (kind : SourceType) (record : pydict)
  : string :=
  match kind with
  | API => py_str (get_or "id" record (get_or "item_id" record (JStr "")))
  | CSV => py_str (get_or "id" record (get_or "row_id" record (JStr "")))
  | RSS => py_str (get_or "id" record (get_or "guid" record (JStr "")))
  | FEED => ""
  end.

(** The values the API normalizer parses as numbers. *)
Definition price_value (record : pydict) : json :=
  get_or "price" record (get "cost" record).
Definition quantity_value (record : pydict) : json :=
  get_or "quantity" record (get "stock" record).
Definition rating_value (record : pydict) : json := get "rating" record.

(** A value that is blank, or that [float] refuses with one of the two
    exceptions the parsers catch. *)
Definition not_a_number (v : json) : Prop :=
  blank v = true \/ float_of v = ValueOrTypeError.

Definition raises {A : Type} (r : result A) : Prop :=
  exists e, r = Raise e.

Lemma init_raises (a : ItemArgs) (field : string) :
  In field (field_errors a) -> raises (UnifiedItemCreate_init a).
Proof.
  unfold UnifiedItemCreate_init, raises.
  destruct (field_errors a) as [|f fs]; simpl.
  - tauto.
  - eauto.
Qed.

Lemma blank_title_rejected (a : ItemArgs) (s : string) :
  arg_title a = JStr s -> strip s = "" -> In "title" (field_errors a).
Proof.
  intros Ht Hs. unfold field_errors. rewrite Ht.
  apply in_or_app. right. apply in_or_app. right.
  apply in_or_app. left.
  unfold str_required, as_str, length_between.
  destruct s as [|c rest].
  - simpl. auto.
  - destruct (_ && _).
    + unfold clean_title. rewrite Hs. simpl. auto.
    + simpl. auto.
Qed.

Lemma blank_external_id_rejected (a : ItemArgs) :
  arg_external_id a = "" -> In "external_id" (field_errors a).
Proof.
  intros He. unfold field_errors. rewrite He.
  apply in_or_app. right. apply in_or_app. left.
  simpl. auto.
Qed.

Lemma bind_raises {A B : Type} (r : result A) (k : A -> result B) :
  (forall a, raises (k a)) -> raises (bind r k).
Proof.
  intros Hk. destruct r as [a | e]; simpl.
  - apply Hk.
  - now exists e.
Qed.

Lemma normalize_rejects (field : string) (self : DataNormalizer.t)
    (record : pydict) (raw_data_id : nat) :
  (forall a : ItemArgs,
      arg_title a = title_value (source_type self) record ->
      arg_external_id a = external_id_value (source_type self) record ->
      In field (field_errors a)) ->
  raises (normalize self record raw_data_id).
Proof.
  intros Hfield. unfold normalize.
  destruct (source_type self) eqn:Hkind.
  - unfold _normalize_api.
    repeat (apply bind_raises; intros ?).
    apply (init_raises _ field), Hfield; reflexivity.
  - unfold _normalize_csv.
    repeat (apply bind_raises; intros ?).
    apply (init_raises _ field), Hfield; reflexivity.
  - unfold _normalize_rss.
    apply (init_raises _ field), Hfield; reflexivity.
  - eexists. reflexivity.
Qed.

Lemma parse_float_absent (v : json) :
  not_a_number v -> _parse_float v = Return None.
Proof.
  unfold _parse_float. intros [Hb | Hf].
  - now rewrite Hb.
  - rewrite Hf. now destruct (blank v).
Qed.

Lemma parse_int_absent (v : json) :
  not_a_number v -> _parse_int v = Return None.
Proof.
  unfold _parse_int. intros [Hb | Hf].
  - now rewrite Hb.
  - rewrite Hf. now destruct (blank v).
Qed.

(** The rows of a batch that normalize, and those that do not. *)
Definition normalizes (normalizer : DataNormalizer.t) (raw : RawData)
  : bool :=
  match normalize normalizer (raw_payload raw) (raw_id raw) with
  | Return _ => true
  | Raise _ => false
  end.

Definition accepted (normalizer : DataNormalizer.t)
    (raw_records : list RawData) : list UnifiedItemCreate :=
  flat_map (fun raw =>
              match normalize normalizer (raw_payload raw) (raw_id raw) with
              | Return item => [item]
              | Raise _ => []
              end)
           raw_records.

Definition rejected (normalizer : DataNormalizer.t)
    (raw_records : list RawData) : list nat :=
  map raw_id (filter (fun raw => negb (normalizes normalizer raw))
                     raw_records).

Lemma normalize_all_spec (normalizer : DataNormalizer.t) :
  forall raw_records acc,
    ETLRunner.normalized_items
      (ETLRunner.normalize_all normalizer raw_records acc)
    = (ETLRunner.normalized_items acc ++ accepted normalizer raw_records)%list
    /\ ETLRunner.failed_raw_ids
         (ETLRunner.normalize_all normalizer raw_records acc)
       = (ETLRunner.failed_raw_ids acc
          ++ rejected normalizer raw_records)%list.
Proof.
  induction raw_records as [|raw rest IH]; intros acc.
  - unfold accepted, rejected. simpl. now rewrite !app_nil_r.
  - unfold accepted, rejected, normalizes in *. simpl.
    destruct (normalize normalizer (raw_payload raw) (raw_id raw))
      as [item | e]; simpl.
    + destruct (IH {| ETLRunner.normalized_items :=
                        (ETLRunner.normalized_items acc ++ [item])%list;
                      ETLRunner.failed_raw_ids :=
                        ETLRunner.failed_raw_ids acc;
                      ETLRunner.failed_details :=
                        ETLRunner.failed_details acc |})
        as [IH1 IH2].
      rewrite IH1, IH2. simpl. now rewrite <- app_assoc.
    + match goal with
      | |- context [ETLRunner.normalize_all _ rest ?a] =>
          destruct (IH a) as [IH1 IH2]
      end.
      rewrite IH1, IH2. simpl. now rewrite <- app_assoc.
Qed.

Lemma accepted_length (normalizer : DataNormalizer.t) :
  forall raw_records,
    (List.length (accepted normalizer raw_records)
     + List.length (rejected normalizer raw_records))%nat
    = List.length raw_records.
Proof.
  induction raw_records as [|raw rest IH]; simpl.
  - reflexivity.
  - unfold accepted, rejected, normalizes in *. simpl.
    destruct (normalize normalizer (raw_payload raw) (raw_id raw));
      simpl; rewrite ?length_app; simpl; lia.
Qed.

End NormalizerProperties.

(** C7, as amended: a record whose title value is text that is empty after
    trimming, the white space trimmed being that of [str.strip] and the
    text one whose characters are below U+0100, fails normalization, and
    so does a record whose external id is empty; the orchestrator's loop
    sets aside exactly the rows whose own normalization raises and keeps
    the items of all the others; a blank value, or one [float] refuses
    with [ValueError] or [TypeError], parses to an absent number instead
    of raising, and the API item then carries no amount, quantity or
    rating. *)
Theorem title_is_the_hard_failure {PF : PyFloat} {PB : PyBuiltins} :
  (forall (self : DataNormalizer.t) record raw_data_id s,
      title_value (DataNormalizer.source_type self) record = JStr s ->
      strip s = "" ->
      raises (DataNormalizer.normalize self record raw_data_id))
  /\ (forall (self : DataNormalizer.t) record raw_data_id,
         external_id_value (DataNormalizer.source_type self) record = "" ->
         raises (DataNormalizer.normalize self record raw_data_id))
  /\ (forall normalizer raw_records,
         let n :=
           ETLRunner.normalize_all normalizer raw_records
             {| ETLRunner.normalized_items := [];
                ETLRunner.failed_raw_ids := [];
                ETLRunner.failed_details := [] |} in
         ETLRunner.normalized_items n = accepted normalizer raw_records
         /\ ETLRunner.failed_raw_ids n = rejected normalizer raw_records)
  /\ (forall v,
         not_a_number v ->
         DataNormalizer._parse_float v = Return None
         /\ DataNormalizer._parse_int v = Return None)
  /\ (forall (self : DataNormalizer.t) record raw_data_id item,
         DataNormalizer.source_type self = API ->
         not_a_number (price_value record) ->
         not_a_number (quantity_value record) ->
         not_a_number (rating_value record) ->
         DataNormalizer.normalize self record raw_data_id = Return item ->
         item_amount item = None
         /\ item_quantity item = None
         /\ item_rating item = None).
Proof.
  split; [|split; [|split; [|split]]].
  - intros self record raw_data_id s Ht Hs.
    apply (normalize_rejects "title"). intros a Ha _.
    apply (blank_title_rejected a s); congruence.
  - intros self record raw_data_id He.
    apply (normalize_rejects "external_id"). intros a _ Ha.
    apply blank_external_id_rejected. congruence.
  - intros normalizer raw_records.
    exact (normalize_all_spec normalizer raw_records
             {| ETLRunner.normalized_items := [];
                ETLRunner.failed_raw_ids := [];
                ETLRunner.failed_details := [] |}).
  - intros v Hv. split.
    + now apply parse_float_absent.
    + now apply parse_int_absent.
  - intros self record raw_data_id item Hkind Hp Hq Hr.
    unfold DataNormalizer.normalize. rewrite Hkind.
    unfold DataNormalizer._normalize_api.
    fold (price_value record) (quantity_value record) (rating_value record).
    rewrite (parse_float_absent _ Hp), (parse_int_absent _ Hq),
      (parse_float_absent _ Hr).
    simpl. unfold Schema.UnifiedItemCreate_init.
    destruct (Schema.field_errors _); [|discriminate].
    intros E. inversion E. auto.
Qed.

(** * Properties of the orchestrator *)

Section RunnerProperties.
Context {PF : PyFloat} {PB : PyBuiltins}.

(** The source client once [start_etl_run] has given it its run row. *)
Definition began (extractor : DataSource.t) (db : DB) : DataSource.t :=
  DataSource.set_etl_run extractor (Some (S (List.length (etl_runs db)))).

(** The checkpoint value a run starts from. *)
Definition watermark (extractor : DataSource.t) (db : DB) : string :=
  DataSource.current_value (DataSource.get_checkpoint extractor db).

(** The raw rows [save_raw_data] adds for [records]. *)
Definition saved_rows (extractor : DataSource.t) (now : Z)
    (records : list pydict) (db : DB) : list RawData :=
  DataSource.new_raw_rows (began extractor db) now
    (S (List.length (raw_data db))) records.

(** The database when [run_incremental] returns with at least one
    record and the new checkpoint value [w]. *)
Definition extracted (extractor : DataSource.t) (now : Z)
    (records : list pydict) (w : string) (db : DB) : DB :=
  let self := began extractor db in
  let started :=
    snd (DataSource.start_etl_run extractor now
           (Some (watermark extractor db)) db) in
  let saved := snd (DataSource.save_raw_data self now records started) in
  DataSource.create_or_update_checkpoint self now w SUCCESS
    (List.length records) None
    (DataSource.complete_etl_run self now SUCCESS (List.length records)
       (List.length records) 0 (Some w) None saved).

(** The database when the computation of the new checkpoint value raises
    [e]: the raw rows are saved by then. *)
Definition checkpoint_failed (extractor : DataSource.t) (now : Z)
    (records : list pydict) (e : exn) (db : DB) : DB :=
  let self := began extractor db in
  let started :=
    snd (DataSource.start_etl_run extractor now
           (Some (watermark extractor db)) db) in
  let saved := snd (DataSource.save_raw_data self now records started) in
  DataSource.create_or_update_checkpoint self now (watermark extractor db)
    FAILED 0 (Some (exn_str e))
    (DataSource.complete_etl_run self now FAILED 0 0 0 None
       (Some (exn_str e)) saved).

Lemma calculate_checkpoint_began (extractor : DataSource.t) (pk : option nat)
    (now : Z) (records : list pydict) :
  DataSource._calculate_checkpoint (DataSource.set_etl_run extractor pk)
    now records
  = DataSource._calculate_checkpoint extractor now records.
Proof.
  unfold DataSource._calculate_checkpoint. cbn [DataSource.set_etl_run
    DataSource.checkpoint_type DataSource.extract_record_id].
  replace (DataSource.timestamps_of (DataSource.set_etl_run extractor pk)
             records)
    with (DataSource.timestamps_of extractor records).
  - reflexivity.
  - induction records as [|r rs IH]; simpl; [reflexivity|].
    now rewrite IH.
Qed.

Lemma run_incremental_extracts (extractor : DataSource.t) (now : Z)
    (db : DB) (records : list pydict) (w : string) :
  DataSource.fetch_data extractor (watermark extractor db) = Return records ->
  records <> [] ->
  DataSource._calculate_checkpoint extractor now records = Return w ->
  DataSource.run_incremental extractor now db
  = (Return
       {| DataSource.ex_status := "success";
          DataSource.ex_records_extracted := List.length records;
          DataSource.ex_records_loaded := Some (List.length records);
          DataSource.ex_checkpoint := Some w;
          DataSource.ex_raw_data_ids :=
            map raw_id (saved_rows extractor now records db);
          DataSource.ex_message := None |},
     began extractor db, extracted extractor now records w db).
Proof.
  intros Hfetch Hne Hw.
  unfold DataSource.run_incremental, extracted, watermark in *.
  cbn [DataSource.start_etl_run DataSource.fetch_data DataSource.set_etl_run
       fst snd].
  rewrite Hfetch.
  destruct records as [|r rs]; [congruence|].
  cbn [List.length Nat.eqb].
  unfold DataSource.save_raw_data, saved_rows, began.
  cbn [fst snd DataSource.set_runs raw_data].
  rewrite !calculate_checkpoint_began, Hw.
  reflexivity.
Qed.

Lemma run_incremental_checkpoint_fails (extractor : DataSource.t) (now : Z)
    (db : DB) (records : list pydict) (e : exn) :
  DataSource.fetch_data extractor (watermark extractor db) = Return records ->
  records <> [] ->
  DataSource._calculate_checkpoint extractor now records = Raise e ->
  DataSource.run_incremental extractor now db
  = (Raise e, began extractor db, checkpoint_failed extractor now records e db).
Proof.
  intros Hfetch Hne Hw.
  unfold DataSource.run_incremental, checkpoint_failed, watermark in *.
  cbn [DataSource.start_etl_run DataSource.fetch_data DataSource.set_etl_run
       fst snd].
  rewrite Hfetch.
  destruct records as [|r rs]; [congruence|].
  cbn [List.length Nat.eqb].
  unfold DataSource.save_raw_data, began.
  cbn [fst snd DataSource.set_runs raw_data].
  rewrite !calculate_checkpoint_began, Hw.
  reflexivity.
Qed.

Definition normalizer_of (extractor : DataSource.t) : DataNormalizer.t :=
  {| DataNormalizer.source_type := DataSource.source_type extractor;
     DataNormalizer.source_name := DataSource.source_name extractor |}.

Definition no_items : ETLRunner.Normalized :=
  {| ETLRunner.normalized_items := [];
     ETLRunner.failed_raw_ids := [];
     ETLRunner.failed_details := [] |}.

(** The database after the load and marking phases of a run whose load
    does not raise, for the batch [raw_records]. *)
Definition loaded_and_marked (env : ETLRunner.Env) (self : DataSource.t)
    (raw_records : list RawData) (db : DB) : DB :=
  ETLRunner.mark_all self raw_records
    (rejected (normalizer_of self) raw_records)
    (DataSource.set_unified_items db
       (fst (PostgresLoader.load (ETLRunner.now env)
               (accepted (normalizer_of self) raw_records) None
               (unified_items db)))).

Lemma set_unified_items_same (db : DB) :
  DataSource.set_unified_items db (unified_items db) = db.
Proof. destruct db; reflexivity. Qed.

(** A run that extracts at least one record and whose load does not
    raise, or is not attempted because nothing normalized: its summary
    and its database. *)
Lemma run_completes (env : ETLRunner.Env) (extractor : DataSource.t)
    (db : DB) (records : list pydict) (w : string) :
  DataSource.fetch_data extractor (watermark extractor db) = Return records ->
  records <> [] ->
  DataSource._calculate_checkpoint extractor (ETLRunner.now env) records
  = Return w ->
  let self := began extractor db in
  let db1 := extracted extractor (ETLRunner.now env) records w db in
  let raw_records := ETLRunner.unprocessed self db1 in
  let failed :=
    List.length (rejected (normalizer_of self) raw_records) in
  ETLRunner.load_raises env = None
  \/ accepted (normalizer_of self) raw_records = [] ->
  ETLRunner.run env extractor db
  = (Return
       {| ETLRunner.status :=
            if (failed =? 0)%nat then "success" else "partial_success";
          ETLRunner.records_extracted := List.length records;
          ETLRunner.records_loaded :=
            List.length (accepted (normalizer_of self) raw_records);
          ETLRunner.records_failed := failed;
          ETLRunner.message := None;
          ETLRunner.error_details :=
            ETLRunner.failed_details
              (ETLRunner.normalize_all (normalizer_of self) raw_records
                 no_items) |},
     self,
     DataSource.complete_etl_run self (ETLRunner.now env)
       (if (failed =? 0)%nat then SUCCESS else PARTIAL)
       (List.length records)
       (List.length (accepted (normalizer_of self) raw_records))
       failed
       (Some w)
       (if (0 <? failed)%nat
        then Some (str_of_nat failed ++ " records failed") else None)
       (loaded_and_marked env self raw_records db1)).
Proof.
  intros Hfetch Hne Hw self db1 raw_records failed Hload.
  unfold ETLRunner.run.
  rewrite (run_incremental_extracts extractor (ETLRunner.now env) db records
             w Hfetch Hne Hw).
  cbn [DataSource.ex_status DataSource.ex_records_extracted
       DataSource.ex_checkpoint].
  change ("success" =? "success") with true. cbn [negb].
  destruct records as [|r rs]; [congruence|].
  cbn [List.length Nat.eqb].
  fold self db1 raw_records. fold (normalizer_of self). fold no_items.
  destruct (normalize_all_spec (normalizer_of self) raw_records no_items)
    as [Hitems Hfailed].
  cbn [no_items ETLRunner.normalized_items ETLRunner.failed_raw_ids app]
    in Hitems, Hfailed.
  rewrite Hitems, Hfailed. fold failed.
  unfold loaded_and_marked.
  destruct (accepted (normalizer_of self) raw_records) as [|item items]
    eqn:Hacc.
  - cbn [PostgresLoader.load fst List.length].
    rewrite set_unified_items_same. reflexivity.
  - destruct Hload as [Hload | Hnone]; [|discriminate].
    rewrite Hload.
    rewrite (surjective_pairing
               (PostgresLoader.load (ETLRunner.now env) (item :: items) None
                  (unified_items db1))).
    rewrite load_count. reflexivity.
Qed.

(** A run whose load raises: the database is the one the extraction
    left, and the error is the one of the handler. *)
Lemma run_load_fails (env : ETLRunner.Env) (extractor : DataSource.t)
    (db : DB) (records : list pydict) (w : string) (e : exn) :
  DataSource.fetch_data extractor (watermark extractor db) = Return records ->
  records <> [] ->
  DataSource._calculate_checkpoint extractor (ETLRunner.now env) records
  = Return w ->
  let self := began extractor db in
  let db1 := extracted extractor (ETLRunner.now env) records w db in
  let raw_records := ETLRunner.unprocessed self db1 in
  ETLRunner.load_raises env = Some e ->
  accepted (normalizer_of self) raw_records <> [] ->
  ETLRunner.run env extractor db
  = (Raise ETLRunner.missing_greenlet, self, db1).
Proof.
  intros Hfetch Hne Hw self db1 raw_records Hload Hitems0.
  unfold ETLRunner.run.
  rewrite (run_incremental_extracts extractor (ETLRunner.now env) db records
             w Hfetch Hne Hw).
  cbn [DataSource.ex_status DataSource.ex_records_extracted
       DataSource.ex_checkpoint].
  change ("success" =? "success") with true. cbn [negb].
  destruct records as [|r rs]; [congruence|].
  cbn [List.length Nat.eqb].
  fold self db1 raw_records. fold (normalizer_of self). fold no_items.
  destruct (normalize_all_spec (normalizer_of self) raw_records no_items)
    as [Hitems Hfailed].
  cbn [no_items ETLRunner.normalized_items ETLRunner.failed_raw_ids app]
    in Hitems, Hfailed.
  rewrite Hitems, Hfailed, Hload.
  destruct (accepted (normalizer_of self) raw_records) as [|item items];
    [congruence|].
  reflexivity.
Qed.

(** The database when [fetch_data] raises [e]. *)
Definition extraction_failed (extractor : DataSource.t) (now : Z) (e : exn)
    (db : DB) : DB :=
  let self := began extractor db in
  let started :=
    snd (DataSource.start_etl_run extractor now
           (Some (watermark extractor db)) db) in
  DataSource.create_or_update_checkpoint self now (watermark extractor db)
    FAILED 0 (Some (exn_str e))
    (DataSource.complete_etl_run self now FAILED 0 0 0 None
       (Some (exn_str e)) started).

(** The error the orchestrator raises when the extraction raises [e]. *)
Definition extraction_error (env : ETLRunner.Env) (self : DataSource.t)
    (e : exn) : exn :=
  if isinstance e ExtractionError then e
  else ETLException_init (ETLRunner.now env) ExtractionError
         "Unexpected error during extraction"
         (ETLRunner.source_context self) (Some e).

Lemma run_extraction_fails (env : ETLRunner.Env) (extractor : DataSource.t)
    (db : DB) (e : exn) :
  DataSource.fetch_data extractor (watermark extractor db) = Raise e ->
  let self := began extractor db in
  ETLRunner.run env extractor db
  = (Raise (extraction_error env self e), self,
     DataSource.complete_etl_run self (ETLRunner.now env) FAILED 0 0 0 None
       (Some (exn_message (extraction_error env self e)))
       (extraction_failed extractor (ETLRunner.now env) e db)).
Proof.
  intros Hfetch self.
  unfold ETLRunner.run, DataSource.run_incremental, watermark in *.
  cbn [DataSource.start_etl_run DataSource.fetch_data DataSource.set_etl_run
       fst snd].
  rewrite Hfetch. unfold extraction_error, DataSource.failed_incremental.
  destruct (isinstance e ExtractionError); reflexivity.
Qed.

(** A run in which the computation of the new checkpoint value raises. *)
Lemma run_checkpoint_fails (env : ETLRunner.Env) (extractor : DataSource.t)
    (db : DB) (records : list pydict) (e : exn) :
  DataSource.fetch_data extractor (watermark extractor db) = Return records ->
  records <> [] ->
  DataSource._calculate_checkpoint extractor (ETLRunner.now env) records
  = Raise e ->
  let self := began extractor db in
  ETLRunner.run env extractor db
  = (Raise (extraction_error env self e), self,
     DataSource.complete_etl_run self (ETLRunner.now env) FAILED 0 0 0 None
       (Some (exn_message (extraction_error env self e)))
       (checkpoint_failed extractor (ETLRunner.now env) records e db)).
Proof.
  intros Hfetch Hne Hw self.
  unfold ETLRunner.run.
  rewrite (run_incremental_checkpoint_fails extractor (ETLRunner.now env) db
             records e Hfetch Hne Hw).
  unfold extraction_error.
  destruct (isinstance e ExtractionError); reflexivity.
Qed.


(** The database when [run_incremental] returns with no record. *)
Definition nothing_new (extractor : DataSource.t) (now : Z) (db : DB) : DB :=
  let self := began extractor db in
  let started :=
    snd (DataSource.start_etl_run extractor now
           (Some (watermark extractor db)) db) in
  DataSource.create_or_update_checkpoint self now (watermark extractor db)
    SUCCESS 0 None
    (DataSource.complete_etl_run self now SUCCESS 0 0 0
       (Some (watermark extractor db)) None started).

Lemma run_without_records (env : ETLRunner.Env) (extractor : DataSource.t)
    (db : DB) :
  DataSource.fetch_data extractor (watermark extractor db) = Return [] ->
  ETLRunner.run env extractor db
  = (Return {| ETLRunner.status := "success";
               ETLRunner.records_extracted := 0;
               ETLRunner.records_loaded := 0;
               ETLRunner.records_failed := 0;
               ETLRunner.message := Some "No new data";
               ETLRunner.error_details := [] |},
     began extractor db, nothing_new extractor (ETLRunner.now env) db).
Proof.
  intros Hfetch.
  unfold ETLRunner.run, DataSource.run_incremental, watermark in *.
  cbn [DataSource.start_etl_run DataSource.fetch_data DataSource.set_etl_run
       fst snd].
  rewrite Hfetch. reflexivity.
Qed.

(** *** What each step leaves of the tables *)

Lemma complete_etl_run_tables (self : DataSource.t) now status a b c cp em
    (db : DB) :
  raw_data (DataSource.complete_etl_run self now status a b c cp em db)
  = raw_data db
  /\ unified_items
       (DataSource.complete_etl_run self now status a b c cp em db)
     = unified_items db
  /\ etl_checkpoints
       (DataSource.complete_etl_run self now status a b c cp em db)
     = etl_checkpoints db.
Proof.
  unfold DataSource.complete_etl_run.
  destruct (DataSource.etl_run self); auto.
Qed.

Lemma create_or_update_checkpoint_tables (self : DataSource.t) now v status
    n em (db : DB) :
  raw_data (DataSource.create_or_update_checkpoint self now v status n em db)
  = raw_data db
  /\ unified_items
       (DataSource.create_or_update_checkpoint self now v status n em db)
     = unified_items db
  /\ etl_runs
       (DataSource.create_or_update_checkpoint self now v status n em db)
     = etl_runs db
  /\ run_writes
       (DataSource.create_or_update_checkpoint self now v status n em db)
     = run_writes db.
Proof.
  unfold DataSource.create_or_update_checkpoint.
  destruct (DataSource.get_checkpoint self db); auto.
Qed.

Lemma raw_data_extracted (extractor : DataSource.t) now records w
    (db : DB) :
  raw_data (extracted extractor now records w db)
  = (raw_data db ++ saved_rows extractor now records db)%list.
Proof.
  unfold extracted.
  rewrite (proj1 (create_or_update_checkpoint_tables _ _ _ _ _ _ _)).
  rewrite (proj1 (complete_etl_run_tables _ _ _ _ _ _ _ _ _)).
  reflexivity.
Qed.

Lemma raw_data_checkpoint_failed (extractor : DataSource.t) now records e
    (db : DB) :
  raw_data (checkpoint_failed extractor now records e db)
  = (raw_data db ++ saved_rows extractor now records db)%list.
Proof.
  unfold checkpoint_failed.
  rewrite (proj1 (create_or_update_checkpoint_tables _ _ _ _ _ _ _)).
  rewrite (proj1 (complete_etl_run_tables _ _ _ _ _ _ _ _ _)).
  reflexivity.
Qed.

Lemma raw_data_nothing_new (extractor : DataSource.t) now (db : DB) :
  raw_data (nothing_new extractor now db) = raw_data db.
Proof.
  unfold nothing_new.
  rewrite (proj1 (create_or_update_checkpoint_tables _ _ _ _ _ _ _)).
  rewrite (proj1 (complete_etl_run_tables _ _ _ _ _ _ _ _ _)).
  reflexivity.
Qed.

(** *** The rows a run saves *)

Lemma new_raw_rows_payload (self : DataSource.t) (now : Z) :
  forall records first,
    map raw_payload (DataSource.new_raw_rows self now first records)
    = records.
Proof.
  unfold DataSource.new_raw_rows.
  induction records as [|r rs IH]; intros first; simpl.
  - reflexivity.
  - now rewrite IH.
Qed.

Lemma new_raw_rows_ids (self : DataSource.t) (now : Z) :
  forall records first,
    map raw_id (DataSource.new_raw_rows self now first records)
    = seq first (List.length records).
Proof.
  unfold DataSource.new_raw_rows.
  induction records as [|r rs IH]; intros first; simpl.
  - reflexivity.
  - now rewrite IH.
Qed.

Lemma new_raw_rows_unprocessed (self : DataSource.t) (now : Z) :
  forall records first raw,
    In raw (DataSource.new_raw_rows self now first records) ->
    raw_processed raw = false
    /\ raw_source_type raw = DataSource.source_type self
    /\ raw_source_name raw = DataSource.source_name self.
Proof.
  unfold DataSource.new_raw_rows.
  intros records first raw Hin.
  apply in_map_iff in Hin. destruct Hin as (ir & <- & _). auto.
Qed.

Lemma of_source_self (self : DataSource.t) :
  DataSource.of_source self (DataSource.source_type self)
    (DataSource.source_name self) = true.
Proof.
  unfold DataSource.of_source. rewrite String.eqb_refl.
  destruct (DataSource.source_type self); reflexivity.
Qed.


(** The primary keys of [raw_data] were given out in order. *)
Definition raw_keys_in_use (db : DB) : Prop :=
  forall raw,
    In raw (raw_data db) -> (raw_id raw <= List.length (raw_data db))%nat.

Lemma filter_none {A} (p : A -> bool) (l : list A) :
  (forall a, In a l -> p a = false) -> filter p l = [].
Proof.
  induction l as [|a l IH]; intros Hp; simpl.
  - reflexivity.
  - rewrite (Hp a (or_introl eq_refl)). apply IH.
    intros b Hb. apply Hp. now right.
Qed.



(** *** Marking *)










(** *** The run row and the writes made to it *)

(** What a run has done to [etl_runs] between [db] and [db']: it created
    the row [pk], finalized it with [statuses] in this order, and the row,
    the last of the table, satisfies [state]. *)
Definition tracked (db : DB) (pk : nat) (statuses : list ETLStatus)
    (state : ETLRun -> Prop) (db' : DB) : Prop :=
  run_writes db'
  = (run_writes db ++ RunCreated pk RUNNING
       :: map (RunFinalized pk) statuses)%list
  /\ exists older row,
       etl_runs db' = (older ++ [row])%list
       /\ List.length older = List.length (etl_runs db)
       /\ run_pk row = pk
       /\ state row.

(** The state [complete_etl_run] leaves the row in. *)
Definition finalized (now : Z) (status : ETLStatus)
    (checkpoint_after : option string) (row : ETLRun) : Prop :=
  run_status row = status
  /\ run_completed_at row = Some now
  /\ run_checkpoint_after row = checkpoint_after.

Lemma tracked_start (extractor : DataSource.t) now before (db : DB) :
  tracked db (S (List.length (etl_runs db))) []
    (fun row => run_status row = RUNNING)
    (snd (DataSource.start_etl_run extractor now before db)).
Proof.
  unfold tracked, DataSource.start_etl_run. cbn. split; [reflexivity|].
  eexists _, _. repeat split; reflexivity.
Qed.

Lemma tracked_complete (self : DataSource.t) now status a b c cp em
    (db d : DB) pk statuses state :
  DataSource.etl_run self = Some pk ->
  tracked db pk statuses state d ->
  tracked db pk (statuses ++ [status]) (finalized now status cp)
    (DataSource.complete_etl_run self now status a b c cp em d).
Proof.
  intros Hrun (Hwrites & older & row & Hrows & Hlen & Hpk & _).
  unfold tracked, DataSource.complete_etl_run. rewrite Hrun. cbn.
  split.
  - rewrite Hwrites, map_app, <- app_assoc. reflexivity.
  - rewrite Hrows, map_app. cbn. rewrite Hpk, Nat.eqb_refl.
    eexists _, _. split; [reflexivity|].
    rewrite length_map. repeat split; auto.
Qed.

Lemma tracked_same_runs (db d d' : DB) pk statuses state :
  etl_runs d' = etl_runs d ->
  run_writes d' = run_writes d ->
  tracked db pk statuses state d ->
  tracked db pk statuses state d'.
Proof.
  unfold tracked. intros -> ->. tauto.
Qed.

Lemma tracked_checkpoint (self : DataSource.t) now v status n em
    (db d : DB) pk statuses state :
  tracked db pk statuses state d ->
  tracked db pk statuses state
    (DataSource.create_or_update_checkpoint self now v status n em d).
Proof.
  apply tracked_same_runs;
    apply (create_or_update_checkpoint_tables self now v status n em d).
Qed.

Lemma tracked_extracted (extractor : DataSource.t) now records w
    (db : DB) :
  tracked db (S (List.length (etl_runs db))) [SUCCESS]
    (finalized now SUCCESS (Some w))
    (extracted extractor now records w db).
Proof.
  unfold extracted, began. cbv zeta.
  apply tracked_checkpoint.
  apply (tracked_complete _ _ _ _ _ _ _ _ _ _ _ []
           (fun row => run_status row = RUNNING)); [reflexivity|].
  unfold DataSource.save_raw_data. cbn [snd].
  apply (tracked_same_runs _
           (snd (DataSource.start_etl_run extractor now
                   (Some (watermark extractor db)) db)));
    [reflexivity | reflexivity |].
  apply tracked_start.
Qed.




Lemma tracked_loaded_and_marked (env : ETLRunner.Env) (self : DataSource.t)
    raw_records (db d : DB) pk statuses state :
  tracked db pk statuses state d ->
  tracked db pk statuses state (loaded_and_marked env self raw_records d).
Proof.
  apply tracked_same_runs; reflexivity.
Qed.

(** The statuses with which one call of [run] finalizes its row. *)
Definition finalizations (env : ETLRunner.Env) (extractor : DataSource.t)
    (db : DB) : list ETLStatus :=
  match DataSource.fetch_data extractor (watermark extractor db) with
  | Raise _ => [FAILED; FAILED]
  | Return [] => [SUCCESS]
  | Return records =>
      match
        DataSource._calculate_checkpoint extractor (ETLRunner.now env)
          records
      with
      | Raise _ => [FAILED; FAILED]
      | Return w =>
          let self := began extractor db in
          let raw_records :=
            ETLRunner.unprocessed self
              (extracted extractor (ETLRunner.now env) records w db) in
          match ETLRunner.load_raises env,
                accepted (normalizer_of self) raw_records with
          | Some _, _ :: _ => [SUCCESS]
          | _, _ =>
              match rejected (normalizer_of self) raw_records with
              | [] => [SUCCESS; SUCCESS]
              | _ => [SUCCESS; PARTIAL]
              end
          end
      end
  end.


(** *** The checkpoint row *)

Lemma get_checkpoint_began (extractor : DataSource.t) pk (db : DB) :
  DataSource.get_checkpoint (DataSource.set_etl_run extractor pk) db
  = DataSource.get_checkpoint extractor db.
Proof. reflexivity. Qed.

Lemma get_checkpoint_same (self : DataSource.t) (d d' : DB) :
  etl_checkpoints d' = etl_checkpoints d ->
  DataSource.get_checkpoint self d' = DataSource.get_checkpoint self d.
Proof. unfold DataSource.get_checkpoint. now intros ->. Qed.

Lemma find_app_none {A} (p : A -> bool) (l : list A) (a : A) :
  find p l = None -> p a = true -> find p (l ++ [a]) = Some a.
Proof.
  induction l as [|b l IH]; simpl; intros Hnone Ha.
  - now rewrite Ha.
  - destruct (p b); [discriminate|]. now apply IH.
Qed.

Lemma find_map_update {A} (p : A -> bool) (g : A -> A) (l : list A) (a : A) :
  (forall b, p (g b) = p b) ->
  find p l = Some a ->
  find p (map (fun b => if p b then g b else b) l) = Some (g a).
Proof.
  intros Hg. induction l as [|b l IH]; simpl; intros Hfind.
  - discriminate.
  - destruct (p b) eqn:Hb.
    + rewrite Hg, Hb. congruence.
    + rewrite Hb. now apply IH.
Qed.

(** After [create_or_update_checkpoint] the row of the source holds the
    value and the status it was given. *)
Lemma checkpoint_written (self : DataSource.t) now v status n em (db : DB) :
  exists c,
    DataSource.get_checkpoint self
      (DataSource.create_or_update_checkpoint self now v status n em db)
    = Some c
    /\ cp_checkpoint_value c = Some v
    /\ cp_status c = status.
Proof.
  unfold DataSource.create_or_update_checkpoint.
  destruct (DataSource.get_checkpoint self db) as [c|] eqn:Hget.
  - exists (DataSource.updated_checkpoint now v status n em c).
    split; [|split; reflexivity].
    unfold DataSource.get_checkpoint in *. cbn [etl_checkpoints
      DataSource.set_checkpoints].
    apply (find_map_update
             (fun c => DataSource.of_source self (cp_source_type c)
                         (cp_source_name c))
             (DataSource.updated_checkpoint now v status n em)).
    + reflexivity.
    + exact Hget.
  - exists (DataSource.new_checkpoint self now v status n em).
    split; [|split; reflexivity].
    unfold DataSource.get_checkpoint in *. cbn [etl_checkpoints
      DataSource.set_checkpoints].
    apply find_app_none; [exact Hget|].
    apply of_source_self.
Qed.

Lemma checkpoint_extracted (extractor : DataSource.t) now records w
    (db : DB) :
  exists c,
    DataSource.get_checkpoint extractor
      (extracted extractor now records w db)
    = Some c
    /\ cp_checkpoint_value c = Some w
    /\ cp_status c = SUCCESS.
Proof.
  unfold extracted, began. cbv zeta.
  rewrite <- (get_checkpoint_began extractor
                (Some (S (List.length (etl_runs db))))).
  apply checkpoint_written.
Qed.

(** *** Maxima *)

(** The timestamps of a batch can be compared: they are all naive or all
    aware. *)
Definition comparable (self : DataSource.t) (records : list pydict) : Prop :=
  forall r r' t t',
    In r records ->
    In r' records ->
    DataSource.extract_timestamp self r = Some t ->
    DataSource.extract_timestamp self r' = Some t' ->
    aware t = aware t'.

Lemma datetime_gt_same (a b : datetime) :
  aware a = aware b -> datetime_gt a b = Some (instant b <? instant a)%Z.
Proof.
  unfold datetime_gt. intros ->. now rewrite Bool.eqb_reflx.
Qed.

Lemma datetime_gt_mixed (a b : datetime) :
  aware a <> aware b -> datetime_gt a b = None.
Proof.
  unfold datetime_gt. intros H.
  destruct (Bool.eqb (aware a) (aware b)) eqn:E; [|reflexivity].
  apply Bool.eqb_prop in E. contradiction.
Qed.

Lemma max_datetime_spec (rest : list datetime) :
  forall best,
    (forall t, In t rest -> aware t = aware best) ->
    exists m,
      DataSource.max_datetime best rest = Some m
      /\ (m = best \/ In m rest)
      /\ (instant best <= instant m)%Z
      /\ forall t, In t rest -> (instant t <= instant m)%Z.
Proof.
  induction rest as [|a rest IH]; intros best Hsame; simpl.
  - exists best. split; [reflexivity|]. split; [now left|].
    split; [lia | intros t []].
  - rewrite (datetime_gt_same a best) by (apply Hsame; now left).
    destruct (instant best <? instant a)%Z eqn:Hlt.
    + apply Z.ltb_lt in Hlt.
      destruct (IH a) as (m & Hm & Hin & Hle & Hall).
      { intros t Ht. rewrite (Hsame t) by now right.
        symmetry. apply Hsame. now left. }
      exists m. split; [exact Hm|]. split; [|split].
      * destruct Hin as [-> | Hin]; auto.
      * lia.
      * intros t [<- | Ht]; auto.
    + apply Z.ltb_ge in Hlt.
      destruct (IH best) as (m & Hm & Hin & Hle & Hall).
      { intros t Ht. apply Hsame. now right. }
      exists m. split; [exact Hm|]. split; [|split].
      * destruct Hin as [-> | Hin]; auto.
      * exact Hle.
      * intros t [<- | Ht]; [lia | auto].
Qed.

(** [max] raises as soon as the list mixes naive and aware datetimes. *)
Lemma max_datetime_mixed (rest : list datetime) :
  forall best,
    (exists t, In t rest /\ aware t <> aware best) ->
    DataSource.max_datetime best rest = None.
Proof.
  induction rest as [|a rest IH]; intros best (t & Hin & Hmixed); simpl.
  - destruct Hin.
  - destruct (Bool.bool_dec (aware a) (aware best)) as [Hsame | Hdiff].
    + rewrite (datetime_gt_same a best Hsame).
      destruct Hin as [<- | Hin]; [contradiction|].
      destruct (instant best <? instant a)%Z; apply IH; exists t;
        (split; [exact Hin | congruence]).
    + now rewrite (datetime_gt_mixed a best Hdiff).
Qed.

(** [y] is not above [m] in the order of [max] on strings. *)
Definition str_le (y m : string) : Prop := String.ltb m y = false.

Lemma ltb_lt (a b : string) :
  String.ltb a b = true <-> OrderedTypeEx.String_as_OT.lt a b.
Proof.
  unfold String.ltb.
  rewrite <- OrderedTypeEx.String_as_OT.cmp_lt.
  unfold OrderedTypeEx.String_as_OT.cmp.
  destruct (String.compare a b); split; congruence.
Qed.

Lemma str_le_refl (a : string) : str_le a a.
Proof.
  unfold str_le. destruct (String.ltb a a) eqn:Hlt; [|reflexivity].
  apply ltb_lt in Hlt.
  now elim (OrderedTypeEx.String_as_OT.lt_not_eq _ _ Hlt).
Qed.

Lemma str_lt_total (a b : string) :
  String.ltb a b = true \/ a = b \/ String.ltb b a = true.
Proof.
  unfold String.ltb. rewrite (String.compare_antisym b a).
  destruct (String.compare a b) eqn:Hc; simpl; auto.
  right. left. now apply String.compare_eq_iff.
Qed.

Lemma str_le_trans (a b c : string) : str_le a b -> str_le b c -> str_le a c.
Proof.
  unfold str_le. intros Hab Hbc.
  destruct (String.ltb c a) eqn:Hca; [|reflexivity].
  destruct (str_lt_total b a) as [Hlt | [-> | Hlt]]; try congruence.
  apply ltb_lt in Hca, Hlt.
  assert (Hcb : String.ltb c b = true)
    by (apply ltb_lt; eapply OrderedTypeEx.String_as_OT.lt_trans; eauto).
  congruence.
Qed.

Lemma max_str_spec (a b : string) :
  (max_str a b = a \/ max_str a b = b)
  /\ str_le a (max_str a b) /\ str_le b (max_str a b).
Proof.
  unfold max_str, str_le.
  destruct (String.ltb a b) eqn:Hab.
  - repeat split; auto.
    + destruct (String.ltb b a) eqn:Hba; [|reflexivity].
      apply ltb_lt in Hab, Hba.
      pose proof (OrderedTypeEx.String_as_OT.lt_trans _ _ _ Hab Hba)
        as Haa.
      now elim (OrderedTypeEx.String_as_OT.lt_not_eq _ _ Haa).
    + apply str_le_refl.
  - repeat split; auto. apply str_le_refl.
Qed.

Lemma fold_max_str (l : list string) :
  forall x,
    let m := fold_left max_str l x in
    (m = x \/ In m l) /\ str_le x m /\ forall y, In y l -> str_le y m.
Proof.
  induction l as [|a l IH]; intros x; simpl.
  - repeat split; auto using str_le_refl; tauto.
  - destruct (IH (max_str x a)) as (Hin & Hle & Hall).
    destruct (max_str_spec x a) as (Hor & Hx & Ha).
    repeat split.
    + destruct Hin as [Hm | Hin]; [|auto].
      rewrite Hm. destruct Hor as [-> | ->]; auto.
    + eapply str_le_trans; eauto.
    + intros y [<- | Hy]; [eapply str_le_trans; eauto | auto].
Qed.

Lemma timestamps_of_In (self : DataSource.t) (records : list pydict)
    (t : datetime) :
  In t (DataSource.timestamps_of self records)
  <-> exists r, In r records /\ DataSource.extract_timestamp self r = Some t.
Proof.
  induction records as [|r rs IH]; simpl.
  - split; [tauto | intros (r & [] & _)].
  - destruct (DataSource.extract_timestamp self r) as [ts|] eqn:Hts; simpl.
    + rewrite IH. split.
      * intros [<- | (r' & Hin & Hr')]; eauto.
      * intros (r' & [<- | Hin] & Hr'); [left; congruence | right; eauto].
    + rewrite IH. split.
      * intros (r' & Hin & Hr'); eauto.
      * intros (r' & [<- | Hin] & Hr'); [congruence | eauto].
Qed.

(** [_calculate_checkpoint] returns unless the checkpoint is a timestamp
    and the batch mixes naive and aware timestamps. *)
Lemma calculate_checkpoint_returns (self : DataSource.t) (now : Z)
    (records : list pydict) :
  (DataSource.checkpoint_type self = "timestamp" -> comparable self records) ->
  exists w, DataSource._calculate_checkpoint self now records = Return w.
Proof.
  intros Hcmp. unfold DataSource._calculate_checkpoint.
  destruct (DataSource.checkpoint_type self =? "timestamp") eqn:Htype.
  - apply String.eqb_eq in Htype. specialize (Hcmp Htype).
    destruct (DataSource.timestamps_of self records) as [|t ts] eqn:Hts;
      [eauto|].
    destruct (max_datetime_spec ts t) as (m & Hm & _).
    { intros t' Ht'.
      assert (H1 : In t (DataSource.timestamps_of self records))
        by (rewrite Hts; now left).
      assert (H2 : In t' (DataSource.timestamps_of self records))
        by (rewrite Hts; now right).
      apply timestamps_of_In in H1, H2.
      destruct H1 as (r & Hr & Ht), H2 as (r' & Hr' & Ht2).
      exact (Hcmp r' r t' t Hr' Hr Ht2 Ht). }
    rewrite Hm. eauto.
  - destruct (DataSource.checkpoint_type self =? "id"); [|eauto].
    destruct (DataSource.max_of _ _); eauto.
Qed.

(** With a naive and an aware timestamp in the batch it raises. *)
Lemma calculate_checkpoint_mixed (self : DataSource.t) (now : Z)
    (records : list pydict) :
  DataSource.checkpoint_type self = "timestamp" ->
  ~ comparable self records ->
  DataSource._calculate_checkpoint self now records
  = Raise DataSource.naive_and_aware.
Proof.
  intros Htype Hmixed. unfold DataSource._calculate_checkpoint.
  rewrite Htype. cbn.
  destruct (DataSource.timestamps_of self records) as [|t ts] eqn:Hts.
  - exfalso. apply Hmixed. intros r r' a b Hr _ Ha _.
    assert (Hin : In a (DataSource.timestamps_of self records))
      by (apply timestamps_of_In; eauto).
    rewrite Hts in Hin. destruct Hin.
  - destruct (DataSource.max_datetime t ts) as [m|] eqn:Hm; [|reflexivity].
    exfalso. apply Hmixed.
    assert (Hall : forall a, In a ts -> aware a = aware t).
    { intros a Ha.
      destruct (Bool.bool_dec (aware a) (aware t)) as [E|E]; [exact E|].
      rewrite (max_datetime_mixed ts t) in Hm by eauto. discriminate. }
    assert (Hfirst : forall a,
               In a (DataSource.timestamps_of self records) ->
               aware a = aware t).
    { intros a Ha. rewrite Hts in Ha.
      destruct Ha as [<- | Ha]; [reflexivity | now apply Hall]. }
    intros r r' a b Hr Hr' Ha Hb.
    rewrite (Hfirst a), (Hfirst b); [reflexivity | |];
      apply timestamps_of_In; eauto.
Qed.

(** The value [_calculate_checkpoint] returns: the greatest timestamp among
    the records that carry one, the clock reading when none does, and the
    greatest record id for id checkpoints. *)
Lemma calculate_checkpoint_spec (self : DataSource.t) (now : Z)
    (records : list pydict) (w : string) :
  DataSource._calculate_checkpoint self now records = Return w ->
  (DataSource.checkpoint_type self = "timestamp" ->
   (forall r, In r records -> DataSource.extract_timestamp self r = None) ->
   w = isoformat (naive now))
  /\ (DataSource.checkpoint_type self = "timestamp" ->
      (exists r t,
          In r records /\ DataSource.extract_timestamp self r = Some t) ->
      exists r m,
        In r records
        /\ DataSource.extract_timestamp self r = Some m
        /\ w = isoformat m
        /\ forall r' t,
             In r' records ->
             DataSource.extract_timestamp self r' = Some t ->
             aware t = aware m /\ (instant t <= instant m)%Z)
  /\ (DataSource.checkpoint_type self = "id" ->
      records <> [] ->
      exists r,
        In r records
        /\ w = DataSource.extract_record_id self r
        /\ forall r',
             In r' records ->
             str_le (DataSource.extract_record_id self r') w).
Proof.
  unfold DataSource._calculate_checkpoint. intros Hw.
  split; [|split].
  - intros Htype Hnone. rewrite Htype in Hw. cbn in Hw.
    destruct (DataSource.timestamps_of self records) as [|t ts] eqn:Hts.
    + congruence.
    + assert (Hin : In t (DataSource.timestamps_of self records))
        by (rewrite Hts; now left).
      apply timestamps_of_In in Hin. destruct Hin as (r & Hr & Ht).
      rewrite (Hnone r Hr) in Ht. discriminate.
  - intros Htype (r0 & t0 & Hr0 & Ht0). rewrite Htype in Hw. cbn in Hw.
    assert (Hin0 : In t0 (DataSource.timestamps_of self records))
      by (apply timestamps_of_In; eauto).
    destruct (DataSource.timestamps_of self records) as [|t ts] eqn:Hts;
      [destruct Hin0|].
    destruct (DataSource.max_datetime t ts) as [m|] eqn:Hmax;
      [|discriminate].
    assert (Hsame : forall a, In a ts -> aware a = aware t).
    { intros a Ha.
      destruct (Bool.bool_dec (aware a) (aware t)) as [E|E]; [exact E|].
      rewrite (max_datetime_mixed ts t) in Hmax by eauto. discriminate. }
    destruct (max_datetime_spec ts t Hsame) as (m' & Hm' & Hm & Hle & Hall).
    rewrite Hmax in Hm'. injection Hm' as <-.
    assert (Hmin : In m (DataSource.timestamps_of self records)).
    { rewrite Hts. destruct Hm as [-> | Hm]; [now left | now right]. }
    assert (Hmt : aware m = aware t).
    { destruct Hm as [-> | Hm]; [reflexivity | now apply Hsame]. }
    apply timestamps_of_In in Hmin. destruct Hmin as (r & Hr & Hrm).
    exists r, m. split; [exact Hr|]. split; [exact Hrm|].
    split; [congruence|].
    intros r' t' Hr' Ht'.
    assert (Hin' : In t' (DataSource.timestamps_of self records))
      by (apply timestamps_of_In; eauto).
    rewrite Hts in Hin'. rewrite Hmt.
    destruct Hin' as [<- | Hin']; [split; [reflexivity | exact Hle]|].
    split; [now apply Hsame | now apply Hall].
  - intros Htype Hne. rewrite Htype in Hw. cbn in Hw.
    destruct records as [|r rs]; [congruence|].
    cbn [map DataSource.max_of] in Hw. injection Hw as <-.
    destruct (fold_max_str (map (DataSource.extract_record_id self) rs)
                (DataSource.extract_record_id self r))
      as (Hm & Hle & Hall).
    set (m := fold_left max_str _ _) in *.
    assert (Hex : exists r0, In r0 (r :: rs)
                             /\ m = DataSource.extract_record_id self r0).
    { destruct Hm as [Hm | Hm].
      - exists r. split; [now left | exact Hm].
      - apply in_map_iff in Hm. destruct Hm as (r0 & Hr0 & Hin).
        exists r0. split; [now right | now symmetry]. }
    destruct Hex as (r0 & Hin0 & Hr0).
    exists r0. repeat split; auto.
    intros r' [<- | Hr']; [exact Hle|].
    apply Hall. now apply in_map.
Qed.

End RunnerProperties.



(** C6, as amended: when a run extracts at least one record, the
    timestamps of the batch are all naive or all aware, and the load does
    not raise, the watermark written to the run row at finalization, which
    is also the value of the checkpoint row, is the greatest record id for
    id checkpoints; for timestamp checkpoints it is the greatest timestamp
    among the extracted payloads that carry one, and the clock reading
    when none of them does. *)
Theorem new_watermark_is_batch_maximum {PF : PyFloat} {PB : PyBuiltins}
    (env : ETLRunner.Env) (extractor : DataSource.t) (db : DB)
    (records : list pydict) :
  DataSource.fetch_data extractor (watermark extractor db) = Return records ->
  records <> [] ->
  (DataSource.checkpoint_type extractor = "timestamp" ->
   comparable extractor records) ->
  ETLRunner.load_raises env = None ->
  let db' := snd (ETLRunner.run env extractor db) in
  exists w,
    DataSource._calculate_checkpoint extractor (ETLRunner.now env) records
    = Return w
    /\ (exists older row,
           etl_runs db' = (older ++ [row])%list
           /\ run_pk row = S (List.length (etl_runs db))
           /\ is_terminal (run_status row) = true
           /\ run_checkpoint_after row = Some w)
    /\ (exists c,
           DataSource.get_checkpoint extractor db' = Some c
           /\ cp_checkpoint_value c = Some w)
    /\ (DataSource.checkpoint_type extractor = "timestamp" ->
        (forall r,
            In r records -> DataSource.extract_timestamp extractor r = None) ->
        w = isoformat (naive (ETLRunner.now env)))
    /\ (DataSource.checkpoint_type extractor = "timestamp" ->
        (exists r t,
            In r records
            /\ DataSource.extract_timestamp extractor r = Some t) ->
        exists r m,
          In r records
          /\ DataSource.extract_timestamp extractor r = Some m
          /\ w = isoformat m
          /\ forall r' t,
               In r' records ->
               DataSource.extract_timestamp extractor r' = Some t ->
               aware t = aware m /\ (instant t <= instant m)%Z)
    /\ (DataSource.checkpoint_type extractor = "id" ->
        exists r,
          In r records
          /\ w = DataSource.extract_record_id extractor r
          /\ forall r',
               In r' records ->
               str_le (DataSource.extract_record_id extractor r') w).
Proof.
  intros Hfetch Hne Hcmp Hload db'.
  destruct (calculate_checkpoint_returns extractor (ETLRunner.now env)
              records Hcmp) as (w & Hw).
  destruct (calculate_checkpoint_spec extractor (ETLRunner.now env) records
              w Hw)
    as (Hnone & Hsome & Hid).
  exists w. split; [exact Hw|].
  split; [|split; [|split; [|split]]].
  - subst db'.
    rewrite (run_completes env extractor db records w Hfetch Hne Hw
               (or_introl Hload)).
    cbn [snd].
    match goal with
    | |- context [DataSource.complete_etl_run ?self ?now ?status ?a ?b ?c
                    ?cp ?em ?d] =>
        assert (Ht : tracked db (S (List.length (etl_runs db)))
                       ([SUCCESS] ++ [status])
                       (finalized now status cp)
                       (DataSource.complete_etl_run self now status a b c
                          cp em d))
          by (eapply tracked_complete;
              [reflexivity
              |apply tracked_loaded_and_marked, tracked_extracted]);
        assert (Hterminal : is_terminal status = true)
          by (destruct (_ =? _)%nat; reflexivity)
    end.
    destruct Ht as (_ & older & row & Hrows & _ & Hpk & Hs & _ & Hcp).
    exists older, row. rewrite Hs. auto.
  - subst db'.
    rewrite (run_completes env extractor db records w Hfetch Hne Hw
               (or_introl Hload)).
    cbn [snd].
    destruct (checkpoint_extracted extractor (ETLRunner.now env) records w db)
      as (c & Hget & Hvalue & _).
    exists c. split; [|exact Hvalue].
    rewrite <- Hget. apply get_checkpoint_same.
    rewrite (proj2 (proj2 (complete_etl_run_tables _ _ _ _ _ _ _ _ _))).
    reflexivity.
  - exact Hnone.
  - exact Hsome.
  - intros Htype. now apply Hid.
Qed.

(** When the load raises, the checkpoint row still holds the watermark
    that the extraction computed from the records, with status success:
    the call that advances it comes before the load. The run row keeps
    the success status of the extraction, and the error that reaches the
    caller is the one raised while the row was being marked failed. *)
Lemma load_failure_keeps_advanced_checkpoint {PF : PyFloat} {PB : PyBuiltins}
    (env : ETLRunner.Env) (extractor : DataSource.t) (db : DB)
    (records : list pydict) (w : string) (e : exn) :
  DataSource.fetch_data extractor (watermark extractor db) = Return records ->
  records <> [] ->
  DataSource._calculate_checkpoint extractor (ETLRunner.now env) records
  = Return w ->
  ETLRunner.load_raises env = Some e ->
  accepted (normalizer_of extractor)
    (ETLRunner.unprocessed (began extractor db)
       (extracted extractor (ETLRunner.now env) records w db)) <> [] ->
  exists c,
    fst (fst (ETLRunner.run env extractor db))
    = Raise ETLRunner.missing_greenlet
    /\ DataSource.get_checkpoint extractor
         (snd (ETLRunner.run env extractor db)) = Some c
    /\ cp_checkpoint_value c = Some w
    /\ cp_status c = SUCCESS
    /\ finalizations env extractor db = [SUCCESS].
Proof.
  intros Hfetch Hne Hw Hload Hitems.
  rewrite (run_load_fails env extractor db records w e Hfetch Hne Hw Hload
             Hitems).
  cbn [fst snd].
  destruct (checkpoint_extracted extractor (ETLRunner.now env) records w db)
    as (c & Hget & Hvalue & Hstatus).
  exists c. split; [reflexivity|].
  split; [exact Hget|]. split; [exact Hvalue|]. split; [exact Hstatus|].
  unfold finalizations. rewrite Hfetch, Hw, Hload.
  destruct records as [|r rs]; [congruence|].
  change (normalizer_of (began extractor db)) with (normalizer_of extractor).
  destruct (accepted _ _); [congruence | reflexivity].
Qed.

(** * Further properties of the loader *)

Section LoaderFrame.
Context `{PF : PyFloat}.
Import PostgresLoader.

(** The conflict key an item is stored under. *)
Definition item_key (item : UnifiedItemCreate)
  : SourceType * string * string :=
  (item_source_type item, item_source_name item, item_external_id item).

(** A row with the two columns that only an insert writes blanked:
    [raw_data_id] and [created_at] are not in [set_]. *)
Definition set_columns (row : UnifiedItem) : UnifiedItem :=
  {| ui_source_type := ui_source_type row;
     ui_source_name := ui_source_name row;
     ui_external_id := ui_external_id row;
     ui_raw_data_id := None;
     ui_title := ui_title row;
     ui_description := ui_description row;
     ui_category := ui_category row;
     ui_url := ui_url row;
     ui_image_url := ui_image_url row;
     ui_author := ui_author row;
     ui_amount := ui_amount row;
     ui_quantity := ui_quantity row;
     ui_rating := ui_rating row;
     ui_tags := ui_tags row;
     ui_metadata := ui_metadata row;
     ui_status := ui_status row;
     ui_published_at := ui_published_at row;
     ui_created_at := 0%Z;
     ui_updated_at := ui_updated_at row;
     ui_etl_run_id := ui_etl_run_id row |}.

Lemma hits_key (row : UnifiedItem) (item : UnifiedItemCreate) :
  hits row item = true <-> key row = item_key item.
Proof.
  rewrite <- (hits_conflicts 0%Z None row item), conflicts_key.
  reflexivity.
Qed.

Lemma hits_other (row : UnifiedItem) (item : UnifiedItemCreate) :
  key row <> item_key item -> hits row item = false.
Proof.
  intros Hne. destruct (hits row item) eqn:E; [|reflexivity].
  now apply hits_key in E.
Qed.

Lemma run_statements_app now rid (a b : list UnifiedItemCreate) table :
  run_statements now rid (a ++ b)%list table
  = run_statements now rid b (run_statements now rid a table).
Proof. unfold run_statements. apply fold_left_app. Qed.

Lemma update_stores (r x : UnifiedItem) :
  key r = key x ->
  key (on_conflict_do_update r x) = key x
  /\ set_columns (on_conflict_do_update r x) = set_columns x.
Proof.
  unfold key. intros Hk. inversion Hk as [[H1 H2 H3]].
  unfold set_columns, on_conflict_do_update, key. cbn.
  rewrite H1, H2, H3. split; reflexivity.
Qed.

(** A statement leaves a row with the key and the [set_] columns of the
    row it proposed. *)
Lemma execute_stores (x : UnifiedItem) :
  forall table,
    exists row,
      In row (execute x table)
      /\ key row = key x
      /\ set_columns row = set_columns x.
Proof.
  induction table as [|r rest IH]; simpl.
  - exists x. auto.
  - destruct (conflicts r x) eqn:E.
    + apply conflicts_key in E.
      destruct (update_stores r x E) as [Hk Hs].
      exists (on_conflict_do_update r x). simpl. auto.
    + destruct IH as (row & Hin & Hk & Hs).
      exists row. simpl. auto.
Qed.

(** A statement does not touch the rows stored under another key. *)
Lemma execute_other (x row : UnifiedItem) :
  key row <> key x ->
  forall table, In row (execute x table) <-> In row table.
Proof.
  intros Hne. induction table as [|r rest IH]; simpl.
  - split; [intros [->|[]]; congruence | tauto].
  - destruct (conflicts r x) eqn:E; simpl.
    + apply conflicts_key in E. split.
      * intros [<-|H]; [|tauto].
        exfalso. apply Hne.
        now destruct (update_stores r x E).
      * intros [->|H]; [congruence | tauto].
    + rewrite IH. tauto.
Qed.

Lemma run_statements_other now rid (row : UnifiedItem) :
  forall items table,
    (forall item, In item items -> item_key item <> key row) ->
    In row (run_statements now rid items table) <-> In row table.
Proof.
  induction items as [|item items IH]; intros table Hne.
  - reflexivity.
  - change (run_statements now rid (item :: items) table)
      with (run_statements now rid items
              (execute (proposed_row now rid item) table)).
    rewrite IH by (intros i Hi; apply Hne; now right).
    apply execute_other.
    intros Hk. apply (Hne item); [now left|].
    symmetry. exact Hk.
Qed.

Lemma NoDup_map_same {A B : Type} (f : A -> B) (l : list A) :
  NoDup (map f l) ->
  forall x y, In x l -> In y l -> f x = f y -> x = y.
Proof.
  induction l as [|a l IH]; intros Hnd x y Hx Hy Hf; [destruct Hx|].
  simpl in Hnd. inversion Hnd as [|? ? Hnotin Hnd']; subst.
  destruct Hx as [->|Hx], Hy as [->|Hy]; auto.
  - exfalso. apply Hnotin. rewrite Hf. now apply in_map.
  - exfalso. apply Hnotin. rewrite <- Hf. now apply in_map.
Qed.

Lemma absorb_keeps now rid items :
  forall r : UnifiedItem,
    key (absorb now rid items r) = key r
    /\ ui_raw_data_id (absorb now rid items r) = ui_raw_data_id r
    /\ ui_created_at (absorb now rid items r) = ui_created_at r.
Proof.
  induction items as [|item items IH]; intros r; [auto|].
  change (absorb now rid (item :: items) r)
    with (absorb now rid items
            (on_conflict_do_update r (proposed_row now rid item))).
  destruct (IH (on_conflict_do_update r (proposed_row now rid item)))
    as (H1 & H2 & H3).
  rewrite H1, H2, H3. auto.
Qed.

Lemma execute_length (x : UnifiedItem) :
  forall table,
    (List.length (execute x table) <= S (List.length table))%nat.
Proof.
  induction table as [|r rest IH]; simpl; [lia|].
  destruct (conflicts r x); simpl; lia.
Qed.

Lemma run_statements_length now rid :
  forall items table,
    (List.length (run_statements now rid items table)
     <= List.length table + List.length items)%nat.
Proof.
  induction items as [|item items IH]; intros table; simpl; [lia|].
  change (fold_left _ items ?t) with (run_statements now rid items t).
  specialize (IH (execute (proposed_row now rid item) table)).
  pose proof (execute_length (proposed_row now rid item) table).
  lia.
Qed.

(** What a stored row and the row the load leaves in its place have in
    common. *)
Definition kept (items : list UnifiedItemCreate) (row row' : UnifiedItem)
  : Prop :=
  key row' = key row
  /\ ui_raw_data_id row' = ui_raw_data_id row
  /\ ui_created_at row' = ui_created_at row
  /\ ((forall item, In item items -> item_key item <> key row) ->
      row' = row).

Lemma kept_more (items items' : list UnifiedItemCreate)
    (row row' : UnifiedItem) :
  (forall item, In item items' -> In item items) ->
  kept items' row row' -> kept items row row'.
Proof.
  intros Hsub (H1 & H2 & H3 & H4). repeat split; auto.
Qed.

Lemma run_statements_kept now rid :
  forall table items,
    exists updated inserted,
      run_statements now rid items table = (updated ++ inserted)%list
      /\ Forall2 (kept items) table updated
      /\ (List.length inserted <= List.length items)%nat.
Proof.
  induction table as [|r rest IH]; intros items.
  - exists [], (run_statements now rid items []).
    split; [reflexivity|]. split; [constructor|].
    pose proof (run_statements_length now rid items []). simpl in *. lia.
  - rewrite run_statements_cons.
    destruct (IH (filter (fun item => negb (hits r item)) items))
      as (updated & inserted & Heq & Hall & Hlen).
    exists (absorb now rid (filter (hits r) items) r :: updated), inserted.
    split; [now rewrite Heq|]. split.
    + constructor.
      * destruct (absorb_keeps now rid (filter (hits r) items) r)
          as (H1 & H2 & H3).
        repeat split; auto.
        intros Hne.
        rewrite (filter_none (hits r) items); [reflexivity|].
        intros item Hin. apply hits_other.
        intros Hk. now apply (Hne item).
      * eapply Forall2_impl; [|exact Hall].
        intros a b. apply kept_more.
        intros item Hin. now apply filter_In in Hin.
    + pose proof (filter_length_le (fun item => negb (hits r item)) items).
      lia.
Qed.

End LoaderFrame.

(** X1 (upsert, lookup after insert): when the table has one row per key,
    after a load the item that comes last among the items of its key is
    the one stored: exactly one row has its key, and that row carries its
    values in every column the statement sets. *)
Theorem load_last_write_wins `{PF : PyFloat}
    (now : Z) (before after : list UnifiedItemCreate)
    (last : UnifiedItemCreate) (etl_run_id : option nat)
    (table : list UnifiedItem) :
  NoDup (map PostgresLoader.key table) ->
  (forall item, In item after -> item_key item <> item_key last) ->
  let table' :=
    fst (PostgresLoader.load now (before ++ last :: after)%list etl_run_id
           table) in
  exists row,
    In row table'
    /\ PostgresLoader.key row = item_key last
    /\ set_columns row
       = set_columns (PostgresLoader.proposed_row now etl_run_id last)
    /\ forall row',
         In row' table' ->
         PostgresLoader.key row' = item_key last -> row' = row.
Proof.
  intros Hnd Hafter table'. subst table'.
  rewrite load_table.
  change (before ++ last :: after)%list
    with (before ++ [last] ++ after)%list.
  rewrite !run_statements_app.
  set (t0 := run_statements now etl_run_id before table).
  destruct (execute_stores
              (PostgresLoader.proposed_row now etl_run_id last) t0)
    as (row & Hin & Hk & Hs).
  exists row. split; [|split; [exact Hk | split; [exact Hs|]]].
  - apply run_statements_other; [|exact Hin].
    intros item Hi. rewrite Hk. now apply Hafter.
  - intros row' Hin' Hk'.
    assert (Hnd' : NoDup
                     (map PostgresLoader.key
                        (run_statements now etl_run_id after
                           (run_statements now etl_run_id [last] t0)))).
    { now repeat apply run_statements_NoDup. }
    apply (NoDup_map_same PostgresLoader.key _ Hnd'); auto.
    + apply run_statements_other; [|exact Hin].
      intros item Hi. rewrite Hk. now apply Hafter.
    + now rewrite Hk.
Qed.

(** X2 (upsert, what it never does): a load deletes no row and moves none;
    every stored row keeps its key, its [raw_data_id] and its
    [created_at], and is left as it was when no item has its key; at most
    one row per item is appended. *)
Theorem load_keeps_stored_rows `{PF : PyFloat}
    (now : Z) (items : list UnifiedItemCreate) (etl_run_id : option nat)
    (table : list UnifiedItem) :
  exists updated inserted,
    fst (PostgresLoader.load now items etl_run_id table)
    = (updated ++ inserted)%list
    /\ Forall2
         (fun row row' =>
            PostgresLoader.key row' = PostgresLoader.key row
            /\ ui_raw_data_id row' = ui_raw_data_id row
            /\ ui_created_at row' = ui_created_at row
            /\ ((forall item, In item items ->
                              item_key item <> PostgresLoader.key row) ->
                row' = row))
         table updated
    /\ (List.length inserted <= List.length items)%nat.
Proof.
  rewrite load_table.
  exact (run_statements_kept now etl_run_id table items).
Qed.

(** * Loading in batches *)

Section BatchProperties.
Context `{PF : PyFloat}.
Import PostgresLoader Batches.

Lemma firstn_more {A : Type} (a b : nat) (l : list A) :
  (firstn a l ++ firstn b (skipn a l))%list = firstn (a + b) l.
Proof.
  revert l. induction a as [|a IH]; intros l; [reflexivity|].
  destruct l as [|x l]; simpl.
  - now rewrite firstn_nil.
  - now rewrite IH.
Qed.

(** The slices of the loop cover the list once [stop] is reached. *)
Lemma range_covers (n s : nat) :
  (1 <= s)%nat -> (n <= (n + s - 1) / s * s)%nat.
Proof.
  intros Hs.
  pose proof (Nat.div_mod_eq (n + s - 1) s) as Hdm.
  pose proof (Nat.mod_upper_bound (n + s - 1) s ltac:(lia)) as Hr.
  nia.
Qed.

Lemma load_pair now items rid (table : list UnifiedItem) :
  load now items rid table
  = (run_statements now rid items table, List.length items).
Proof.
  pose proof (load_table now items rid table) as Ht.
  pose proof (load_count now items rid table) as Hc.
  destruct (load now items rid table) as [t c].
  simpl in Ht, Hc. now subst.
Qed.

(** The loop after [q] batches, all loaded at the same instant. *)
Lemma batches_as_one now items rid (s : nat) (table : list UnifiedItem) :
  forall q,
    fold_left (batch_step (fun _ => now) items rid s)
      (map (fun k => (k * s)%nat) (seq 0 q)) (table, 0%nat, 0%nat)
    = (run_statements now rid (firstn (q * s) items) table,
       List.length (firstn (q * s) items), q).
Proof.
  induction q as [|q IH].
  - reflexivity.
  - rewrite seq_S, map_app, fold_left_app, IH.
    cbn [map fold_left batch_step Nat.add].
    rewrite load_pair. unfold slice.
    rewrite <- run_statements_app, <- length_app, firstn_more.
    now replace (q * s + s)%nat with (S q * s)%nat by lia.
Qed.

(** The count of the loop after [q] batches, whatever the clock does. *)
Lemma batches_count clock items rid (s : nat) (table : list UnifiedItem) :
  forall q,
    exists table',
      fold_left (batch_step clock items rid s)
        (map (fun k => (k * s)%nat) (seq 0 q)) (table, 0%nat, 0%nat)
      = (table', List.length (firstn (q * s) items), q).
Proof.
  induction q as [|q [table' IH]].
  - now exists table.
  - rewrite seq_S, map_app, fold_left_app, IH.
    cbn [map fold_left batch_step Nat.add].
    rewrite load_pair. unfold slice.
    eexists. rewrite <- length_app, firstn_more.
    now replace (q * s + s)%nat with (S q * s)%nat by lia.
Qed.

End BatchProperties.

(** X3 (batches compose): with a positive batch size [load_batch] reports
    the length of the list, and when all its calls read the same instant
    it leaves the table exactly as one [load] of the whole list does. *)
Theorem load_batch_is_load `{PF : PyFloat}
    (items : list UnifiedItemCreate) (etl_run_id : option nat)
    (batch_size : Z) (table : list UnifiedItem) :
  (0 < batch_size)%Z ->
  (forall now,
      Batches.load_batch (fun _ => now) items etl_run_id batch_size table
      = Return (PostgresLoader.load now items etl_run_id table))
  /\ (forall clock,
         exists table',
           Batches.load_batch clock items etl_run_id batch_size table
           = Return (table', List.length items)).
Proof.
  intros Hpos.
  assert (Hs : (1 <= Z.to_nat batch_size)%nat) by lia.
  pose proof (range_covers (List.length items) _ Hs) as Hcover.
  unfold Batches.load_batch, Batches.range_step.
  destruct (Z.eqb_spec batch_size 0) as [|_]; [lia|].
  destruct (Z.ltb_spec batch_size 0) as [|_]; [lia|].
  cbn [bind]. split.
  - intros now. rewrite batches_as_one.
    cbn [fst]. rewrite load_pair.
    now rewrite (firstn_all2 items) by exact Hcover.
  - intros clock.
    destruct (batches_count clock items etl_run_id (Z.to_nat batch_size)
                table
                ((List.length items + Z.to_nat batch_size - 1)
                 / Z.to_nat batch_size))
      as [table' ->].
    exists table'. cbn [fst].
    now rewrite (firstn_all2 items) by exact Hcover.
Qed.

(** X4 (batch size out of range): a negative batch size makes the loop
    empty, so [load_batch] stores nothing and reports zero whatever the
    items are; a batch size of zero raises the [ValueError] of [range]. *)
Theorem load_batch_without_positive_size `{PF : PyFloat}
    (clock : nat -> Z) (items : list UnifiedItemCreate)
    (etl_run_id : option nat) (batch_size : Z) (table : list UnifiedItem) :
  (batch_size <= 0)%Z ->
  Batches.load_batch clock items etl_run_id batch_size table
  = if (batch_size =? 0)%Z
    then Raise (Exn (Foreign "ValueError") "range() arg 3 must not be zero"
                  [] None)
    else Return (table, 0%nat).
Proof.
  intros Hle.
  unfold Batches.load_batch, Batches.range_step.
  destruct (Z.eqb_spec batch_size 0) as [|Hne]; [reflexivity|].
  destruct (Z.ltb_spec batch_size 0) as [_|]; [reflexivity | lia].
Qed.

(** * Further properties of the API client *)

Section RetryProperties.
Context {PF : PyFloat} {PB : PyBuiltins}.
Import APIExtractor.

Lemma record_failure_names (self : t) (now : Z) :
  source_name (_record_failure self now) = source_name self
  /\ retry_delay (_record_failure self now) = retry_delay self.
Proof.
  unfold _record_failure. destruct (_ <=? _)%Z; simpl; auto.
Qed.

Lemma may_retry_record_failure (self : t) (now : Z) (attempt : nat) :
  may_retry (_record_failure self now) attempt = may_retry self attempt.
Proof.
  unfold may_retry.
  now rewrite (proj1 (proj2 (proj2 (record_failure_config self now)))).
Qed.

(** Below the threshold no failure opens the breaker. *)
Lemma record_failures_closed (times : list Z) :
  forall self,
    _circuit_breaker_open_until self = None ->
    (_circuit_breaker_failures self + Z.of_nat (List.length times)
     < _circuit_breaker_threshold self)%Z ->
    _circuit_breaker_open_until (record_failures self times) = None.
Proof.
  induction times as [|now times IH]; intros self Hopen Hlt.
  - exact Hopen.
  - unfold record_failures in *. cbn [fold_left].
    cbn [List.length] in Hlt.
    destruct (record_failure_config self now) as (H1 & _ & _ & H4).
    apply IH.
    + unfold _record_failure.
      destruct (Z.leb_spec (_circuit_breaker_threshold self)
                  (_circuit_breaker_failures self + 1)); [lia|].
      exact Hopen.
    + rewrite H1, H4. lia.
Qed.

Ltac split_pass :=
  repeat match goal with
         | |- context [if ?b then _ else _] => destruct b
         | |- context [match ?o with Some _ => _ | None => _ end] =>
             destruct o
         end.

(** No pass through the loop body moves the clock backwards. *)
Lemma attempt_once_clock (network : Network) (self : t) (url : string)
    (attempt : nat) (last : option exn) (w : World) :
  match attempt_once network self url attempt last w with
  | Continue _ w' _ => (clock w <= clock w')%Z
  | Finished _ _ w' => (clock w <= clock w')%Z
  end.
Proof.
  unfold attempt_once, on_response, on_transport_error, on_exception.
  destruct (network (requests w)) as [response | e | e | e];
    split_pass; simpl; lia.
Qed.

Lemma retry_loop_budget (network : Network) (url : string) :
  forall attempts self last w,
    let w' := snd (retry_loop network url attempts self last w) in
    (requests w' <= requests w + List.length attempts)%nat
    /\ (clock w <= clock w')%Z.
Proof.
  induction attempts as [|attempt rest IH]; intros self last w; simpl.
  - split; lia.
  - pose proof (attempt_once_sends network self url attempt last w) as Hs.
    pose proof (attempt_once_clock network self url attempt last w) as Hc.
    destruct (attempt_once network self url attempt last w)
      as [self' w' last' | r self' w'].
    + destruct (IH self' last' w') as [H1 H2]. split; lia.
    + simpl. split; lia.
Qed.

(** What a caller can rely on in an error of the request. *)
Definition describes (self : t) (url : string) (e : exn) : Prop :=
  isinstance e ExtractionError = true
  /\ ctx_lookup "api_url" (exn_context e) = Some url
  /\ ctx_lookup "source_name" (exn_context e) = Some (source_name self).

Lemma attempt_once_raises (network : Network) (self : t) (url : string)
    (attempt : nat) (last : option exn) (w : World) :
  match attempt_once network self url attempt last w with
  | Continue self' _ _ => self' = self
  | Finished (Raise e) _ _ => describes self url e
  | Finished (Return _) _ _ => True
  end.
Proof.
  unfold attempt_once, on_response, on_transport_error, on_exception,
    describes.
  rewrite ?may_retry_record_failure.
  destruct (network (requests w)) as [response | e | e | e];
    split_pass; try reflexivity; try exact I;
    unfold ETLException_init, request_context, status_context;
    simpl; rewrite ?(proj1 (record_failure_names self _));
    repeat split.
Qed.

Lemma retry_loop_raises (network : Network) (url : string) :
  forall attempts self last w e self' w',
    retry_loop network url attempts self last w = (Raise e, self', w') ->
    describes self url e.
Proof.
  induction attempts as [|attempt rest IH];
    intros self last w e self' w'; simpl.
  - intros E. inversion E. repeat split.
  - pose proof (attempt_once_raises network self url attempt last w) as H.
    destruct (attempt_once network self url attempt last w)
      as [self1 w1 last1 | [r|e1] self1 w1].
    + subst self1. apply IH.
    + discriminate.
    + intros E. inversion E. now subst.
Qed.

(** A returned response is the reply to the last request sent, passed
    every status check, and reset the breaker. *)
Definition accepted_response (response : Response) : Prop :=
  ~ In (status_code response) [401; 403; 404; 429]%Z
  /\ (status_code response < 500)%Z
  /\ raise_for_status response = None.

Lemma attempt_once_returns (network : Network) (self : t) (url : string)
    (attempt : nat) (last : option exn) (w : World) :
  match attempt_once network self url attempt last w with
  | Finished (Return response) self' w' =>
      network (requests w) = Responds response
      /\ accepted_response response
      /\ self' = _record_success self
      /\ w' = sent w
  | _ => True
  end.
Proof.
  unfold attempt_once, on_response, on_transport_error, on_exception,
    accepted_response.
  destruct (network (requests w)) as [response | e | e | e];
    try (split_pass; exact I).
  destruct ((status_code response =? 401)%Z
            || (status_code response =? 403)%Z) eqn:E1;
    [exact I|].
  destruct (status_code response =? 404)%Z eqn:E2; [exact I|].
  destruct (status_code response =? 429)%Z eqn:E3; [split_pass; exact I|].
  destruct (500 <=? status_code response)%Z eqn:E4; [split_pass; exact I|].
  destruct (raise_for_status response) eqn:E5; [split_pass; exact I|].
  apply orb_false_elim in E1. destruct E1 as [E0 E1].
  repeat split; auto; [|lia].
  simpl. lia.
Qed.

Lemma retry_loop_returns (network : Network) (url : string) :
  forall attempts self last w response self' w',
    retry_loop network url attempts self last w
    = (Return response, self', w') ->
    exists w0,
      network (requests w0) = Responds response
      /\ accepted_response response
      /\ w' = sent w0
      /\ (requests w <= requests w0)%nat
      /\ _circuit_breaker_failures self' = 0%Z
      /\ _circuit_breaker_open_until self' = None.
Proof.
  induction attempts as [|attempt rest IH];
    intros self last w response self' w'; simpl.
  - discriminate.
  - pose proof (attempt_once_returns network self url attempt last w) as H.
    pose proof (attempt_once_sends network self url attempt last w) as Hs.
    destruct (attempt_once network self url attempt last w)
      as [self1 w1 last1 | [r|e1] self1 w1].
    + intros E.
      destruct (IH _ _ _ _ _ _ E) as (w0 & H1 & H2 & H3 & H4 & H5 & H6).
      exists w0.
      split; [exact H1|]. split; [exact H2|]. split; [exact H3|].
      split; [lia | now split].
    + intros E. inversion E. subst.
      destruct H as (H1 & H2 & H3 & H4). subst.
      exists w.
      split; [exact H1|]. split; [exact H2|]. split; [reflexivity|].
      split; [lia | now split].
    + discriminate.
Qed.

Lemma retry_loop_cons (network : Network) (url : string) (attempt : nat)
    (rest : list nat) (self : t) (last : option exn) (w : World) :
  retry_loop network url (attempt :: rest) self last w
  = match attempt_once network self url attempt last w with
    | Continue self w last => retry_loop network url rest self last w
    | Finished r self w => (r, self, w)
    end.
Proof. reflexivity. Qed.

(** The waits of a run of transport errors: attempts [k], ..., [k + m - 2]
    are followed by a wait, the last one by the error. *)
Lemma transport_loop (network : Network) (cause : nat -> exn)
    (url : string) (self : t) :
  (0 <= retry_delay self)%Z ->
  (forall i,
      network i = RaisesTimeout (cause i)
      \/ network i = RaisesNetworkError (cause i)) ->
  forall m k last w,
    (k + S m = max_retries self)%nat ->
    exists e,
      retry_loop network url (seq k (S m)) self last w
      = (Raise e,
         _record_failure self
           (clock w
            + retry_delay self
              * (2 ^ Z.of_nat (k + m) - 2 ^ Z.of_nat k))%Z,
         {| clock :=
              (clock w
               + retry_delay self
                 * (2 ^ Z.of_nat (k + m) - 2 ^ Z.of_nat k))%Z;
            requests := (requests w + S m)%nat |})
      /\ exn_class e = NetworkError
      /\ describes self url e
      /\ ctx_lookup "retry_count" (exn_context e)
         = Some (str_of_nat (max_retries self))
      /\ exn_original e = Some (cause (requests w + m)%nat).
Proof.
  intros Hdelay Hnet.
  induction m as [|m IH]; intros k last w Hk.
  - cbn [seq retry_loop]. unfold attempt_once, on_transport_error.
    replace (may_retry self k) with false
      by (unfold may_retry; symmetry; apply Z.ltb_ge; lia).
    replace (k + 0)%nat with k by lia.
    replace (requests w + 0)%nat with (requests w) by lia.
    replace (clock w + retry_delay self
                       * (2 ^ Z.of_nat k - 2 ^ Z.of_nat k))%Z
      with (clock w) by lia.
    replace (requests w + 1)%nat with (S (requests w)) by lia.
    replace (str_of_nat (max_retries self)) with (str_of_nat (k + 1))
      by (f_equal; lia).
    destruct (Hnet (requests w)) as [-> | ->];
      (eexists; split; [reflexivity|]); repeat split.
  - change (seq k (S (S m))) with (k :: seq (S k) (S m)).
    rewrite retry_loop_cons. unfold attempt_once, on_transport_error.
    replace (may_retry self k) with true
      by (unfold may_retry; symmetry; apply Z.ltb_lt; lia).
    assert (Hpow : (0 < 2 ^ Z.of_nat k)%Z) by (apply Z.pow_pos_nonneg; lia).
    assert (Hstep : forall e,
               retry_loop network url (seq (S k) (S m)) self (Some e)
                 (sleep (backoff self k) (sent w))
               = retry_loop network url (seq (S k) (S m)) self (Some e)
                   {| clock := (clock w + retry_delay self * 2 ^ Z.of_nat k)%Z;
                      requests := S (requests w) |}).
    { intros e. f_equal. unfold sleep, sent, backoff. simpl. f_equal. nia. }
    destruct (IH (S k) (Some (cause (requests w)))
                {| clock := (clock w + retry_delay self * 2 ^ Z.of_nat k)%Z;
                   requests := S (requests w) |} ltac:(lia))
      as (e & Hrun & Hclass & Hdesc & Hcount & Horig).
    cbn [clock requests] in Hrun, Horig.
    assert (Hclock :
              (clock w + retry_delay self * 2 ^ Z.of_nat k
               + retry_delay self
                 * (2 ^ Z.of_nat (S k + m) - 2 ^ Z.of_nat (S k)))%Z
              = (clock w
                 + retry_delay self
                   * (2 ^ Z.of_nat (k + S m) - 2 ^ Z.of_nat k))%Z).
    { replace (Z.of_nat (S k + m)) with (Z.of_nat (k + S m)) by lia.
      replace (Z.of_nat (S k)) with (Z.succ (Z.of_nat k)) by lia.
      rewrite Z.pow_succ_r by lia. lia. }
    rewrite Hclock in Hrun.
    replace (S (requests w) + S m)%nat with (requests w + S (S m))%nat
      in Hrun by lia.
    replace (S (requests w) + m)%nat with (requests w + S m)%nat
      in Horig by lia.
    exists e.
    split; [|auto].
    destruct (Hnet (requests w)) as [-> | ->]; rewrite Hstep; exact Hrun.
Qed.

End RetryProperties.

(** X5 (breaker below the threshold): while the failures recorded since
    the breaker was last clear stay below the threshold, the circuit
    check answers closed at every instant and leaves the tally alone. *)
Theorem breaker_stays_closed_below_threshold
    {PF : PyFloat} {PB : PyBuiltins}
    (self : APIExtractor.t) (times : list Z) (utcnow : Z) :
  APIExtractor._circuit_breaker_open_until self = None ->
  (APIExtractor._circuit_breaker_failures self
   + Z.of_nat (List.length times)
   < APIExtractor._circuit_breaker_threshold self)%Z ->
  APIExtractor._is_circuit_open (record_failures self times) utcnow
  = (false, record_failures self times)
  /\ APIExtractor._circuit_breaker_failures (record_failures self times)
     = (APIExtractor._circuit_breaker_failures self
        + Z.of_nat (List.length times))%Z.
Proof.
  intros Hopen Hlt. split.
  - unfold APIExtractor._is_circuit_open.
    now rewrite (record_failures_closed times self Hopen Hlt).
  - apply record_failures_config.
Qed.

(** X6 (request budget): one call of the request method sends at most
    [max_retries] requests, whatever the server does, and never moves the
    clock backwards. *)
Theorem request_sends_at_most_max_retries
    {PF : PyFloat} {PB : PyBuiltins}
    (network : APIExtractor.Network) (self : APIExtractor.t) (url : string)
    (w : APIExtractor.World) :
  let w' :=
    snd (APIExtractor._make_request_with_retry network self url w) in
  (APIExtractor.requests w <= APIExtractor.requests w')%nat
  /\ (APIExtractor.requests w'
      <= APIExtractor.requests w + APIExtractor.max_retries self)%nat
  /\ (APIExtractor.clock w <= APIExtractor.clock w')%Z.
Proof.
  unfold APIExtractor._make_request_with_retry,
    APIExtractor._is_circuit_open.
  destruct (APIExtractor._circuit_breaker_open_until self) as [until|].
  - destruct (until <=? APIExtractor.clock w)%Z.
    + pose proof (retry_loop_budget network url
                    (seq 0 (APIExtractor.max_retries self))
                    (APIExtractor.set_breaker self 0 None) None w) as H.
      pose proof (retry_loop_sends network url
                    (seq 0 (APIExtractor.max_retries self))
                    (APIExtractor.set_breaker self 0 None) None w) as G.
      cbv zeta in H. rewrite length_seq in H.
      cbn [APIExtractor.max_retries APIExtractor.set_breaker]. tauto.
    + simpl. repeat split; lia.
  - pose proof (retry_loop_budget network url
                  (seq 0 (APIExtractor.max_retries self)) self None w) as H.
    pose proof (retry_loop_sends network url
                  (seq 0 (APIExtractor.max_retries self)) self None w) as G.
    cbv zeta in H. rewrite length_seq in H. tauto.
Qed.

(** X7 (transport failures): when every request times out or fails to
    connect, a client with a closed breaker makes exactly [max_retries]
    attempts, waits [retry_delay * 2^k] after attempt [k] but the last,
    records one failure and raises a retryable [NetworkError] that names
    the url, the source and the attempt count and keeps the transport
    error of the last attempt as its cause. *)
Theorem transport_failures_exhaust_retries
    {PF : PyFloat} {PB : PyBuiltins}
    (network : APIExtractor.Network) (cause : nat -> exn)
    (self : APIExtractor.t) (url : string) (w : APIExtractor.World) :
  APIExtractor._circuit_breaker_open_until self = None ->
  (1 <= APIExtractor.max_retries self)%nat ->
  (0 <= APIExtractor.retry_delay self)%Z ->
  (forall i,
      network i = APIExtractor.RaisesTimeout (cause i)
      \/ network i = APIExtractor.RaisesNetworkError (cause i)) ->
  let n := APIExtractor.max_retries self in
  exists e self' w',
    APIExtractor._make_request_with_retry network self url w
    = (Raise e, self', w')
    /\ exn_class e = NetworkError
    /\ isinstance e RetryableError = true
    /\ ctx_lookup "api_url" (exn_context e) = Some url
    /\ ctx_lookup "source_name" (exn_context e)
       = Some (APIExtractor.source_name self)
    /\ ctx_lookup "retry_count" (exn_context e) = Some (str_of_nat n)
    /\ exn_original e = Some (cause (APIExtractor.requests w + n - 1)%nat)
    /\ APIExtractor.requests w' = (APIExtractor.requests w + n)%nat
    /\ APIExtractor.clock w'
       = (APIExtractor.clock w
          + APIExtractor.retry_delay self * (2 ^ (Z.of_nat n - 1) - 1))%Z
    /\ APIExtractor._circuit_breaker_failures self'
       = (APIExtractor._circuit_breaker_failures self + 1)%Z.
Proof.
  intros Hopen Hn Hdelay Hnet n.
  unfold APIExtractor._make_request_with_retry,
    APIExtractor._is_circuit_open.
  rewrite Hopen.
  destruct (APIExtractor.max_retries self) as [|m] eqn:Hm; [lia|].
  subst n.
  destruct (transport_loop network cause url self Hdelay Hnet m 0 None w)
    as (e & Hrun & Hclass & (Hi & Hurl & Hname) & Hcount & Horig);
    [now rewrite Hm|].
  rewrite Hrun. do 3 eexists. split; [reflexivity|].
  rewrite Hm in Hcount.
  cbn [APIExtractor.clock APIExtractor.requests].
  replace (APIExtractor.requests w + S m - 1)%nat
    with (APIExtractor.requests w + m)%nat by lia.
  replace (Z.of_nat (S m) - 1)%Z with (Z.of_nat (0 + m)) by lia.
  repeat split; auto.
  - unfold isinstance. now rewrite Hclass.
  - apply record_failure_config.
Qed.

(** X8 (errors of the request): whatever the server and the transport do,
    an error that leaves the request method is an [ExtractionError] of
    the hierarchy and names the url and the source in its context. *)
Theorem request_errors_are_extraction_errors
    {PF : PyFloat} {PB : PyBuiltins}
    (network : APIExtractor.Network) (self : APIExtractor.t) (url : string)
    (w : APIExtractor.World) (e : exn) (self' : APIExtractor.t)
    (w' : APIExtractor.World) :
  APIExtractor._make_request_with_retry network self url w
  = (Raise e, self', w') ->
  isinstance e ExtractionError = true
  /\ ctx_lookup "api_url" (exn_context e) = Some url
  /\ ctx_lookup "source_name" (exn_context e)
     = Some (APIExtractor.source_name self).
Proof.
  unfold APIExtractor._make_request_with_retry,
    APIExtractor._is_circuit_open.
  destruct (APIExtractor._circuit_breaker_open_until self) as [until|].
  - destruct (until <=? APIExtractor.clock w)%Z.
    + intros E. exact (retry_loop_raises _ _ _ _ _ _ _ _ _ E).
    + intros E. inversion E. repeat split.
  - intros E. exact (retry_loop_raises _ _ _ _ _ _ _ _ _ E).
Qed.

(** X9 (a returned response): a response that the request method returns
    is the reply to the last request it sent, has a status other than
    401, 403, 404 and 429 and below 500, passed [raise_for_status], and
    leaves the breaker closed with a tally of zero. *)
Theorem returned_response_passed_all_checks
    {PF : PyFloat} {PB : PyBuiltins}
    (network : APIExtractor.Network) (self : APIExtractor.t) (url : string)
    (w : APIExtractor.World) (response : APIExtractor.Response)
    (self' : APIExtractor.t) (w' : APIExtractor.World) :
  APIExtractor._make_request_with_retry network self url w
  = (Return response, self', w') ->
  (APIExtractor.requests w < APIExtractor.requests w')%nat
  /\ network (APIExtractor.requests w' - 1)%nat
     = APIExtractor.Responds response
  /\ ~ In (APIExtractor.status_code response) [401; 403; 404; 429]%Z
  /\ (APIExtractor.status_code response < 500)%Z
  /\ APIExtractor.raise_for_status response = None
  /\ APIExtractor._circuit_breaker_failures self' = 0%Z
  /\ APIExtractor._circuit_breaker_open_until self' = None.
Proof.
  unfold APIExtractor._make_request_with_retry,
    APIExtractor._is_circuit_open.
  intros E.
  assert (H : exists self0,
             APIExtractor.retry_loop network url
               (seq 0 (APIExtractor.max_retries self0)) self0 None w
             = (Return response, self', w')).
  { destruct (APIExtractor._circuit_breaker_open_until self) as [until|].
    - destruct (until <=? APIExtractor.clock w)%Z; [|discriminate].
      now exists (APIExtractor.set_breaker self 0 None).
    - now exists self. }
  destruct H as (self0 & H).
  destruct (retry_loop_returns _ _ _ _ _ _ _ _ _ H)
    as (w0 & H1 & (H2 & H3 & H4) & -> & H5 & H6 & H7).
  cbn [APIExtractor.sent APIExtractor.requests].
  replace (S (APIExtractor.requests w0) - 1)%nat
    with (APIExtractor.requests w0) by lia.
  repeat split; auto. lia.
Qed.

(** X10 (client errors are final): with a closed breaker, a first reply of
    status 401, 403 or 404 ends the call at once: one request, no wait,
    one failure recorded, and an error of the non-retryable side of the
    hierarchy. *)
Theorem client_errors_are_not_retried
    {PF : PyFloat} {PB : PyBuiltins}
    (network : APIExtractor.Network) (self : APIExtractor.t) (url : string)
    (w : APIExtractor.World) (response : APIExtractor.Response) :
  APIExtractor._circuit_breaker_open_until self = None ->
  (1 <= APIExtractor.max_retries self)%nat ->
  network (APIExtractor.requests w) = APIExtractor.Responds response ->
  In (APIExtractor.status_code response) [401; 403; 404]%Z ->
  exists e self',
    APIExtractor._make_request_with_retry network self url w
    = (Raise e, self', APIExtractor.sent w)
    /\ exn_class e
       = (if (APIExtractor.status_code response =? 404)%Z
          then ResourceNotFoundError else AuthenticationError)
    /\ isinstance e NonRetryableError = true
    /\ isinstance e RetryableError = false
    /\ APIExtractor._circuit_breaker_failures self'
       = (APIExtractor._circuit_breaker_failures self + 1)%Z.
Proof.
  intros Hopen Hn Hnet Hin.
  unfold APIExtractor._make_request_with_retry,
    APIExtractor._is_circuit_open.
  rewrite Hopen.
  destruct (APIExtractor.max_retries self) as [|m]; [lia|].
  change (seq 0 (S m)) with (0%nat :: seq 1 m).
  rewrite retry_loop_cons.
  unfold APIExtractor.attempt_once. rewrite Hnet.
  unfold APIExtractor.on_response.
  destruct Hin as [<-|[<-|[<-|[]]]]; cbn [Z.eqb Pos.eqb orb];
    do 2 eexists; (split; [reflexivity|]);
    (split; [reflexivity|]); (split; [reflexivity|]);
    (split; [reflexivity|]); apply record_failure_config.
Qed.

(** X11 (rate limiting): with a closed breaker and at least two attempts
    allowed, a first reply of status 429 is followed by a wait of the
    whole seconds its [Retry-After] names, or of the backoff delay cut to
    whole seconds when it names none, and by a second request; when that
    one is answered with an accepted response, the call returns it after
    two requests, with the breaker reset. *)
Theorem rate_limited_request_waits_and_retries
    {PF : PyFloat} {PB : PyBuiltins}
    (network : APIExtractor.Network) (self : APIExtractor.t) (url : string)
    (w : APIExtractor.World) (limited ok : APIExtractor.Response)
    (retry_after : Z) :
  APIExtractor._circuit_breaker_open_until self = None ->
  (2 <= APIExtractor.max_retries self)%nat ->
  network (APIExtractor.requests w) = APIExtractor.Responds limited ->
  APIExtractor.status_code limited = 429%Z ->
  APIExtractor.retry_after_seconds self 0 limited = Some retry_after ->
  network (S (APIExtractor.requests w)) = APIExtractor.Responds ok ->
  accepted_response ok ->
  APIExtractor._make_request_with_retry network self url w
  = (Return ok, APIExtractor._record_success self,
     {| APIExtractor.clock :=
          (APIExtractor.clock w
           + Z.max 0 (APIExtractor.seconds retry_after))%Z;
        APIExtractor.requests := (APIExtractor.requests w + 2)%nat |}).
Proof.
  intros Hopen Hn Hfirst Hstatus Hafter Hsecond (Hnot & Hlt & Hraise).
  unfold APIExtractor._make_request_with_retry,
    APIExtractor._is_circuit_open.
  rewrite Hopen.
  assert (Hretry : APIExtractor.may_retry self 0 = true).
  { unfold APIExtractor.may_retry. apply Z.ltb_lt. lia. }
  destruct (APIExtractor.max_retries self) as [|[|m]]; [lia | lia |].
  change (seq 0 (S (S m))) with (0%nat :: 1%nat :: seq 2 m).
  rewrite retry_loop_cons.
  unfold APIExtractor.attempt_once at 1. rewrite Hfirst.
  unfold APIExtractor.on_response at 1.
  rewrite Hstatus. cbn [Z.eqb Pos.eqb orb].
  rewrite Hafter, Hretry.
  rewrite retry_loop_cons.
  unfold APIExtractor.attempt_once.
  cbn [APIExtractor.requests APIExtractor.sleep APIExtractor.sent].
  rewrite Hsecond.
  unfold APIExtractor.on_response.
  destruct (Z.eqb_spec (APIExtractor.status_code ok) 401) as [E|_];
    [exfalso; apply Hnot; rewrite E; simpl; auto|].
  destruct (Z.eqb_spec (APIExtractor.status_code ok) 403) as [E|_];
    [exfalso; apply Hnot; rewrite E; simpl; auto|].
  destruct (Z.eqb_spec (APIExtractor.status_code ok) 404) as [E|_];
    [exfalso; apply Hnot; rewrite E; simpl; auto|].
  destruct (Z.eqb_spec (APIExtractor.status_code ok) 429) as [E|_];
    [exfalso; apply Hnot; rewrite E; simpl; auto|].
  destruct (Z.leb_spec 500 (APIExtractor.status_code ok)); [lia|].
  rewrite Hraise. cbn [orb APIExtractor.clock].
  now replace (APIExtractor.requests w + 2)%nat
    with (S (S (APIExtractor.requests w))) by lia.
Qed.

(** * Further properties of the schema and of the normalizer *)

Section Stripping.

Lemma append_assoc (a b c : string) : (a ++ b) ++ c = a ++ (b ++ c).
Proof. induction a as [|x a IH]; simpl; [reflexivity | now rewrite IH]. Qed.

Lemma append_empty_r (a : string) : a ++ "" = a.
Proof. induction a as [|x a IH]; simpl; [reflexivity | now rewrite IH]. Qed.

Lemma length_append (a b : string) :
  String.length (a ++ b) = (String.length a + String.length b)%nat.
Proof. induction a as [|x a IH]; simpl; [reflexivity | now rewrite IH]. Qed.

Lemma rev_string_acc (s : string) :
  forall acc, rev_string acc s = rev_string EmptyString s ++ acc.
Proof.
  induction s as [|c s IH]; intros acc; simpl; [reflexivity|].
  rewrite (IH (String c acc)), (IH (String c EmptyString)).
  rewrite append_assoc. reflexivity.
Qed.

Lemma rev_string_app (a b : string) :
  rev_string EmptyString (a ++ b)
  = rev_string EmptyString b ++ rev_string EmptyString a.
Proof.
  induction a as [|c a IH]; simpl.
  - now rewrite append_empty_r.
  - rewrite (rev_string_acc (a ++ b)), (rev_string_acc a), IH.
    now rewrite append_assoc.
Qed.

Lemma rev_string_twice (s : string) :
  rev_string EmptyString (rev_string EmptyString s) = s.
Proof.
  induction s as [|c s IH]; simpl; [reflexivity|].
  rewrite (rev_string_acc s (String c EmptyString)), rev_string_app, IH.
  reflexivity.
Qed.

Lemma rev_string_length (s : string) :
  String.length (rev_string EmptyString s) = String.length s.
Proof.
  induction s as [|c s IH]; simpl; [reflexivity|].
  rewrite (rev_string_acc s (String c EmptyString)), length_append, IH.
  simpl. lia.
Qed.

Lemma lstrip_length (s : string) :
  (String.length (lstrip s) <= String.length s)%nat.
Proof.
  induction s as [|c s IH]; simpl; [lia|].
  destruct (is_space c); simpl; lia.
Qed.

(** What [lstrip] returns is empty or starts with a character that is
    not white space. *)
Definition starts_with_text (s : string) : Prop :=
  match s with
  | EmptyString => True
  | String c _ => is_space c = false
  end.

Lemma lstrip_starts (s : string) : starts_with_text (lstrip s).
Proof.
  induction s as [|c s IH]; simpl; [exact I|].
  destruct (is_space c) eqn:E; [exact IH | exact E].
Qed.

Lemma lstrip_fixed (s : string) : starts_with_text s -> lstrip s = s.
Proof.
  destruct s as [|c s]; simpl; [reflexivity|].
  now intros ->.
Qed.

Lemma lstrip_app_text (c : ascii) :
  is_space c = false ->
  forall s, lstrip (s ++ String c EmptyString)
            = lstrip s ++ String c EmptyString.
Proof.
  intros Hc. induction s as [|d s IH]; simpl.
  - now rewrite Hc.
  - destruct (is_space d); [exact IH | reflexivity].
Qed.

Lemma rstrip_length (s : string) :
  (String.length (rstrip s) <= String.length s)%nat.
Proof.
  unfold rstrip. rewrite rev_string_length.
  pose proof (lstrip_length (rev_string EmptyString s)).
  now rewrite rev_string_length in H.
Qed.

Lemma rstrip_twice (s : string) : rstrip (rstrip s) = rstrip s.
Proof.
  unfold rstrip. rewrite rev_string_twice.
  now rewrite (lstrip_fixed _ (lstrip_starts _)).
Qed.

Lemma rstrip_text (c : ascii) (s : string) :
  is_space c = false -> rstrip (String c s) = String c (rstrip s).
Proof.
  intros Hc. unfold rstrip. simpl.
  rewrite (rev_string_acc s), (lstrip_app_text c Hc), rev_string_app.
  reflexivity.
Qed.

Lemma rstrip_starts (s : string) :
  starts_with_text s -> starts_with_text (rstrip s).
Proof.
  destruct s as [|c s]; simpl; [intros _; exact I|].
  intros Hc. now rewrite (rstrip_text c s Hc).
Qed.

Lemma strip_length (s : string) :
  (String.length (strip s) <= String.length s)%nat.
Proof.
  unfold strip.
  pose proof (rstrip_length (lstrip s)). pose proof (lstrip_length s). lia.
Qed.

(** [s.strip().strip() == s.strip()] *)
Lemma strip_twice (s : string) : strip (strip s) = strip s.
Proof.
  unfold strip.
  rewrite (lstrip_fixed (rstrip (lstrip s))).
  - apply rstrip_twice.
  - apply rstrip_starts, lstrip_starts.
Qed.

Lemma eqb_empty (s : string) : (s =? "") = false <-> s <> "".
Proof. apply String.eqb_neq. Qed.

Lemma kept_tags_are_clean (tags : list string) :
  Forall (fun t => t <> "" /\ strip t = t)
         (filter (fun t => negb (t =? "")) (map strip tags)).
Proof.
  apply Forall_forall. intros t Hin.
  apply filter_In in Hin. destruct Hin as [Hin Hne].
  apply in_map_iff in Hin. destruct Hin as (s & <- & _).
  split.
  - apply eqb_empty. now destruct (strip s =? "").
  - apply strip_twice.
Qed.

End Stripping.

Section SchemaProperties.
Context {PF : PyFloat} {PB : PyBuiltins}.
Import Schema.

Lemma length_between_spec lo hi s t :
  length_between lo hi s = Some t ->
  t = s
  /\ (lo <= String.length s)%nat
  /\ match hi with
     | Some h => (String.length s <= h)%nat
     | None => True
     end.
Proof.
  unfold length_between.
  destruct (Nat.leb_spec lo (String.length s)); [|discriminate].
  destruct hi as [h|]; simpl.
  - destruct (Nat.leb_spec (String.length s) h); [|discriminate].
    intros E. inversion E. subst. auto.
  - intros E. inversion E. subst. auto.
Qed.

Lemma optional_of_bound (h : nat) (v : json) (s : string) :
  optional_of (Some h) v = Some s -> (String.length s <= h)%nat.
Proof.
  unfold optional_of, str_optional.
  destruct v; try discriminate;
    destruct (as_str _) as [t|]; try discriminate;
    destruct (length_between 0 (Some h) t) as [u|] eqn:E;
    try discriminate; simpl; intros G; inversion G; subst;
    apply length_between_spec in E; destruct E as (-> & _ & E); exact E.
Qed.

Lemma clean_tags_clean (v : json) :
  Forall (fun t => t <> "" /\ strip t = t) (clean_tags v).
Proof.
  destruct v; simpl; try constructor.
  - apply kept_tags_are_clean.
  - rewrite <- (map_map py_str strip). apply kept_tags_are_clean.
Qed.

Lemma app_nil_both {A} (l l' : list A) :
  (l ++ l')%list = [] -> l = [] /\ l' = [].
Proof. destruct l; [auto | discriminate]. Qed.

End SchemaProperties.

(** X12 (schema invariants): every item the constructor returns has a
    source name of 1 to 100 characters, an external id of 1 to 255, a
    title that is not empty, carries no white space at either end and has
    at most 500 characters, optional texts within their bounds, numbers
    within their ranges, tags that are not empty and carry no white space
    at either end, the status active, and its metadata field unset.
    Lengths count characters and white space is that of [str.strip]; the
    texts are those whose characters are below U+0100. *)
Theorem validated_item_is_within_bounds {PF : PyFloat} {PB : PyBuiltins}
    (a : Schema.ItemArgs) (item : UnifiedItemCreate) :
  Schema.UnifiedItemCreate_init a = Return item ->
  (1 <= String.length (item_source_name item) <= 100)%nat
  /\ (1 <= String.length (item_external_id item) <= 255)%nat
  /\ (item_title item <> ""
      /\ strip (item_title item) = item_title item
      /\ (String.length (item_title item) <= 500)%nat)
  /\ (forall s, item_category item = Some s ->
                (String.length s <= 200)%nat)
  /\ (forall s, item_url item = Some s -> (String.length s <= 2048)%nat)
  /\ (forall s, item_image_url item = Some s ->
                (String.length s <= 2048)%nat)
  /\ (forall s, item_author item = Some s -> (String.length s <= 200)%nat)
  /\ Schema.amount_ok (item_amount item) = true
  /\ (forall q, item_quantity item = Some q -> (0 <= q)%Z)
  /\ Schema.rating_ok (item_rating item) = true
  /\ Forall (fun t => t <> "" /\ strip t = t) (item_tags item)
  /\ item_status item = ACTIVE
  /\ item_extra_metadata item = None.
Proof.
  unfold Schema.UnifiedItemCreate_init.
  destruct (Schema.field_errors a) as [|f fs] eqn:E; [|discriminate].
  intros R. inversion R. subst item. clear R. cbn.
  unfold Schema.field_errors in E.
  repeat match type of E with
         | (_ ++ _)%list = [] =>
             let H := fresh "H" in
             apply app_nil_both in E; destruct E as [H E]
         end.
  destruct (Schema.length_between 1 (Some 100%nat) (Schema.arg_source_name a))
    as [n|] eqn:En; [|discriminate].
  destruct (Schema.length_between 1 (Some 255%nat) (Schema.arg_external_id a))
    as [x|] eqn:Ex; [|discriminate].
  apply length_between_spec in En, Ex.
  split; [lia|]. split; [lia|].
  split.
  { unfold Schema.title_of.
    destruct (Schema.str_required 1 (Some 500%nat) (Schema.arg_title a))
      as [s|] eqn:Es; [|discriminate].
    destruct (Schema.clean_title s) as [t|] eqn:Et; [|discriminate].
    unfold Schema.str_required in Es.
    destruct (Schema.as_str (Schema.arg_title a)) as [s0|]; [|discriminate].
    apply length_between_spec in Es. destruct Es as (-> & Hlo & Hhi).
    unfold Schema.clean_title in Et.
    destruct (String.eqb_spec s0 "") as [->|Hs0]; [simpl in Hlo; lia|].
    simpl in Et.
    destruct (String.eqb_spec (strip s0) "") as [|Hne]; [discriminate|].
    inversion Et. subst t.
    split; [exact Hne|]. split; [apply strip_twice|].
    pose proof (strip_length s0). lia. }
  split; [apply optional_of_bound|].
  split; [apply optional_of_bound|].
  split; [apply optional_of_bound|].
  split; [apply optional_of_bound|].
  split; [now destruct (Schema.amount_ok (Schema.arg_amount a))|].
  split.
  { intros q Hq.
    destruct (Schema.quantity_ok (Schema.arg_quantity a)) eqn:Eq;
      [|discriminate].
    unfold Schema.quantity_ok in Eq. rewrite Hq in Eq. lia. }
  split; [now destruct (Schema.rating_ok (Schema.arg_rating a))|].
  split; [apply clean_tags_clean | split; reflexivity].
Qed.

(** X13 (normalizer, source identity): an item that [normalize] returns
    carries the source type and name of the normalizer and the id of the
    raw row, and the normalizer is one of an API, CSV or RSS source: for
    any other source type [normalize] raises. *)
Theorem normalized_item_keeps_its_source {PF : PyFloat} {PB : PyBuiltins}
    (self : DataNormalizer.t) (record : pydict) (raw_data_id : nat)
    (item : UnifiedItemCreate) :
  DataNormalizer.normalize self record raw_data_id = Return item ->
  item_source_type item = DataNormalizer.source_type self
  /\ item_source_name item = DataNormalizer.source_name self
  /\ item_raw_data_id item = raw_data_id
  /\ item_external_id item
     = external_id_value (DataNormalizer.source_type self) record
  /\ DataNormalizer.source_type self <> FEED.
Proof.
  unfold DataNormalizer.normalize, external_id_value.
  destruct (DataNormalizer.source_type self) eqn:Ekind;
    [| | |discriminate];
    unfold DataNormalizer._normalize_api, DataNormalizer._normalize_csv,
      DataNormalizer._normalize_rss;
    repeat match goal with
           | |- context [bind ?r _] => destruct r; cbn [bind]
           end;
    try discriminate;
    unfold Schema.UnifiedItemCreate_init;
    (destruct (Schema.field_errors _); [|discriminate]);
    intros R; inversion R; cbn; rewrite ?Ekind;
    repeat split; auto; discriminate.
Qed.

(** * Properties of the exception hierarchy *)

Section ContextProperties.

Lemma ctx_lookup_set (k k' v : string) :
  forall ctx,
    ctx_lookup k (ctx_set k' v ctx)
    = if k' =? k then Some v else ctx_lookup k ctx.
Proof.
  induction ctx as [|[k0 v0] rest IH]; simpl.
  - reflexivity.
  - destruct (k0 =? k') eqn:E; simpl.
    + apply String.eqb_eq in E. subst k0.
      now destruct (k' =? k).
    + rewrite IH.
      destruct (k' =? k) eqn:E'; [|reflexivity].
      apply String.eqb_eq in E'. subst k'. now rewrite E.
Qed.

End ContextProperties.

(** X14 (hierarchy): every class of the hierarchy derives from
    [ETLException], none is on both the retryable and the non-retryable
    side, and the errors the API client raises are where the retry policy
    expects them: network and rate-limit errors are retryable API
    extraction errors, authentication and not-found errors are
    non-retryable extraction errors. *)
Theorem retry_sides_are_disjoint (c : ErrClass) :
  is_foreign c = false ->
  issubclass c ETLException = true
  /\ issubclass c RetryableError && issubclass c NonRetryableError = false
  /\ (In c [NetworkError; RateLimitError] ->
      issubclass c RetryableError = true
      /\ issubclass c APIExtractionError = true)
  /\ (In c [AuthenticationError; ResourceNotFoundError] ->
      issubclass c NonRetryableError = true
      /\ issubclass c ExtractionError = true).
Proof.
  intros Hc.
  destruct c; try discriminate;
    (split; [reflexivity|]); (split; [reflexivity|]);
    split; intros Hin; simpl in Hin;
    repeat match goal with
           | H : _ \/ _ |- _ => destruct H
           | H : False |- _ => destruct H
           end;
    try discriminate; split; reflexivity.
Qed.

(** X15 (error context): an error of the hierarchy always carries the
    instant it was raised at under [error_timestamp], over any value the
    caller gave for that key, and keeps every other entry of the context
    it was given; a rate-limit error also carries [retry_after], unless
    the value is zero. *)
Theorem error_context_is_stamped {PF : PyFloat} {PB : PyBuiltins}
    (now : Z) (c : ErrClass) (message : string)
    (context : list (string * string)) (original : option exn)
    (retry_after : Z) (k : string) :
  ctx_lookup k (exn_context (ETLException_init now c message context
                               original))
  = (if "error_timestamp" =? k then Some (isoformat (naive now))
     else ctx_lookup k context)
  /\ ctx_lookup k
       (exn_context (RateLimitError_init now message context original
                       (Some retry_after)))
     = (if ("retry_after" =? k) && negb (retry_after =? 0)%Z
        then Some (str_of_Z retry_after)
        else if "error_timestamp" =? k then Some (isoformat (naive now))
             else ctx_lookup k context).
Proof.
  unfold RateLimitError_init, ETLException_init. split.
  - apply ctx_lookup_set.
  - destruct (retry_after =? 0)%Z; cbn [exn_context].
    + rewrite andb_false_r. apply ctx_lookup_set.
    + rewrite andb_true_r, !ctx_lookup_set.
      reflexivity.
Qed.

(** * Further properties of the source client base class *)

Section CheckpointProperties.
Context {PF : PyFloat} {PB : PyBuiltins}.
Import DataSource.

(** The identity of a source: the columns of the unique index of
    [etl_checkpoints]. *)
Definition source_key (self : t) : SourceType * string :=
  (source_type self, source_name self).

Lemma of_source_key (self : t) (st : SourceType) (sn : string) :
  of_source self st sn = true <-> (st, sn) = source_key self.
Proof.
  unfold of_source, source_key.
  rewrite andb_true_iff, SourceType_eqb_eq, String.eqb_eq.
  split; [intros [-> ->]; reflexivity | intros E; now inversion E].
Qed.

Lemma of_source_other (self other : t) (st : SourceType) (sn : string) :
  source_key other <> source_key self ->
  of_source self st sn = true -> of_source other st sn = false.
Proof.
  intros Hne Hself. apply of_source_key in Hself.
  destruct (of_source other st sn) eqn:E; [|reflexivity].
  apply of_source_key in E. congruence.
Qed.

Lemma find_app_miss {A} (p : A -> bool) (l : list A) (a : A) :
  p a = false -> find p (l ++ [a]) = find p l.
Proof.
  intros Ha. induction l as [|b l IH]; simpl; [now rewrite Ha|].
  now destruct (p b).
Qed.

Lemma find_map_frame {A} (p : A -> bool) (f : A -> A) (l : list A) :
  (forall b, p (f b) = p b) ->
  (forall b, p b = true -> f b = b) ->
  find p (map f l) = find p l.
Proof.
  intros Hp Hf. induction l as [|b l IH]; simpl; [reflexivity|].
  rewrite Hp. destruct (p b) eqn:E; [now rewrite Hf | exact IH].
Qed.

Lemma last_default {A} (l : list A) (d d' : A) :
  l <> [] -> last l d = last l d'.
Proof.
  induction l as [|a l IH]; [congruence|].
  intros _. destruct l as [|b l]; [reflexivity|].
  change (last (a :: b :: l) d) with (last (b :: l) d).
  change (last (a :: b :: l) d') with (last (b :: l) d').
  apply IH. discriminate.
Qed.

(** The totals a checkpoint row has after one more call. *)
Definition runs_after (before : option ETLCheckpoint) : Z :=
  match before with
  | Some c => (cp_total_runs c + 1)%Z
  | None => 1%Z
  end.

Definition records_after (before : option ETLCheckpoint) (n : nat) : Z :=
  match before with
  | Some c => (cp_total_records_processed c + Z.of_nat n)%Z
  | None => Z.of_nat n
  end.

Lemma checkpoint_upsert (self : t) now v status n em (db : DB) :
  exists c,
    get_checkpoint self
      (create_or_update_checkpoint self now v status n em db) = Some c
    /\ cp_checkpoint_value c = Some v
    /\ cp_status c = status
    /\ cp_last_run_at c = Some now
    /\ cp_error_message c = em
    /\ cp_last_records_processed c = Z.of_nat n
    /\ cp_total_runs c = runs_after (get_checkpoint self db)
    /\ cp_total_records_processed c
       = records_after (get_checkpoint self db) n.
Proof.
  unfold create_or_update_checkpoint.
  destruct (get_checkpoint self db) as [c0|] eqn:G.
  - exists (updated_checkpoint now v status n em c0).
    split; [|repeat split].
    unfold get_checkpoint in *. cbn [etl_checkpoints set_checkpoints].
    apply (find_map_update
             (fun c => of_source self (cp_source_type c) (cp_source_name c))
             (updated_checkpoint now v status n em));
      [reflexivity | exact G].
  - exists (new_checkpoint self now v status n em).
    split; [|repeat split].
    unfold get_checkpoint in *. cbn [etl_checkpoints set_checkpoints].
    apply find_app_none; [exact G | apply of_source_self].
Qed.

Lemma checkpoint_upsert_frame (self other : t) now v status n em (db : DB) :
  source_key other <> source_key self ->
  get_checkpoint other
    (create_or_update_checkpoint self now v status n em db)
  = get_checkpoint other db.
Proof.
  intros Hne. unfold create_or_update_checkpoint.
  destruct (get_checkpoint self db) as [c0|] eqn:G;
    unfold get_checkpoint; cbn [etl_checkpoints set_checkpoints].
  - apply find_map_frame.
    + intros c.
      now destruct (of_source self (cp_source_type c) (cp_source_name c)).
    + intros c Hc.
      destruct (of_source self (cp_source_type c) (cp_source_name c)) eqn:E;
        [|reflexivity].
      now rewrite (of_source_other self other _ _ Hne E) in Hc.
  - apply find_app_miss. cbn.
    apply (of_source_other self other); [exact Hne | apply of_source_self].
Qed.

(** The calls of [create_or_update_checkpoint] of a series of runs: the
    instant, the value, the status and the number of records of each. *)
Definition record_runs (self : t)
    (outcomes : list (Z * string * ETLStatus * nat)) (db : DB) : DB :=
  fold_left
    (fun d (o : Z * string * ETLStatus * nat) =>
       let '(now, v, status, n) := o in
       create_or_update_checkpoint self now v status n None d)
    outcomes db.

Definition records_of (outcomes : list (Z * string * ETLStatus * nat)) : Z :=
  fold_right (fun o total => (Z.of_nat (snd o) + total)%Z) 0%Z outcomes.

Lemma records_of_app outcomes o :
  records_of (outcomes ++ [o]) = (records_of outcomes + Z.of_nat (snd o))%Z.
Proof.
  induction outcomes as [|a l IH]; simpl; [lia|].
  unfold records_of in *. simpl. rewrite IH. lia.
Qed.

Lemma record_runs_totals (self : t) (db : DB) :
  get_checkpoint self db = None ->
  forall outcomes,
    match outcomes with
    | [] => get_checkpoint self (record_runs self outcomes db) = None
    | _ =>
        exists c,
          get_checkpoint self (record_runs self outcomes db) = Some c
          /\ cp_total_runs c = Z.of_nat (List.length outcomes)
          /\ cp_total_records_processed c = records_of outcomes
          /\ cp_checkpoint_value c
             = Some (snd (fst (fst (last outcomes (0%Z, "", PENDING, 0%nat)))))
    end.
Proof.
  intros Hnone outcomes.
  induction outcomes as [|[[[now v] status] n] outcomes IH] using rev_ind.
  - exact Hnone.
  - unfold record_runs in *. rewrite fold_left_app. cbn [fold_left].
    destruct (checkpoint_upsert self now v status n None
                (fold_left
                   (fun d (o : Z * string * ETLStatus * nat) =>
                      let '(now, v, status, n) := o in
                      create_or_update_checkpoint self now v status n None d)
                   outcomes db))
      as (c & Hget & Hv & _ & _ & _ & _ & Hruns & Hrecords).
    rewrite last_last, length_app, records_of_app. cbn [List.length snd fst].
    destruct outcomes as [|o outcomes].
    + cbn [fold_left app] in *. rewrite IH in Hruns, Hrecords.
      exists c. cbn in *. repeat split; auto.
    + destruct IH as (c0 & Hget0 & Hruns0 & Hrecords0 & _).
      rewrite Hget0 in Hruns, Hrecords. cbn in Hruns, Hrecords.
      cbn [app]. exists c. split; [exact Hget|].
      split; [rewrite Hruns, Hruns0; cbn [List.length]; lia|].
      split; [rewrite Hrecords, Hrecords0; reflexivity | exact Hv].
Qed.

End CheckpointProperties.

(** X16 (checkpoint, lookup after write): after
    [create_or_update_checkpoint] the checkpoint of the source holds the
    value, the status, the instant, the error message and the record
    count of the call; its run counter is one more and its record total
    is the count more than before; the checkpoint of every other source
    is as it was, and the table has one more row only if the source had
    none. *)
Theorem checkpoint_write_is_read_back {PF : PyFloat} {PB : PyBuiltins}
    (self : DataSource.t) (now : Z) (checkpoint_value : string)
    (status : ETLStatus) (records_processed : nat)
    (error_message : option string) (db : DB) :
  let db' :=
    DataSource.create_or_update_checkpoint self now checkpoint_value status
      records_processed error_message db in
  (exists c,
      DataSource.get_checkpoint self db' = Some c
      /\ cp_checkpoint_value c = Some checkpoint_value
      /\ cp_status c = status
      /\ cp_last_run_at c = Some now
      /\ cp_error_message c = error_message
      /\ cp_last_records_processed c = Z.of_nat records_processed
      /\ cp_total_runs c = runs_after (DataSource.get_checkpoint self db)
      /\ cp_total_records_processed c
         = records_after (DataSource.get_checkpoint self db)
             records_processed)
  /\ (forall other,
         source_key other <> source_key self ->
         DataSource.get_checkpoint other db'
         = DataSource.get_checkpoint other db)
  /\ List.length (etl_checkpoints db')
     = match DataSource.get_checkpoint self db with
       | Some _ => List.length (etl_checkpoints db)
       | None => S (List.length (etl_checkpoints db))
       end.
Proof.
  intros db'. split; [apply checkpoint_upsert|].
  split; [intros other Hne; now apply checkpoint_upsert_frame|].
  subst db'. unfold DataSource.create_or_update_checkpoint.
  destruct (DataSource.get_checkpoint self db);
    cbn [etl_checkpoints DataSource.set_checkpoints].
  - apply length_map.
  - rewrite length_app. simpl. lia.
Qed.

(** X17 (checkpoint totals): for a source that has no checkpoint yet, a
    series of checkpoint writes leaves one row whose run counter is the
    number of writes, whose record total is the sum of their record
    counts, and whose value is the value of the last write. *)
Theorem checkpoint_totals_accumulate {PF : PyFloat} {PB : PyBuiltins}
    (self : DataSource.t) (db : DB)
    (first : Z * string * ETLStatus * nat)
    (others : list (Z * string * ETLStatus * nat)) :
  DataSource.get_checkpoint self db = None ->
  let outcomes := first :: others in
  exists c,
    DataSource.get_checkpoint self (record_runs self outcomes db) = Some c
    /\ cp_total_runs c = Z.of_nat (List.length outcomes)
    /\ cp_total_records_processed c = records_of outcomes
    /\ cp_checkpoint_value c
       = Some (snd (fst (fst (last outcomes first)))).
Proof.
  intros Hnone outcomes.
  destruct (record_runs_totals self db Hnone outcomes)
    as (c & H1 & H2 & H3 & H4).
  exists c. repeat split; auto.
  rewrite H4. subst outcomes.
  now rewrite (last_default (first :: others) _ first).
Qed.

(** X18 (extraction without records): when the source raises, or returns
    no record, [run_incremental] stores no raw row and no item and leaves
    the watermark of the source at the value the run started from; the
    checkpoint row records the failure, with the text of the error, or
    the success; a raised error goes on to the caller unchanged. *)
Theorem extraction_without_records_keeps_watermark
    {PF : PyFloat} {PB : PyBuiltins}
    (self : DataSource.t) (now : Z) (db : DB) :
  (forall records,
      DataSource.fetch_data self (watermark self db) = Return records ->
      records = []) ->
  let outcome := DataSource.run_incremental self now db in
  let db' := snd outcome in
  watermark self db' = watermark self db
  /\ raw_data db' = raw_data db
  /\ unified_items db' = unified_items db
  /\ exists c,
       DataSource.get_checkpoint self db' = Some c
       /\ match DataSource.fetch_data self (watermark self db) with
          | Raise e =>
              fst (fst outcome) = Raise e
              /\ cp_status c = FAILED
              /\ cp_error_message c = Some (exn_str e)
          | Return _ =>
              option_map DataSource.ex_message
                (match fst (fst outcome) with
                 | Return r => Some r
                 | Raise _ => None
                 end)
              = Some (Some "No new data")
              /\ cp_status c = SUCCESS
              /\ cp_error_message c = None
          end.
Proof.
  intros Hnone outcome db'. subst db' outcome.
  unfold DataSource.run_incremental, DataSource.start_etl_run.
  cbn [DataSource.fetch_data DataSource.set_etl_run].
  fold (watermark self db).
  destruct (DataSource.fetch_data self (watermark self db))
    as [records|e] eqn:F.
  - rewrite (Hnone records eq_refl). cbn [List.length Nat.eqb snd fst].
    match goal with
    | |- context [DataSource.create_or_update_checkpoint ?s ?t ?v ?st ?n ?em
                    ?d] =>
        destruct (checkpoint_upsert s t v st n em d)
          as (c & Hget & Hv & Hs & _ & Hem & _);
        destruct (create_or_update_checkpoint_tables s t v st n em d)
          as (Hraw & Huni & _)
    end.
    rewrite get_checkpoint_began in Hget.
    rewrite Hraw, Huni.
    rewrite !(proj1 (complete_etl_run_tables _ _ _ _ _ _ _ _ _)),
      !(proj1 (proj2 (complete_etl_run_tables _ _ _ _ _ _ _ _ _))).
    split.
    { unfold watermark at 1. rewrite Hget. unfold DataSource.current_value.
      now rewrite Hv. }
    split; [reflexivity|]. split; [reflexivity|].
    exists c. auto.
  - unfold DataSource.failed_incremental. cbn [snd fst].
    match goal with
    | |- context [DataSource.create_or_update_checkpoint ?s ?t ?v ?st ?n ?em
                    ?d] =>
        destruct (checkpoint_upsert s t v st n em d)
          as (c & Hget & Hv & Hs & _ & Hem & _);
        destruct (create_or_update_checkpoint_tables s t v st n em d)
          as (Hraw & Huni & _)
    end.
    rewrite get_checkpoint_began in Hget.
    rewrite Hraw, Huni.
    rewrite !(proj1 (complete_etl_run_tables _ _ _ _ _ _ _ _ _)),
      !(proj1 (proj2 (complete_etl_run_tables _ _ _ _ _ _ _ _ _))).
    split.
    { unfold watermark at 1. rewrite Hget. unfold DataSource.current_value.
      now rewrite Hv. }
    split; [reflexivity|]. split; [reflexivity|].
    exists c. auto.
Qed.

(** * Further properties of the orchestrator *)

Section RunData.
Context {PF : PyFloat} {PB : PyBuiltins}.

Lemma unified_items_extracted (extractor : DataSource.t) now records w
    (db : DB) :
  unified_items (extracted extractor now records w db) = unified_items db.
Proof.
  unfold extracted.
  rewrite (proj1 (proj2 (create_or_update_checkpoint_tables
                           _ _ _ _ _ _ _))).
  rewrite (proj1 (proj2 (complete_etl_run_tables _ _ _ _ _ _ _ _ _))).
  reflexivity.
Qed.

Lemma unified_items_checkpoint_failed (extractor : DataSource.t) now records
    e (db : DB) :
  unified_items (checkpoint_failed extractor now records e db)
  = unified_items db.
Proof.
  unfold checkpoint_failed.
  rewrite (proj1 (proj2 (create_or_update_checkpoint_tables
                           _ _ _ _ _ _ _))).
  rewrite (proj1 (proj2 (complete_etl_run_tables _ _ _ _ _ _ _ _ _))).
  reflexivity.
Qed.

Lemma data_extraction_failed (extractor : DataSource.t) now e (db : DB) :
  raw_data (extraction_failed extractor now e db) = raw_data db
  /\ unified_items (extraction_failed extractor now e db)
     = unified_items db.
Proof.
  unfold extraction_failed.
  rewrite (proj1 (create_or_update_checkpoint_tables _ _ _ _ _ _ _)).
  rewrite (proj1 (proj2 (create_or_update_checkpoint_tables
                           _ _ _ _ _ _ _))).
  rewrite (proj1 (complete_etl_run_tables _ _ _ _ _ _ _ _ _)).
  rewrite (proj1 (proj2 (complete_etl_run_tables _ _ _ _ _ _ _ _ _))).
  split; reflexivity.
Qed.

Lemma unified_items_nothing_new (extractor : DataSource.t) now (db : DB) :
  unified_items (nothing_new extractor now db) = unified_items db.
Proof.
  unfold nothing_new.
  rewrite (proj1 (proj2 (create_or_update_checkpoint_tables
                           _ _ _ _ _ _ _))).
  rewrite (proj1 (proj2 (complete_etl_run_tables _ _ _ _ _ _ _ _ _))).
  reflexivity.
Qed.

(** The raw rows and the items a run leaves, by the way it ends. *)
Lemma run_data (env : ETLRunner.Env) (extractor : DataSource.t) (db : DB) :
  let db' := snd (ETLRunner.run env extractor db) in
  match DataSource.fetch_data extractor (watermark extractor db) with
  | Return (r :: rs) =>
      match
        DataSource._calculate_checkpoint extractor (ETLRunner.now env)
          (r :: rs)
      with
      | Return w =>
          let self := began extractor db in
          let db1 := extracted extractor (ETLRunner.now env) (r :: rs) w db in
          let raw_records := ETLRunner.unprocessed self db1 in
          match ETLRunner.load_raises env,
                accepted (normalizer_of self) raw_records with
          | Some _, _ :: _ =>
              raw_data db' = raw_data db1
              /\ unified_items db' = unified_items db
          | _, _ =>
              raw_data db'
              = raw_data (loaded_and_marked env self raw_records db1)
              /\ unified_items db'
                 = fst (PostgresLoader.load (ETLRunner.now env)
                          (accepted (normalizer_of self) raw_records) None
                          (unified_items db))
          end
      | Raise _ =>
          raw_data db'
          = (raw_data db
             ++ saved_rows extractor (ETLRunner.now env) (r :: rs) db)%list
          /\ unified_items db' = unified_items db
      end
  | _ => raw_data db' = raw_data db /\ unified_items db' = unified_items db
  end.
Proof.
  intros db'. subst db'.
  destruct (DataSource.fetch_data extractor (watermark extractor db))
    as [[|r rs]|e] eqn:F.
  - rewrite (run_without_records env extractor db F). cbn [snd].
    split; [apply raw_data_nothing_new | apply unified_items_nothing_new].
  - assert (Hne : r :: rs <> []) by discriminate.
    destruct (DataSource._calculate_checkpoint extractor (ETLRunner.now env)
                (r :: rs)) as [w|e] eqn:W.
    2: { rewrite (run_checkpoint_fails env extractor db (r :: rs) e F Hne W).
         cbn [snd].
         rewrite (proj1 (complete_etl_run_tables _ _ _ _ _ _ _ _ _)).
         rewrite (proj1 (proj2 (complete_etl_run_tables
                                  _ _ _ _ _ _ _ _ _))).
         split; [apply raw_data_checkpoint_failed
                |apply unified_items_checkpoint_failed]. }
    cbv zeta.
    assert (Hdone :
              ETLRunner.load_raises env = None
              \/ accepted (normalizer_of (began extractor db))
                   (ETLRunner.unprocessed (began extractor db)
                      (extracted extractor (ETLRunner.now env) (r :: rs)
                         w db)) = [] ->
              raw_data (snd (ETLRunner.run env extractor db))
              = raw_data
                  (loaded_and_marked env (began extractor db)
                     (ETLRunner.unprocessed (began extractor db)
                        (extracted extractor (ETLRunner.now env) (r :: rs)
                           w db))
                     (extracted extractor (ETLRunner.now env) (r :: rs)
                        w db))
              /\ unified_items (snd (ETLRunner.run env extractor db))
                 = fst (PostgresLoader.load (ETLRunner.now env)
                          (accepted (normalizer_of (began extractor db))
                             (ETLRunner.unprocessed (began extractor db)
                                (extracted extractor (ETLRunner.now env)
                                   (r :: rs) w db)))
                          None (unified_items db))).
    { intros H.
      rewrite (run_completes env extractor db (r :: rs) w F Hne W H).
      cbn [snd].
      rewrite (proj1 (complete_etl_run_tables _ _ _ _ _ _ _ _ _)).
      rewrite (proj1 (proj2 (complete_etl_run_tables _ _ _ _ _ _ _ _ _))).
      split; [reflexivity|].
      unfold loaded_and_marked, ETLRunner.mark_all.
      cbn [unified_items DataSource.set_raw_data
             DataSource.set_unified_items].
      now rewrite unified_items_extracted. }
    destruct (ETLRunner.load_raises env) as [e|] eqn:L.
    + destruct (accepted _ _) as [|item items] eqn:A.
      * apply Hdone. now right.
      * rewrite (run_load_fails env extractor db (r :: rs) w e F Hne W L)
          by (rewrite A; discriminate).
        cbn [snd].
        split; [reflexivity | apply unified_items_extracted].
    + destruct (accepted _ _); apply Hdone; now left.
  - rewrite (run_extraction_fails env extractor db e F). cbn [snd].
    rewrite (proj1 (complete_etl_run_tables _ _ _ _ _ _ _ _ _)).
    rewrite (proj1 (proj2 (complete_etl_run_tables _ _ _ _ _ _ _ _ _))).
    apply data_extraction_failed.
Qed.

End RunData.

(** X19 (one row per key, across runs): a run of the orchestrator, however
    it ends, leaves the unified store with one row per
    (source type, source name, external id) if it had one before. *)
Theorem run_keeps_one_row_per_key {PF : PyFloat} {PB : PyBuiltins}
    (env : ETLRunner.Env) (extractor : DataSource.t) (db : DB) :
  NoDup (map PostgresLoader.key (unified_items db)) ->
  NoDup (map PostgresLoader.key
           (unified_items (snd (ETLRunner.run env extractor db)))).
Proof.
  intros Hnd.
  pose proof (run_data env extractor db) as H. cbv zeta in H.
  destruct (DataSource.fetch_data extractor (watermark extractor db))
    as [[|r rs]|e].
  - now rewrite (proj2 H).
  - destruct (DataSource._calculate_checkpoint _ _ _);
      [|now rewrite (proj2 H)].
    destruct (ETLRunner.load_raises env);
      destruct (accepted _ _);
      rewrite (proj2 H); try exact Hnd;
      rewrite load_table; now apply run_statements_NoDup.
  - now rewrite (proj2 H).
Qed.

Section RawFrame.
Context {PF : PyFloat} {PB : PyBuiltins}.

(** What a run may do to a raw row that was there before it: nothing, or
    mark it processed, and this only if it was an unprocessed row of the
    source of the run. *)
Definition same_or_marked (extractor : DataSource.t) (r r' : RawData)
  : Prop :=
  r' = r
  \/ (raw_processed r = false
      /\ DataSource.of_source extractor (raw_source_type r)
           (raw_source_name r) = true
      /\ exists processed_at, r' = ETLRunner.mark_processed processed_at r).

Lemma In_firstn {A} (n : nat) :
  forall (l : list A) x, In x (firstn n l) -> In x l.
Proof.
  induction n as [|n IH]; intros [|a l] x; simpl; try tauto.
  intros [->|H]; [now left | right; now apply IH].
Qed.

Lemma Forall2_map_self {A} (R : A -> A -> Prop) (f : A -> A) (l : list A) :
  (forall x, In x l -> R x (f x)) -> Forall2 R l (map f l).
Proof.
  induction l as [|a l IH]; intros H; simpl; constructor.
  - apply H. now left.
  - apply IH. intros x Hx. apply H. now right.
Qed.

Lemma Forall2_same {A} (R : A -> A -> Prop) (l : list A) :
  (forall x, R x x) -> Forall2 R l l.
Proof. intros H. induction l; constructor; auto. Qed.

(** The marking of PHASE 5, as a function on the rows of the table. *)
Definition mark_selected (ids : list nat) (processed_at : option Z)
    (raw : RawData) : RawData :=
  if existsb (Nat.eqb (raw_id raw)) ids
  then ETLRunner.mark_processed processed_at raw
  else raw.

Lemma mark_selected_keeps ids processed_at raw :
  raw_id (mark_selected ids processed_at raw) = raw_id raw
  /\ raw_payload (mark_selected ids processed_at raw) = raw_payload raw.
Proof.
  unfold mark_selected. now destruct (existsb _ _).
Qed.

Lemma new_raw_rows_length (self : DataSource.t) now first records :
  List.length (DataSource.new_raw_rows self now first records)
  = List.length records.
Proof.
  rewrite <- (length_map raw_id (DataSource.new_raw_rows _ _ _ _)).
  now rewrite new_raw_rows_ids, length_seq.
Qed.

Lemma keys_after_save (extractor : DataSource.t) now records (db : DB) :
  NoDup (map raw_id (raw_data db)) ->
  raw_keys_in_use db ->
  NoDup (map raw_id
           (raw_data db ++ saved_rows extractor now records db)%list).
Proof.
  intros Hnd Hkeys. rewrite map_app.
  unfold saved_rows. rewrite new_raw_rows_ids.
  apply NoDup_app; [exact Hnd | apply seq_NoDup|].
  intros id Hin Hseq. apply in_seq in Hseq.
  apply in_map_iff in Hin. destruct Hin as (raw & <- & Hraw).
  specialize (Hkeys raw Hraw). lia.
Qed.

Lemma keys_in_use_after (db : DB) (rows : list RawData) (n : nat) :
  raw_keys_in_use db ->
  map raw_id rows
  = (map raw_id (raw_data db)
     ++ seq (S (List.length (raw_data db))) n)%list ->
  forall raw, In raw rows -> (raw_id raw <= List.length rows)%nat.
Proof.
  intros Hkeys Hids raw Hraw.
  assert (Hlen : List.length rows = (List.length (raw_data db) + n)%nat).
  { rewrite <- (length_map raw_id rows), Hids, length_app, length_map,
      length_seq. reflexivity. }
  apply (in_map raw_id) in Hraw. rewrite Hids in Hraw.
  apply in_app_or in Hraw. destruct Hraw as [Hold|Hnew].
  - apply in_map_iff in Hold. destruct Hold as (r & <- & Hr).
    specialize (Hkeys r Hr). lia.
  - apply in_seq in Hnew. lia.
Qed.

(** A row of the table that the marking selects is one of the rows the
    run fetched as unprocessed. *)
Lemma selected_was_unprocessed (self : DataSource.t) (d : DB)
    (failed : list nat) (r : RawData) :
  NoDup (map raw_id (raw_data d)) ->
  In r (raw_data d) ->
  existsb (Nat.eqb (raw_id r))
    (map raw_id
       (filter (fun raw => negb (existsb (Nat.eqb (raw_id raw)) failed))
               (ETLRunner.unprocessed self d))) = true ->
  raw_processed r = false
  /\ DataSource.of_source self (raw_source_type r) (raw_source_name r)
     = true.
Proof.
  intros Hnd Hr Hsel.
  apply existsb_exists in Hsel. destruct Hsel as (id & Hid & Heq).
  apply Nat.eqb_eq in Heq. subst id.
  apply in_map_iff in Hid. destruct Hid as (r0 & Hsame & Hr0).
  apply filter_In in Hr0. destruct Hr0 as [Hr0 _].
  unfold ETLRunner.unprocessed in Hr0.
  apply In_firstn, filter_In in Hr0. destruct Hr0 as [Hin Hpred].
  assert (r0 = r) by (apply (NoDup_map_same raw_id _ Hnd); auto).
  subst r0. apply andb_true_iff in Hpred. destruct Hpred as [Hsrc Hun].
  split; [now destruct (raw_processed r) | exact Hsrc].
Qed.

Lemma run_raw_rows (env : ETLRunner.Env) (extractor : DataSource.t)
    (db : DB) :
  NoDup (map raw_id (raw_data db)) ->
  raw_keys_in_use db ->
  exists kept added,
    raw_data (snd (ETLRunner.run env extractor db))
    = (kept ++ added)%list
    /\ Forall2 (same_or_marked extractor) (raw_data db) kept
    /\ map raw_id kept = map raw_id (raw_data db)
    /\ map raw_id added
       = seq (S (List.length (raw_data db))) (List.length added)
    /\ map raw_payload added
       = match DataSource.fetch_data extractor (watermark extractor db) with
         | Return records => records
         | Raise _ => []
         end.
Proof.
  intros Hnd Hkeys.
  pose proof (run_data env extractor db) as H. cbv zeta in H.
  assert (Hsame : Forall2 (same_or_marked extractor) (raw_data db)
                    (raw_data db))
    by (apply Forall2_same; intros x; now left).
  destruct (DataSource.fetch_data extractor (watermark extractor db))
    as [[|r rs]|e] eqn:F.
  - exists (raw_data db), []. rewrite (proj1 H), app_nil_r. auto.
  - set (records := r :: rs) in *.
    set (now := ETLRunner.now env) in *.
    destruct (DataSource._calculate_checkpoint extractor now records)
      as [w|e0] eqn:W.
    2: { exists (raw_data db), (saved_rows extractor now records db).
         split; [exact (proj1 H)|]. split; [exact Hsame|].
         split; [reflexivity|]. split.
         - unfold saved_rows.
           rewrite new_raw_rows_length. apply new_raw_rows_ids.
         - apply new_raw_rows_payload. }
    pose proof (raw_data_extracted extractor now records w db) as Hdb1.
    pose proof (keys_after_save extractor now records db Hnd Hkeys) as Hnd1.
    rewrite <- Hdb1 in Hnd1.
    assert (Hids : map raw_id (saved_rows extractor now records db)
                   = seq (S (List.length (raw_data db)))
                         (List.length (saved_rows extractor now records db))).
    { unfold saved_rows.
      rewrite new_raw_rows_length. apply new_raw_rows_ids. }
    assert (Hpay : map raw_payload (saved_rows extractor now records db)
                   = records)
      by apply new_raw_rows_payload.
    assert (Hfail :
              raw_data (snd (ETLRunner.run env extractor db))
              = raw_data (extracted extractor now records w db) ->
              exists kept added,
                raw_data (snd (ETLRunner.run env extractor db))
                = (kept ++ added)%list
                /\ Forall2 (same_or_marked extractor) (raw_data db) kept
                /\ map raw_id kept = map raw_id (raw_data db)
                /\ map raw_id added
                   = seq (S (List.length (raw_data db)))
                         (List.length added)
                /\ map raw_payload added = records).
    { intros ->. exists (raw_data db), (saved_rows extractor now records db).
      auto. }
    assert (Hdone :
              raw_data (snd (ETLRunner.run env extractor db))
              = raw_data
                  (loaded_and_marked env (began extractor db)
                     (ETLRunner.unprocessed (began extractor db)
                        (extracted extractor now records w db))
                     (extracted extractor now records w db)) ->
              exists kept added,
                raw_data (snd (ETLRunner.run env extractor db))
                = (kept ++ added)%list
                /\ Forall2 (same_or_marked extractor) (raw_data db) kept
                /\ map raw_id kept = map raw_id (raw_data db)
                /\ map raw_id added
                   = seq (S (List.length (raw_data db)))
                         (List.length added)
                /\ map raw_payload added = records).
    { intros ->.
      unfold loaded_and_marked, ETLRunner.mark_all.
      cbn [raw_data DataSource.set_raw_data DataSource.set_unified_items].
      match goal with
      | |- context [map (fun raw => if existsb _ ?ids then
                                      ETLRunner.mark_processed ?pa raw
                                    else raw) _] =>
          change (map (fun raw => if existsb (Nat.eqb (raw_id raw)) ids
                                  then ETLRunner.mark_processed pa raw
                                  else raw))
            with (map (mark_selected ids pa));
          set (selected := ids); set (processed_at := pa)
      end.
      rewrite Hdb1, map_app.
      exists (map (mark_selected selected processed_at) (raw_data db)),
        (map (mark_selected selected processed_at)
             (saved_rows extractor now records db)).
      split; [reflexivity|]. split; [|split; [|split]].
      - apply Forall2_map_self. intros x Hx.
        unfold mark_selected.
        destruct (existsb (Nat.eqb (raw_id x)) selected) eqn:E;
          [|now left].
        right.
        destruct (selected_was_unprocessed (began extractor db)
                    (extracted extractor now records w db)
                    (rejected (normalizer_of (began extractor db))
                       (ETLRunner.unprocessed (began extractor db)
                          (extracted extractor now records w db)))
                    x Hnd1)
          as [Hun Hsrc];
          [rewrite Hdb1; apply in_or_app; now left | exact E |].
        split; [exact Hun|]. split; [exact Hsrc|].
        now exists processed_at.
      - rewrite map_map. apply map_ext. intros x.
        apply mark_selected_keeps.
      - rewrite length_map, map_map, <- Hids.
        apply map_ext. intros x. apply mark_selected_keeps.
      - rewrite map_map.
        transitivity (map raw_payload (saved_rows extractor now records db));
          [|exact Hpay].
        apply map_ext. intros x. apply mark_selected_keeps. }
    destruct (ETLRunner.load_raises env);
      destruct (accepted _ _);
      first [apply Hdone; exact (proj1 H) | apply Hfail; exact (proj1 H)].
  - exists (raw_data db), []. rewrite (proj1 H), app_nil_r. auto.
Qed.

End RawFrame.

(** X20 (raw store, what a run never does): in a raw store whose primary
    keys are distinct and were given out in order, a run of the
    orchestrator, however it ends, deletes no row and moves none; a row
    that was there is left as it was, or is marked processed, and marked
    only if it was an unprocessed row of the source of the run; the rows
    the run adds carry the extracted payloads in order under the next
    keys; the keys stay distinct and in order. *)
Theorem run_only_marks_rows_of_its_source {PF : PyFloat} {PB : PyBuiltins}
    (env : ETLRunner.Env) (extractor : DataSource.t) (db : DB) :
  NoDup (map raw_id (raw_data db)) ->
  raw_keys_in_use db ->
  let db' := snd (ETLRunner.run env extractor db) in
  (exists kept added,
      raw_data db' = (kept ++ added)%list
      /\ Forall2 (same_or_marked extractor) (raw_data db) kept
      /\ map raw_id added
         = seq (S (List.length (raw_data db))) (List.length added)
      /\ map raw_payload added
         = match
             DataSource.fetch_data extractor (watermark extractor db)
           with
           | Return records => records
           | Raise _ => []
           end)
  /\ NoDup (map raw_id (raw_data db'))
  /\ raw_keys_in_use db'.
Proof.
  intros Hnd Hkeys db'. subst db'.
  destruct (run_raw_rows env extractor db Hnd Hkeys)
    as (kept & added & Hraw & Hall & Hkept & Hadded & Hpay).
  assert (Hids : map raw_id (raw_data (snd (ETLRunner.run env extractor db)))
                 = (map raw_id (raw_data db)
                    ++ seq (S (List.length (raw_data db)))
                         (List.length added))%list).
  { now rewrite Hraw, map_app, Hkept, Hadded. }
  split; [exists kept, added; auto|]. split.
  - rewrite Hids. apply NoDup_app; [exact Hnd | apply seq_NoDup|].
    intros id Hin Hseq. apply in_seq in Hseq.
    apply in_map_iff in Hin. destruct Hin as (raw & <- & Hin).
    specialize (Hkeys raw Hin). lia.
  - exact (keys_in_use_after db _ _ Hkeys Hids).
Qed.

Section RunOutcomes.
Context {PF : PyFloat} {PB : PyBuiltins}.

Lemma failed_details_spec (normalizer : DataNormalizer.t) :
  forall raw_records acc,
    let n := ETLRunner.normalize_all normalizer raw_records acc in
    map ETLRunner.raw_data_id (ETLRunner.failed_details n)
    = (map ETLRunner.raw_data_id (ETLRunner.failed_details acc)
       ++ rejected normalizer raw_records)%list
    /\ (Forall (fun d => ETLRunner.phase d = "normalization")
               (ETLRunner.failed_details acc) ->
        Forall (fun d => ETLRunner.phase d = "normalization")
               (ETLRunner.failed_details n)).
Proof.
  induction raw_records as [|raw rest IH]; intros acc.
  - unfold rejected. simpl. now rewrite app_nil_r.
  - unfold rejected, normalizes in *. simpl.
    destruct (DataNormalizer.normalize normalizer (raw_payload raw)
                (raw_id raw)) as [item|e]; simpl.
    + apply (IH {| ETLRunner.normalized_items :=
                     (ETLRunner.normalized_items acc ++ [item])%list;
                   ETLRunner.failed_raw_ids := ETLRunner.failed_raw_ids acc;
                   ETLRunner.failed_details :=
                     ETLRunner.failed_details acc |}).
    + match goal with
      | |- context [ETLRunner.normalize_all _ rest ?a] =>
          destruct (IH a) as [IH1 IH2]
      end.
      cbn [ETLRunner.failed_details] in IH1, IH2.
      split.
      * rewrite IH1, map_app, <- app_assoc. reflexivity.
      * intros Hacc. apply IH2. apply Forall_app. split; [exact Hacc|].
        now repeat constructor.
Qed.

Lemma watermark_same (extractor : DataSource.t) (d d' : DB) :
  etl_checkpoints d' = etl_checkpoints d ->
  watermark extractor d' = watermark extractor d.
Proof.
  intros H. unfold watermark.
  now rewrite (get_checkpoint_same extractor d d' H).
Qed.

Lemma watermark_extraction_failed (extractor : DataSource.t) now e
    (db : DB) :
  watermark extractor (extraction_failed extractor now e db)
  = watermark extractor db.
Proof.
  unfold extraction_failed.
  match goal with
  | |- context [DataSource.create_or_update_checkpoint ?s ?t ?v ?st ?n ?em
                  ?d] =>
      destruct (checkpoint_upsert s t v st n em d) as (c & Hget & Hv & _)
  end.
  unfold began in Hget. rewrite get_checkpoint_began in Hget.
  unfold watermark at 1. unfold began. rewrite Hget.
  unfold DataSource.current_value. now rewrite Hv.
Qed.

Lemma unprocessed_bound (extractor : DataSource.t) (db : DB) :
  (List.length (ETLRunner.unprocessed extractor db) <= 1000)%nat.
Proof. unfold ETLRunner.unprocessed. apply firstn_le_length. Qed.

End RunOutcomes.

(** X21 (failed extraction): when the source raises, the orchestrator
    raises an [ExtractionError]: the error of the source itself if it is
    one, and otherwise a new one that keeps it as its cause; no raw row
    and no item is stored and the watermark of the source is left where
    it was. *)
Theorem failed_extraction_changes_no_data {PF : PyFloat} {PB : PyBuiltins}
    (env : ETLRunner.Env) (extractor : DataSource.t) (db : DB) (e : exn) :
  DataSource.fetch_data extractor (watermark extractor db) = Raise e ->
  let outcome := ETLRunner.run env extractor db in
  exists error,
    fst (fst outcome) = Raise error
    /\ isinstance error ExtractionError = true
    /\ (if isinstance e ExtractionError then error = e
        else exn_original error = Some e
             /\ exn_message error = "Unexpected error during extraction")
    /\ raw_data (snd outcome) = raw_data db
    /\ unified_items (snd outcome) = unified_items db
    /\ watermark extractor (snd outcome) = watermark extractor db.
Proof.
  intros F outcome. subst outcome.
  pose proof (run_data env extractor db) as H. cbv zeta in H.
  rewrite F in H. destruct H as [Hraw Huni].
  rewrite Hraw, Huni.
  rewrite (run_extraction_fails env extractor db e F). cbn [fst snd].
  exists (extraction_error env (began extractor db) e).
  split; [reflexivity|]. split; [|split; [|split; [|split]]]; auto.
  - unfold extraction_error.
    destruct (isinstance e ExtractionError) eqn:E; [exact E | reflexivity].
  - unfold extraction_error.
    destruct (isinstance e ExtractionError); [reflexivity|].
    split; reflexivity.
  - rewrite (watermark_same extractor
               (extraction_failed extractor (ETLRunner.now env) e db))
      by apply complete_etl_run_tables.
    apply watermark_extraction_failed.
Qed.

(** X22 (failed load): when the loader raises on a batch that holds at
    least one item, the orchestrator raises; the error that reaches the
    caller is not the [LoadError] it builds, and no error of the pipeline
    at all: it is the [MissingGreenlet] of the handler, raised while the
    run row is being marked failed, so the row keeps the success status
    that the extraction gave it. The unified store is as it was, and the
    extracted records are in the raw store, in order and all
    unprocessed. *)
Theorem failed_load_stores_no_item {PF : PyFloat} {PB : PyBuiltins}
    (env : ETLRunner.Env) (extractor : DataSource.t) (db : DB)
    (records : list pydict) (w : string) (e : exn) :
  DataSource.fetch_data extractor (watermark extractor db) = Return records ->
  records <> [] ->
  DataSource._calculate_checkpoint extractor (ETLRunner.now env) records
  = Return w ->
  ETLRunner.load_raises env = Some e ->
  let batch :=
    accepted (normalizer_of (began extractor db))
      (ETLRunner.unprocessed (began extractor db)
         (extracted extractor (ETLRunner.now env) records w db)) in
  batch <> [] ->
  let outcome := ETLRunner.run env extractor db in
  exists error rows older row,
    fst (fst outcome) = Raise error
    /\ class_name (exn_class error) = "MissingGreenlet"
    /\ isinstance error ETLException = false
    /\ unified_items (snd outcome) = unified_items db
    /\ raw_data (snd outcome) = (raw_data db ++ rows)%list
    /\ map raw_payload rows = records
    /\ Forall (fun raw => raw_processed raw = false) rows
    /\ etl_runs (snd outcome) = (older ++ [row])%list
    /\ List.length older = List.length (etl_runs db)
    /\ run_status row = SUCCESS.
Proof.
  intros F Hne W L batch Hbatch outcome. subst outcome.
  rewrite (run_load_fails env extractor db records w e F Hne W L Hbatch).
  cbn [fst snd].
  rewrite unified_items_extracted, raw_data_extracted.
  destruct (tracked_extracted extractor (ETLRunner.now env) records w db)
    as (_ & older & row & Hrows & Hlen & _ & Hstatus & _).
  exists ETLRunner.missing_greenlet,
    (saved_rows extractor (ETLRunner.now env) records db), older, row.
  split; [reflexivity|]. split; [reflexivity|]. split; [reflexivity|].
  split; [reflexivity|]. split; [reflexivity|].
  split; [apply new_raw_rows_payload|].
  split.
  - apply Forall_forall. intros raw Hraw.
    exact (proj1 (new_raw_rows_unprocessed _ _ _ _ _ Hraw)).
  - auto.
Qed.

(** X23 (summary): a summary that the orchestrator returns is consistent:
    its status is success exactly when no record failed, it has one error
    detail per failed record, all of the normalization phase, it counts at
    most 1000 loaded and failed records together, and it carries the
    message of an empty extraction exactly when it counts no extracted
    record. *)
Theorem summary_counts_are_consistent {PF : PyFloat} {PB : PyBuiltins}
    (env : ETLRunner.Env) (extractor : DataSource.t) (db : DB)
    (summary : ETLRunner.Summary) (self' : DataSource.t) (db' : DB) :
  ETLRunner.run env extractor db = (Return summary, self', db') ->
  ETLRunner.status summary
  = (if (ETLRunner.records_failed summary =? 0)%nat
     then "success" else "partial_success")
  /\ List.length (ETLRunner.error_details summary)
     = ETLRunner.records_failed summary
  /\ Forall (fun d => ETLRunner.phase d = "normalization")
            (ETLRunner.error_details summary)
  /\ (ETLRunner.records_loaded summary
      + ETLRunner.records_failed summary <= 1000)%nat
  /\ (ETLRunner.message summary = Some "No new data"
      <-> ETLRunner.records_extracted summary = 0%nat).
Proof.
  destruct (DataSource.fetch_data extractor (watermark extractor db))
    as [[|r rs]|e] eqn:F.
  - rewrite (run_without_records env extractor db F).
    intros E. injection E as Hs _ _. subst summary. cbn.
    repeat split; auto. lia.
  - assert (Hne : r :: rs <> []) by discriminate.
    destruct (DataSource._calculate_checkpoint extractor (ETLRunner.now env)
                (r :: rs)) as [w|e] eqn:W.
    2: { rewrite (run_checkpoint_fails env extractor db (r :: rs) e F Hne W).
         discriminate. }
    set (self := began extractor db).
    set (raw_records :=
           ETLRunner.unprocessed self
             (extracted extractor (ETLRunner.now env) (r :: rs) w db)).
    assert (Hdone :
              ETLRunner.load_raises env = None
              \/ accepted (normalizer_of self) raw_records = [] ->
              ETLRunner.run env extractor db = (Return summary, self', db') ->
              ETLRunner.status summary
              = (if (ETLRunner.records_failed summary =? 0)%nat
                 then "success" else "partial_success")
              /\ List.length (ETLRunner.error_details summary)
                 = ETLRunner.records_failed summary
              /\ Forall (fun d => ETLRunner.phase d = "normalization")
                        (ETLRunner.error_details summary)
              /\ (ETLRunner.records_loaded summary
                  + ETLRunner.records_failed summary <= 1000)%nat
              /\ (ETLRunner.message summary = Some "No new data"
                  <-> ETLRunner.records_extracted summary = 0%nat)).
    { intros H.
      rewrite (run_completes env extractor db (r :: rs) w F Hne W H).
      fold self raw_records.
      intros E. injection E as Hs _ _. subst summary.
      cbn [ETLRunner.status ETLRunner.records_extracted
           ETLRunner.records_loaded ETLRunner.records_failed
           ETLRunner.message ETLRunner.error_details].
      destruct (failed_details_spec (normalizer_of self) raw_records
                  no_items) as [Hids Hphase].
      cbv zeta in Hids, Hphase.
      change (ETLRunner.failed_details no_items)
        with (@nil ETLRunner.ErrorDetail) in Hids, Hphase.
      cbn [map app] in Hids.
      split; [reflexivity|]. split; [|split; [|split]].
      - rewrite <- (length_map ETLRunner.raw_data_id), Hids. reflexivity.
      - apply Hphase. constructor.
      - rewrite accepted_length. apply unprocessed_bound.
      - split; [discriminate | discriminate]. }
    destruct (ETLRunner.load_raises env) as [e|] eqn:L.
    + destruct (accepted (normalizer_of self) raw_records) as [|item items] eqn:A.
      * apply Hdone. now right.
      * rewrite (run_load_fails env extractor db (r :: rs) w e F Hne W L).
        -- discriminate.
        -- fold self raw_records. rewrite A. discriminate.
    + apply Hdone. now left.
  - rewrite (run_extraction_fails env extractor db e F). discriminate.
Qed.

(** * Paging through the API *)

Section PagingProperties.
Context {PF : PyFloat} {PB : PyBuiltins}.
Import APIExtractor APIPages.

(** A first reply that passes the status checks is returned at once. *)
Lemma accepted_reply_is_returned (network : Network) (self : t)
    (url : string) (w : World) (response : Response) :
  _circuit_breaker_open_until self = None ->
  (1 <= max_retries self)%nat ->
  network (requests w) = Responds response ->
  accepted_response response ->
  _make_request_with_retry network self url w
  = (Return response, _record_success self, sent w).
Proof.
  intros Hopen Hn Hnet (Hnot & Hlt & Hraise).
  unfold _make_request_with_retry, _is_circuit_open.
  rewrite Hopen.
  destruct (max_retries self) as [|m]; [lia|].
  change (seq 0 (S m)) with (0%nat :: seq 1 m).
  rewrite retry_loop_cons.
  unfold attempt_once. rewrite Hnet. unfold on_response.
  destruct (Z.eqb_spec (status_code response) 401) as [E|_];
    [exfalso; apply Hnot; rewrite E; simpl; auto|].
  destruct (Z.eqb_spec (status_code response) 403) as [E|_];
    [exfalso; apply Hnot; rewrite E; simpl; auto|].
  destruct (Z.eqb_spec (status_code response) 404) as [E|_];
    [exfalso; apply Hnot; rewrite E; simpl; auto|].
  destruct (Z.eqb_spec (status_code response) 429) as [E|_];
    [exfalso; apply Hnot; rewrite E; simpl; auto|].
  destruct (Z.leb_spec 500 (status_code response)); [lia|].
  now rewrite Hraise.
Qed.

(** A page after which the loop goes on, and one after which it ends,
    with the records each adds. *)
Definition continues (data : json) (items : list json) : Prop :=
  truthy (page_records data) = true
  /\ extend [] (page_records data) = Some items
  /\ last_page data (page_records data) = false.

Definition ends (data : json) (items : list json) : Prop :=
  (truthy (page_records data) = false /\ items = [])
  \/ (truthy (page_records data) = true
      /\ extend [] (page_records data) = Some items
      /\ last_page data (page_records data) = true).

Lemma extend_onto (acc : list json) (records : json) (items : list json) :
  extend [] records = Some items ->
  extend acc records = Some (acc ++ items)%list.
Proof.
  destruct records; simpl; try discriminate; intros E; now inversion E.
Qed.

(** The server of a script: the [i]-th request is answered, at the first
    attempt, with the [i]-th body. *)
Definition serves (json_of : string -> result json) (network : Network)
    (first : nat) (bodies : list json) : Prop :=
  forall i data,
    nth_error bodies i = Some data ->
    exists response,
      network (first + i)%nat = Responds response
      /\ accepted_response response
      /\ json_of (text response) = Return data.

Lemma fetch_script (json_of : string -> result json) (network : Network) :
  forall (pages : list (json * list json)) (final : json)
         (final_items : list json) fuel self w page acc,
    _circuit_breaker_open_until self = None ->
    (1 <= max_retries self)%nat ->
    (List.length pages < fuel)%nat ->
    serves json_of network (requests w) (map fst pages ++ [final])%list ->
    Forall (fun p => continues (fst p) (snd p)) pages ->
    ends final final_items ->
    fetch_pages json_of network fuel self w page acc
    = Some (Return (acc ++ List.concat (map snd pages) ++ final_items)%list,
            _record_success self,
            {| clock := clock w;
               requests := (requests w + S (List.length pages))%nat |}).
Proof.
  induction pages as [|[data items] pages IH];
    intros final final_items fuel self w page acc Hopen Hn Hfuel Hserves
           Hpages Hfinal;
    (destruct fuel as [|fuel]; [simpl in Hfuel; lia|]);
    cbn [fetch_pages].
  - destruct (Hserves 0%nat final eq_refl) as (response & Hnet & Hok & Hjson).
    replace (requests w + 0)%nat with (requests w) in Hnet by lia.
    rewrite (accepted_reply_is_returned network self (api_url self) w
               response Hopen Hn Hnet Hok).
    rewrite Hjson. cbn [map List.concat app List.length].
    replace (requests w + 1)%nat with (S (requests w)) by lia.
    destruct Hfinal as [[Hfalse ->] | (Htrue & Hext & Hlast)].
    + rewrite Hfalse. cbn [negb]. now rewrite app_nil_r.
    + rewrite Htrue. cbn [negb].
      rewrite (extend_onto acc _ _ Hext), Hlast. reflexivity.
  - destruct (Hserves 0%nat data eq_refl) as (response & Hnet & Hok & Hjson).
    replace (requests w + 0)%nat with (requests w) in Hnet by lia.
    rewrite (accepted_reply_is_returned network self (api_url self) w
               response Hopen Hn Hnet Hok).
    rewrite Hjson.
    inversion Hpages as [|? ? (Htrue & Hext & Hlast) Hrest]; subst.
    cbn [fst snd] in Htrue, Hext, Hlast.
    rewrite Htrue. cbn [negb].
    rewrite (extend_onto acc _ _ Hext), Hlast.
    rewrite (IH final final_items fuel (_record_success self) (sent w)
               (S page) (acc ++ items)%list);
      try reflexivity; try assumption.
    + cbn [map List.concat snd List.length sent clock requests].
      rewrite <- !app_assoc.
      replace (S (requests w) + S (List.length pages))%nat
        with (requests w + S (S (List.length pages)))%nat by lia.
      reflexivity.
    + cbn [List.length] in Hfuel. lia.
    + intros i d Hi.
      destruct (Hserves (S i) d Hi) as (r & H1 & H2 & H3).
      exists r. cbn [sent requests].
      replace (S (requests w) + i)%nat with (requests w + S i)%nat by lia.
      auto.
Qed.

(** An error of one of the four classes the loop raises again is an
    extraction error. *)
Lemma reraised_is_extraction_error (c : ErrClass) :
  issubclass c APIExtractionError
  || issubclass c NetworkError
  || issubclass c AuthenticationError
  || issubclass c ResourceNotFoundError = true ->
  issubclass c ExtractionError = true.
Proof. destruct c; simpl; auto. Qed.

Lemma on_fetch_error_class (self : t) (w : World) (page : nat)
    (acc : list json) (e : exn) :
  isinstance (on_fetch_error self w page acc e) ExtractionError = true.
Proof.
  unfold on_fetch_error.
  destruct (isinstance e APIExtractionError
            || isinstance e NetworkError
            || isinstance e AuthenticationError
            || isinstance e ResourceNotFoundError) eqn:E.
  - now apply reraised_is_extraction_error.
  - reflexivity.
Qed.

Lemma fetch_pages_raises (json_of : string -> result json)
    (network : Network) :
  forall fuel self w page acc e self' w',
    fetch_pages json_of network fuel self w page acc
    = Some (Raise e, self', w') ->
    isinstance e ExtractionError = true.
Proof.
  induction fuel as [|fuel IH]; intros self w page acc e self' w';
    cbn [fetch_pages]; [discriminate|].
  destruct (_make_request_with_retry network self (api_url self) w)
    as [[[response|e0] self1] w1].
  - destruct (json_of (text response)) as [data|e1].
    + destruct (negb (truthy (page_records data))); [discriminate|].
      destruct (extend acc (page_records data)) as [acc'|].
      * destruct (last_page data (page_records data)); [discriminate|].
        apply IH.
      * intros E. inversion E. apply on_fetch_error_class.
    + intros E. inversion E. apply on_fetch_error_class.
  - intros E. inversion E. apply on_fetch_error_class.
Qed.

End PagingProperties.

(** X24 (paging, list responses): when the server answers each request at
    once with a JSON list, pages of at least 100 records are followed by
    the request of the next page and the first shorter page ends the
    loop: [fetch_data] returns the records of all the pages in order,
    after one request per page, with the breaker reset. *)
Theorem list_pages_are_fetched_in_order {PF : PyFloat} {PB : PyBuiltins}
    (json_of : string -> result json) (network : APIExtractor.Network)
    (full : list (list json)) (short : list json) (fuel : nat)
    (self : APIExtractor.t) (w : APIExtractor.World) :
  APIExtractor._circuit_breaker_open_until self = None ->
  (1 <= APIExtractor.max_retries self)%nat ->
  (List.length full < fuel)%nat ->
  Forall (fun page => (100 <= List.length page)%nat) full ->
  (List.length short < 100)%nat ->
  serves json_of network (APIExtractor.requests w)
    (map JList full ++ [JList short])%list ->
  APIPages.fetch_data json_of network fuel self w
  = Some (Return (List.concat full ++ short)%list,
          APIExtractor._record_success self,
          {| APIExtractor.clock := APIExtractor.clock w;
             APIExtractor.requests :=
               (APIExtractor.requests w + S (List.length full))%nat |}).
Proof.
  intros Hopen Hn Hfuel Hfull Hshort Hserves.
  unfold APIPages.fetch_data.
  rewrite (fetch_script json_of network
             (map (fun page => (JList page, page)) full) (JList short) short
             fuel self w 1 [] Hopen Hn).
  - rewrite length_map, map_map. cbn [snd app]. now rewrite map_id.
  - now rewrite length_map.
  - now rewrite map_map.
  - apply Forall_map. eapply Forall_impl; [|exact Hfull].
    intros page Hlen. unfold continues.
    cbn [fst snd APIPages.page_records APIPages.last_page APIPages.extend app].
    split; [destruct page; [simpl in Hlen; lia | reflexivity]|].
    split; [reflexivity|].
    apply Nat.ltb_ge. exact Hlen.
  - unfold ends. cbn [APIPages.page_records APIPages.last_page APIPages.extend app].
    destruct short as [|x short]; [left; auto|].
    right. split; [reflexivity|]. split; [reflexivity|].
    now apply Nat.ltb_lt.
Qed.

(** X25 (paging, object responses): when the server answers each request
    at once with a JSON object, a page with records under [data] and a
    true [has_next] is followed by the request of the next page, and the
    first page whose [has_next] is absent or false ends the loop:
    [fetch_data] returns the records of all the pages in order. *)
Theorem object_pages_follow_has_next {PF : PyFloat} {PB : PyBuiltins}
    (json_of : string -> result json) (network : APIExtractor.Network)
    (pages : list (pydict * list json)) (final : pydict)
    (final_records : list json) (fuel : nat)
    (self : APIExtractor.t) (w : APIExtractor.World) :
  APIExtractor._circuit_breaker_open_until self = None ->
  (1 <= APIExtractor.max_retries self)%nat ->
  (List.length pages < fuel)%nat ->
  Forall (fun p =>
            dict_lookup "data" (fst p) = Some (JList (snd p))
            /\ snd p <> []
            /\ truthy (get_or "has_next" (fst p) (JBool false)) = true)
         pages ->
  dict_lookup "data" final = Some (JList final_records) ->
  truthy (get_or "has_next" final (JBool false)) = false ->
  serves json_of network (APIExtractor.requests w)
    (map (fun p => JDict (fst p)) pages ++ [JDict final])%list ->
  APIPages.fetch_data json_of network fuel self w
  = Some (Return (List.concat (map snd pages) ++ final_records)%list,
          APIExtractor._record_success self,
          {| APIExtractor.clock := APIExtractor.clock w;
             APIExtractor.requests :=
               (APIExtractor.requests w + S (List.length pages))%nat |}).
Proof.
  intros Hopen Hn Hfuel Hpages Hdata Hnext Hserves.
  unfold APIPages.fetch_data.
  rewrite (fetch_script json_of network
             (map (fun p => (JDict (fst p), snd p)) pages) (JDict final)
             final_records fuel self w 1 [] Hopen Hn).
  - rewrite length_map, map_map. cbn [snd app]. reflexivity.
  - now rewrite length_map.
  - now rewrite map_map.
  - apply Forall_map. eapply Forall_impl; [|exact Hpages].
    intros [d records] (Hd & Hne & Hmore). unfold continues.
    cbn [fst snd] in *. cbn [APIPages.page_records APIPages.last_page].
    assert (Hrec : get_or "data" d (get_or "results" d (JList []))
                   = JList records)
      by (unfold get_or at 1; now rewrite Hd).
    rewrite Hrec, Hmore.
    split; [destruct records; [congruence | reflexivity]|].
    split; reflexivity.
  - unfold ends. cbn [APIPages.page_records APIPages.last_page].
    assert (Hrec : get_or "data" final (get_or "results" final (JList []))
                   = JList final_records)
      by (unfold get_or at 1; now rewrite Hdata).
    rewrite Hrec, Hnext.
    destruct final_records as [|x l]; [left; auto|].
    right. split; [reflexivity|]. split; reflexivity.
Qed.

(** X26 (paging, errors): whatever the server sends, an error that
    [fetch_data] raises is an [ExtractionError] of the hierarchy, also
    when the body is not JSON or the records are not iterable. *)
Theorem fetch_errors_are_extraction_errors {PF : PyFloat} {PB : PyBuiltins}
    (json_of : string -> result json) (network : APIExtractor.Network)
    (fuel : nat) (self : APIExtractor.t) (w : APIExtractor.World)
    (e : exn) (self' : APIExtractor.t) (w' : APIExtractor.World) :
  APIPages.fetch_data json_of network fuel self w = Some (Raise e, self', w') ->
  isinstance e ExtractionError = true.
Proof.
  unfold APIPages.fetch_data. apply fetch_pages_raises.
Qed.

(** * The breaker under failing requests *)

Section FailingRequests.
Context {PF : PyFloat} {PB : PyBuiltins}.
Import APIExtractor.

Variables (network : Network) (cause : nat -> exn) (url : string).
Hypothesis transport_fails :
  forall i,
    network i = RaisesTimeout (cause i)
    \/ network i = RaisesNetworkError (cause i).





End FailingRequests.


(** * The model on concrete inputs

    The statements below run the definitions on explicit inputs, under the
    interpretation [WholeNumbers] of the builtins. *)

#[local] Existing Instance WholeNumbers.floats.
#[local] Existing Instance WholeNumbers.builtins.
Import Scenario.

Lemma load_twice_same_rows_witness :
  let table :=
    fst (PostgresLoader.load 1 [widget "7" "Old" 1; widget "9" "Kept" 5]
           None []) in
  let items := [widget "7" "A" 2; widget "8" "B" 3;
                widget "7" "C" 4] in
  let once := fst (PostgresLoader.load 2 items None table) in
  let twice := fst (PostgresLoader.load 3 items None once) in
  NoDup (map PostgresLoader.key table)
  /\ map without_updated_at twice = map without_updated_at once
  /\ Forall2
       (fun row row' =>
          if existsb (hits row) items
          then ui_updated_at row' = 3%Z
          else row' = row)
       once twice.
Proof.
  intros table items once twice.
  assert (Hnd : NoDup (map PostgresLoader.key table)).
  { repeat constructor; simpl; intuition discriminate. }
  split; [exact Hnd|].
  split.
  - exact (proj1 (proj2 (load_twice_same_rows 2 3 items None table Hnd))).
  - exact (proj1 (proj2 (proj2 (load_twice_same_rows 2 3 items None table
                                  Hnd)))).
Defined.

(** The tables of the witness: the second load moves [updated_at] on the
    two rows the items conflict with and leaves the third row alone. *)
Example second_load_moves_only_touched_rows :
  let table :=
    fst (PostgresLoader.load 1 [widget "7" "Old" 1; widget "9" "Kept" 5]
           None []) in
  let items := [widget "7" "A" 2; widget "8" "B" 3;
                widget "7" "C" 4] in
  let once := fst (PostgresLoader.load 2 items None table) in
  let twice := fst (PostgresLoader.load 3 items None once) in
  map (fun row => (ui_external_id row, ui_title row, ui_updated_at row)) once
  = [("7", "C", 2%Z); ("9", "Kept", 1%Z); ("8", "B", 2%Z)]
  /\ map (fun row => (ui_external_id row, ui_title row, ui_updated_at row))
         twice
     = [("7", "C", 3%Z); ("9", "Kept", 1%Z); ("8", "B", 3%Z)].
Proof. split; reflexivity. Qed.

(** C3, as stated, fails on [updated_at]: a second load one instant later
    leaves the row with a different value in that column. *)
Lemma load_twice_moves_updated_at :
  map ui_updated_at
    (fst (PostgresLoader.load 2 [widget "7" "A" 1] None
            (fst (PostgresLoader.load 1 [widget "7" "A" 1] None []))))
  = [2%Z]
  /\ map ui_updated_at
       (fst (PostgresLoader.load 1 [widget "7" "A" 1] None []))
     = [1%Z].
Proof. split; reflexivity. Qed.

(** The two records of the end-to-end scenario: a first run loads both, the
    store has one row per external id with the amounts of the payloads,
    and the checkpoint holds the greater timestamp. *)
Example first_run_loads_both_records :
  let after := ETLRunner.run (calm t1) shop empty_db in
  counts (fst (fst after)) = Some (2%nat, 2%nat, 0%nat)
  /\ map (fun row => (ui_external_id row, ui_amount row))
         (unified_items (snd after))
     = [("1", Some 10%Z); ("2", Some 20%Z)]
  /\ map raw_processed (raw_data (snd after)) = [true; true]
  /\ map cp_checkpoint_value (etl_checkpoints (snd after))
     = [Some "1705316400"].
Proof. vm_compute. repeat split. Qed.

(** A batch with one valid record and one whose title is blank. *)
Example mixed_batch_is_partial :
  let after := ETLRunner.run (calm t1) shop_mixed empty_db in
  counts (fst (fst after)) = Some (2%nat, 1%nat, 1%nat)
  /\ map raw_processed (raw_data (snd after)) = [true; false]
  /\ map run_status (etl_runs (snd after)) = [PARTIAL].
Proof. vm_compute. repeat split. Qed.

(** A record with no title field at all takes the default title. *)
Example missing_title_defaults_to_untitled :
  option_map item_title
    (match DataNormalizer.normalize shop_normalizer
             [("id", JStr "9"); ("price", JInt 5)] 1 with
     | Return item => Some item
     | Raise _ => None
     end)
  = Some "Untitled".
Proof. reflexivity. Qed.

(** C1 on the code: the loader raises on the first run of [shop]; the
    watermark before the run is empty, and after the run the checkpoint
    row holds the greatest timestamp of the batch with status success,
    while nothing was loaded. The run raises, and what it raises is the
    error of the handler that was marking the run row failed, so the row
    is left with the success status of the extraction. *)
Lemma load_failure_advances_checkpoint :
  let after := ETLRunner.run (failing_load t1) shop empty_db in
  watermark shop empty_db = ""
  /\ option_map (fun e => class_name (exn_class e))
       (match fst (fst after) with Raise e => Some e | Return _ => None end)
     = Some "MissingGreenlet"
  /\ map cp_checkpoint_value (etl_checkpoints (snd after))
     = [Some "1705316400"]
  /\ map cp_status (etl_checkpoints (snd after)) = [SUCCESS]
  /\ unified_items (snd after) = []
  /\ map raw_processed (raw_data (snd after)) = [false; false]
  /\ map run_status (etl_runs (snd after)) = [SUCCESS]
  /\ run_writes (snd after)
     = [RunCreated 1 RUNNING; RunFinalized 1 SUCCESS].
Proof. vm_compute. repeat split. Qed.

(** C2 on the code: after the failed first run the source, asked from the
    advanced watermark, has nothing new; the second run returns at once,
    the two raw rows stay unprocessed and the unified store stays
    empty. *)
Lemma second_run_skips_unprocessed_rows :
  let first := ETLRunner.run (failing_load t1) shop empty_db in
  let second := ETLRunner.run (calm t2) (snd (fst first)) (snd first) in
  map raw_processed (raw_data (snd first)) = [false; false]
  /\ DataSource.fetch_data shop (watermark shop (snd first)) = Return []
  /\ counts (fst (fst second)) = Some (0%nat, 0%nat, 0%nat)
  /\ map raw_processed (raw_data (snd second)) = [false; false]
  /\ unified_items (snd second) = [].
Proof. vm_compute. repeat split. Qed.

(** With a source that delivers the same records again, as the mock of the
    recovery test does, the second run sweeps the rows of both runs and
    the store ends with one row per external id. *)
Example replaying_source_recovers :
  let first := ETLRunner.run (failing_load t1) shop_replaying empty_db in
  let second := ETLRunner.run (calm t2) (snd (fst first)) (snd first) in
  counts (fst (fst second)) = Some (2%nat, 4%nat, 0%nat)
  /\ map raw_processed (raw_data (snd second)) = [true; true; true; true]
  /\ map ui_external_id (unified_items (snd second)) = ["1"; "2"].
Proof. vm_compute. repeat split. Qed.




(** Failures are counted per request, not per attempt: after two requests
    on a transport that always times out, six attempts have failed, more
    than the threshold, the tally is two and a third request is sent. *)
Example failed_attempts_are_counted_per_request :
  let s := APIExtractor.seconds in
  let two := requests_at always_timeout url [s 0; s 3]%Z shop_client idle in
  let next :=
    APIExtractor._make_request_with_retry always_timeout (snd (fst two))
      url (snd two) in
  APIExtractor.requests (snd two) = 6%nat
  /\ APIExtractor._circuit_breaker_failures (snd (fst two)) = 2%Z
  /\ APIExtractor._circuit_breaker_open_until (snd (fst two)) = None
  /\ APIExtractor.requests (snd next) = 9%nat.
Proof. vm_compute. repeat split. Qed.

(** Five requests in a row on that transport, each recorded once: the
    fifth failure opens the breaker, and a request made half a minute
    later fails at once and sends nothing. *)
Example five_timeouts_open_the_breaker :
  let s := APIExtractor.seconds in
  let five :=
    requests_at always_timeout url [s 0; s 3; s 6; s 100; s 103]%Z
      shop_client idle in
  let next :=
    APIExtractor._make_request_with_retry always_timeout (snd (fst five))
      url (APIExtractor.at_time (s 136%Z) (snd five)) in
  APIExtractor._circuit_breaker_failures (snd (fst five)) = 5%Z
  /\ APIExtractor._circuit_breaker_open_until (snd (fst five))
     = Some (s 166%Z)
  /\ fst (fst next)
     = Raise (APIExtractor.circuit_open_error (snd (fst five)) url
                (APIExtractor.at_time (s 136%Z) (snd five)))
  /\ APIExtractor.requests (snd next) = APIExtractor.requests (snd five).
Proof. vm_compute. repeat split. Qed.

(** The breaker on the clock, with failures recorded at given instants:
    closed after four failures, open after the fifth, and a request at
    the end of the cooldown is sent with the tally cleared before it. *)
Example breaker_opens_at_the_fifth_failure :
  let times := map APIExtractor.seconds [10; 20; 30; 40]%Z in
  let tripped :=
    APIExtractor._record_failure (record_failures shop_client times)
      (APIExtractor.seconds 50) in
  APIExtractor._circuit_breaker_open_until (record_failures shop_client times)
  = None
  /\ APIExtractor._circuit_breaker_open_until tripped
     = Some (APIExtractor.seconds 110)
  /\ fst (APIExtractor._is_circuit_open tripped (APIExtractor.seconds 110))
     = false
  /\ APIExtractor.requests
       (snd (APIExtractor._make_request_with_retry always_timeout tripped url
               (APIExtractor.at_time (APIExtractor.seconds 110) idle)))
     = 3%nat.
Proof. vm_compute. repeat split. Qed.

(** C8 on the code: three responses with status 500. The error built for
    the last one is caught by the handler of [Exception] of the same
    [try]: the caller gets an [APIExtractionError], which is not
    retryable and carries no response body; the network error is only its
    cause, and the breaker counts two failures. *)
Lemma server_errors_end_in_extraction_error :
  let outcome :=
    APIExtractor._make_request_with_retry always_500 shop_client url idle in
  let raised :=
    match fst (fst outcome) with Raise e => Some e | Return _ => None end in
  option_map exn_class raised = Some APIExtractionError
  /\ option_map (fun e => isinstance e RetryableError) raised = Some false
  /\ option_map (fun e => ctx_lookup "response_body" (exn_context e)) raised
     = Some None
  /\ option_map (fun e => ctx_lookup "retry_count" (exn_context e)) raised
     = Some (Some "3")
  /\ option_map (fun e => option_map exn_class (exn_original e)) raised
     = Some (Some NetworkError)
  /\ APIExtractor._circuit_breaker_failures (snd (fst outcome)) = 2%Z
  /\ APIExtractor.requests (snd outcome) = 3%nat
  /\ APIExtractor.clock (snd outcome) = APIExtractor.seconds 3.
Proof. vm_compute. repeat split. Qed.

(** On timeouts the same client does what C8 says: three attempts, waits
    of one and two seconds, then a retryable network error with the url,
    the source name and the attempt count. *)
Example timeouts_end_in_network_error :
  let outcome :=
    APIExtractor._make_request_with_retry always_timeout shop_client url
      idle in
  let raised :=
    match fst (fst outcome) with Raise e => Some e | Return _ => None end in
  option_map exn_class raised = Some NetworkError
  /\ option_map (fun e => isinstance e RetryableError) raised = Some true
  /\ option_map (fun e => ctx_lookup "api_url" (exn_context e)) raised
     = Some (Some url)
  /\ option_map (fun e => ctx_lookup "source_name" (exn_context e)) raised
     = Some (Some "shop")
  /\ option_map (fun e => ctx_lookup "retry_count" (exn_context e)) raised
     = Some (Some "3")
  /\ APIExtractor._circuit_breaker_failures (snd (fst outcome)) = 1%Z
  /\ APIExtractor.requests (snd outcome) = 3%nat
  /\ APIExtractor.clock (snd outcome) = APIExtractor.seconds 3.
Proof. vm_compute. repeat split. Qed.

Lemma new_watermark_is_batch_maximum_witness :
  let records := [record_a; record_b] in
  DataSource.fetch_data shop_replaying (watermark shop_replaying empty_db)
  = Return records
  /\ records <> []
  /\ (DataSource.checkpoint_type shop_replaying = "timestamp" ->
      comparable shop_replaying records)
  /\ ETLRunner.load_raises (calm t1) = None
  /\ exists w c,
       DataSource._calculate_checkpoint shop_replaying t1 records = Return w
       /\ w = "1705316400"
       /\ DataSource.get_checkpoint shop_replaying
            (snd (ETLRunner.run (calm t1) shop_replaying empty_db)) = Some c
       /\ cp_checkpoint_value c = Some w.
Proof.
  intros records.
  assert (Hfetch : DataSource.fetch_data shop_replaying
                     (watermark shop_replaying empty_db) = Return records)
    by reflexivity.
  assert (Hne : records <> []) by discriminate.
  assert (Hcmp : DataSource.checkpoint_type shop_replaying = "timestamp" ->
                 comparable shop_replaying records).
  { intros _ r r' t t' [<-|[<-|[]]] [<-|[<-|[]]] Ht Ht';
      vm_compute in Ht, Ht'; inversion Ht; inversion Ht'; reflexivity. }
  repeat (split; [assumption || reflexivity|]).
  destruct (new_watermark_is_batch_maximum (calm t1) shop_replaying empty_db
              records Hfetch Hne Hcmp eq_refl)
    as (w & Hw & _ & (c & Hget & Hvalue) & _).
  exists w, c. split; [exact Hw|].
  split; [|split; [exact Hget | exact Hvalue]].
  vm_compute in Hw. congruence.
Defined.

(** C6, as stated, fails when no payload carries a timestamp: the run
    extracts one record, none of the payloads has a timestamp, and the
    watermark written at finalization is the clock reading. *)
Lemma undated_batch_takes_the_clock :
  let after := ETLRunner.run (calm t1) shop_undated empty_db in
  counts (fst (fst after)) = Some (1%nat, 1%nat, 0%nat)
  /\ DataSource.timestamps_of shop_undated [record_undated] = []
  /\ map run_checkpoint_after (etl_runs (snd after))
     = [Some (isoformat (naive t1))]
  /\ map cp_checkpoint_value (etl_checkpoints (snd after))
     = [Some (isoformat (naive t1))].
Proof. vm_compute. repeat split. Qed.

(** A batch with an aware and a naive timestamp: [max] raises, after the
    raw rows were saved. The run fails with an [ExtractionError] whose
    cause is the [TypeError], the watermark stays where it was and the
    two rows are left unprocessed. *)
Example mixed_timestamps_fail_the_run :
  let after := ETLRunner.run (calm t1) shop_two_zones empty_db in
  let raised :=
    match fst (fst after) with Raise e => Some e | Return _ => None end in
  map (DataSource.extract_timestamp shop_two_zones)
    [record_utc; record_b]
  = [Some {| instant := 1705312800; utcoffset := Some 0%Z |};
     Some (naive 1705316400)]
  /\ option_map exn_class raised = Some ExtractionError
  /\ option_map (fun e => option_map exn_class (exn_original e)) raised
     = Some (Some (Foreign "TypeError"))
  /\ map cp_checkpoint_value (etl_checkpoints (snd after)) = [Some ""]
  /\ map cp_status (etl_checkpoints (snd after)) = [FAILED]
  /\ map raw_processed (raw_data (snd after)) = [false; false]
  /\ unified_items (snd after) = []
  /\ run_writes (snd after)
     = [RunCreated 1 RUNNING; RunFinalized 1 FAILED; RunFinalized 1 FAILED].
Proof. vm_compute. repeat split. Qed.

(** Id checkpoints take the greatest id in the order of strings. *)
Example id_checkpoint_is_greatest_id :
  DataSource._calculate_checkpoint products t1 [record_b; record_a]
  = Return "2"
  /\ DataSource._calculate_checkpoint products t1
       [[("id", JStr "9")]; [("id", JStr "10")]] = Return "9".
Proof. split; reflexivity. Qed.

Lemma title_is_the_hard_failure_witness :
  title_value API record_blank_title = JStr "   "
  /\ strip "   " = ""
  /\ raises (DataNormalizer.normalize shop_normalizer record_blank_title 1)
  /\ not_a_number (price_value record_bad_price)
  /\ (forall item,
         DataNormalizer.normalize shop_normalizer record_bad_price 1
         = Return item ->
         item_amount item = None).
Proof.
  split; [reflexivity|]. split; [reflexivity|].
  split.
  - exact (proj1 title_is_the_hard_failure shop_normalizer
             record_blank_title 1%nat "   " eq_refl eq_refl).
  - assert (Hprice : not_a_number (price_value record_bad_price))
      by (right; reflexivity).
    split; [exact Hprice|].
    intros item Hitem.
    exact (proj1 (proj2 (proj2 (proj2 (proj2 title_is_the_hard_failure)))
                    shop_normalizer record_bad_price 1%nat item eq_refl
                    Hprice (or_introl eq_refl) (or_introl eq_refl) Hitem)).
Defined.

(** White space is that of [str.strip]: a title made of a no-break space
    (U+00A0) and a next-line character (U+0085) is blank, and the record
    is rejected. *)
Example no_break_space_title_is_rejected :
  let blank := String (ascii_of_nat 160) (String (ascii_of_nat 133) "") in
  strip blank = ""
  /\ DataNormalizer.normalize shop_normalizer
       [("id", JStr "4"); ("name", JStr blank)] 1
     = Raise (Schema.validation_error ["title"]).
Proof. split; reflexivity. Qed.

(** C7, as stated, fails on the external id: a record with a title and no
    id is rejected by the schema, which requires a non-empty id. *)
Lemma blank_external_id_is_rejected :
  title_value API record_without_id = JStr "E"
  /\ external_id_value API record_without_id = ""
  /\ DataNormalizer.normalize shop_normalizer record_without_id 1
     = Raise (Schema.validation_error ["external_id"]).
Proof. repeat split. Qed.

(** A price that is not a number leaves the amount absent. *)
Example bad_price_is_absent :
  option_map item_amount
    (match DataNormalizer.normalize shop_normalizer record_bad_price 1 with
     | Return item => Some item
     | Raise _ => None
     end)
  = Some None.
Proof. reflexivity. Qed.



(** ** The further properties on concrete inputs *)

Import Replies.

Lemma load_last_write_wins_witness :
  exists row,
    In row (fst (PostgresLoader.load 5 three_widgets None []))
    /\ PostgresLoader.key row = (API, "shop", "1")
    /\ ui_title row = "new".
Proof.
  assert (Hafter : forall item,
             In item [widget "2" "other" 3] ->
             item_key item <> item_key (widget "1" "new" 2)).
  { intros item [<-|[]]. discriminate. }
  destruct (load_last_write_wins 5 [widget "1" "old" 1]
              [widget "2" "other" 3] (widget "1" "new" 2) None []
              (NoDup_nil _) Hafter)
    as (row & Hin & Hkey & Hcolumns & _).
  exists row. split; [exact Hin|]. split; [exact Hkey|].
  change (ui_title row) with (ui_title (set_columns row)).
  rewrite Hcolumns. reflexivity.
Defined.

Lemma load_batch_is_load_witness :
  Batches.load_batch (fun _ => 5%Z) three_widgets None 2 []
  = Return (PostgresLoader.load 5 three_widgets None []).
Proof.
  exact (proj1 (load_batch_is_load three_widgets None 2 [] eq_refl) 5%Z).
Defined.

Lemma load_batch_without_positive_size_witness :
  Batches.load_batch (fun _ => 5%Z) three_widgets None (-1) []
  = Return ([], 0%nat).
Proof.
  assert (H : (-1 <= 0)%Z) by discriminate.
  exact (load_batch_without_positive_size (fun _ => 5%Z) three_widgets None
           (-1) [] H).
Defined.

Lemma breaker_stays_closed_below_threshold_witness :
  let failed := record_failures shop_client [1; 2; 3; 4]%Z in
  APIExtractor._is_circuit_open failed 5 = (false, failed)
  /\ APIExtractor._circuit_breaker_failures failed = 4%Z.
Proof.
  exact (breaker_stays_closed_below_threshold shop_client [1; 2; 3; 4]%Z 5
           eq_refl eq_refl).
Defined.

Lemma transport_failures_exhaust_retries_witness :
  exists e self' w',
    APIExtractor._make_request_with_retry always_timeout shop_client url
      idle = (Raise e, self', w')
    /\ exn_class e = NetworkError
    /\ APIExtractor.requests w' = 3%nat
    /\ APIExtractor.clock w' = APIExtractor.seconds 3
    /\ APIExtractor._circuit_breaker_failures self' = 1%Z.
Proof.
  assert (Hdelay : (0 <= APIExtractor.retry_delay shop_client)%Z)
    by discriminate.
  destruct (transport_failures_exhaust_retries always_timeout
              (fun _ => timed_out) shop_client url idle eq_refl
              (le_S _ _ (le_S _ _ (le_n 1))) Hdelay
              (fun _ => or_introl eq_refl))
    as (e & self' & w' & Hrun & Hclass & _ & _ & _ & _ & _ & Hsent & Hclock
        & Hfailures).
  exists e, self', w'. auto.
Defined.

Lemma request_errors_are_extraction_errors_witness :
  exists e self' w',
    APIExtractor._make_request_with_retry always_500 shop_client url idle
    = (Raise e, self', w')
    /\ isinstance e ExtractionError = true
    /\ ctx_lookup "api_url" (exn_context e) = Some url.
Proof.
  do 3 eexists.
  refine ((fun H =>
             conj H
               (conj (proj1 (request_errors_are_extraction_errors
                               _ _ _ _ _ _ _ H))
                     (proj1 (proj2 (request_errors_are_extraction_errors
                                      _ _ _ _ _ _ _ H))))) _).
  vm_compute. reflexivity.
Defined.

Lemma returned_response_passed_all_checks_witness :
  exists self' w',
    APIExtractor._make_request_with_retry always_ok shop_client url idle
    = (Return (ok_response "short"), self', w')
    /\ APIExtractor._circuit_breaker_failures self' = 0%Z
    /\ APIExtractor.raise_for_status (ok_response "short") = None.
Proof.
  do 2 eexists.
  refine ((fun H =>
             let P := returned_response_passed_all_checks _ _ _ _ _ _ _ H in
             conj H
               (conj (proj1 (proj2 (proj2 (proj2 (proj2 (proj2 P))))))
                     (proj1 (proj2 (proj2 (proj2 (proj2 P))))))) _).
  vm_compute. reflexivity.
Defined.

Lemma client_errors_are_not_retried_witness :
  exists e self',
    APIExtractor._make_request_with_retry always_denied shop_client url idle
    = (Raise e, self', APIExtractor.sent idle)
    /\ exn_class e = AuthenticationError
    /\ isinstance e NonRetryableError = true.
Proof.
  destruct (client_errors_are_not_retried always_denied shop_client url idle
              denied eq_refl (le_S _ _ (le_S _ _ (le_n 1))) eq_refl
              (or_introl eq_refl))
    as (e & self' & Hrun & Hclass & Hfinal & _).
  exists e, self'. auto.
Defined.

Lemma rate_limited_request_waits_and_retries_witness :
  APIExtractor._make_request_with_retry limited_then_ok shop_client url idle
  = (Return (ok_response "short"),
     APIExtractor._record_success shop_client,
     {| APIExtractor.clock := APIExtractor.seconds 7;
        APIExtractor.requests := 2 |}).
Proof.
  assert (Hok : accepted_response (ok_response "short")).
  { split; [|split; [reflexivity | reflexivity]].
    intros [H|[H|[H|[H|[]]]]]; discriminate H. }
  exact (rate_limited_request_waits_and_retries limited_then_ok shop_client
           url idle limited (ok_response "short") 7 eq_refl
           (le_S _ _ (le_n 2)) eq_refl eq_refl eq_refl eq_refl Hok).
Defined.

Lemma validated_item_is_within_bounds_witness :
  exists item,
    DataNormalizer.normalize shop_normalizer record_a 1 = Return item
    /\ strip (item_title item) = item_title item
    /\ (String.length (item_title item) <= 500)%nat.
Proof.
  eexists.
  refine ((fun H =>
             let P := validated_item_is_within_bounds _ _ H in
             conj H
               (conj (proj1 (proj2 (proj1 (proj2 (proj2 P)))))
                     (proj2 (proj2 (proj1 (proj2 (proj2 P))))))) _).
  vm_compute. reflexivity.
Defined.

Lemma normalized_item_keeps_its_source_witness :
  exists item,
    DataNormalizer.normalize shop_normalizer record_a 1 = Return item
    /\ item_source_name item = "shop"
    /\ item_raw_data_id item = 1%nat.
Proof.
  eexists.
  refine ((fun H =>
             let P := normalized_item_keeps_its_source shop_normalizer
                        record_a 1 _ H in
             conj H (conj (proj1 (proj2 P)) (proj1 (proj2 (proj2 P))))) _).
  vm_compute. reflexivity.
Defined.

Lemma retry_sides_are_disjoint_witness :
  issubclass NetworkError ETLException = true
  /\ issubclass NetworkError RetryableError
     && issubclass NetworkError NonRetryableError = false.
Proof.
  destruct (retry_sides_are_disjoint NetworkError eq_refl)
    as (Hbase & Hsides & _).
  exact (conj Hbase Hsides).
Defined.

Lemma checkpoint_totals_accumulate_witness :
  exists c,
    DataSource.get_checkpoint shop (record_runs shop three_runs empty_db)
    = Some c
    /\ cp_total_runs c = 3%Z
    /\ cp_total_records_processed c = 7%Z
    /\ cp_checkpoint_value c = Some "c".
Proof.
  exact (checkpoint_totals_accumulate shop empty_db
           (1%Z, "a", SUCCESS, 2%nat)
           [(2%Z, "a", FAILED, 0%nat); (3%Z, "c", SUCCESS, 5%nat)] eq_refl).
Defined.

Lemma extraction_without_records_keeps_watermark_witness :
  let db' := snd (DataSource.run_incremental shop_down t1 empty_db) in
  watermark shop_down db' = watermark shop_down empty_db
  /\ raw_data db' = [].
Proof.
  assert (Hnone : forall records,
             DataSource.fetch_data shop_down (watermark shop_down empty_db)
             = Return records ->
             records = []).
  { intros records H. discriminate H. }
  destruct (extraction_without_records_keeps_watermark shop_down t1 empty_db
              Hnone)
    as (Hmark & Hraw & _).
  exact (conj Hmark Hraw).
Defined.

Lemma run_keeps_one_row_per_key_witness :
  NoDup (map PostgresLoader.key
           (unified_items
              (snd (ETLRunner.run (calm t1) shop_replaying empty_db)))).
Proof.
  exact (run_keeps_one_row_per_key (calm t1) shop_replaying empty_db
           (NoDup_nil _)).
Defined.

Lemma run_only_marks_rows_of_its_source_witness :
  let db' := snd (ETLRunner.run (calm t1) shop_mixed empty_db) in
  NoDup (map raw_id (raw_data db')) /\ raw_keys_in_use db'.
Proof.
  assert (Hkeys : raw_keys_in_use empty_db) by (intros raw []).
  exact (proj2 (run_only_marks_rows_of_its_source (calm t1) shop_mixed
                  empty_db (NoDup_nil _) Hkeys)).
Defined.

Lemma failed_extraction_changes_no_data_witness :
  let outcome := ETLRunner.run (calm t1) shop_down empty_db in
  exists error,
    fst (fst outcome) = Raise error
    /\ isinstance error ExtractionError = true
    /\ raw_data (snd outcome) = []
    /\ unified_items (snd outcome) = [].
Proof.
  destruct (failed_extraction_changes_no_data (calm t1) shop_down empty_db
              _ eq_refl)
    as (error & Hrun & Hclass & _ & Hraw & Hitems & _).
  exists error. auto.
Defined.

Lemma failed_load_stores_no_item_witness :
  let outcome := ETLRunner.run (failing_load t1) shop empty_db in
  exists error rows older row,
    fst (fst outcome) = Raise error
    /\ class_name (exn_class error) = "MissingGreenlet"
    /\ unified_items (snd outcome) = []
    /\ raw_data (snd outcome) = rows
    /\ map raw_payload rows = [record_a; record_b]
    /\ etl_runs (snd outcome) = (older ++ [row])%list
    /\ run_status row = SUCCESS.
Proof.
  assert (Hne : [record_a; record_b] <> []) by discriminate.
  assert (Hbatch :
            accepted (normalizer_of (began shop empty_db))
              (ETLRunner.unprocessed (began shop empty_db)
                 (extracted shop (ETLRunner.now (failing_load t1))
                    [record_a; record_b] "1705316400" empty_db)) <> []).
  { vm_compute. discriminate. }
  assert (Hw : DataSource._calculate_checkpoint shop
                 (ETLRunner.now (failing_load t1)) [record_a; record_b]
               = Return "1705316400")
    by (vm_compute; reflexivity).
  destruct (failed_load_stores_no_item (failing_load t1) shop empty_db
              [record_a; record_b] "1705316400" _ eq_refl Hne Hw
              eq_refl Hbatch)
    as (error & rows & older & row & Hrun & Hclass & _ & Hitems & Hraw
        & Hpay & _ & Hruns & _ & Hstatus).
  exists error, rows, older, row. auto 10.
Defined.


Lemma summary_counts_are_consistent_witness :
  exists summary self' db',
    ETLRunner.run (calm t1) shop_mixed empty_db
    = (Return summary, self', db')
    /\ List.length (ETLRunner.error_details summary)
       = ETLRunner.records_failed summary
    /\ Forall (fun d => ETLRunner.phase d = "normalization")
              (ETLRunner.error_details summary).
Proof.
  do 3 eexists.
  refine ((fun H =>
             let P := summary_counts_are_consistent _ _ _ _ _ _ H in
             conj H (conj (proj1 (proj2 P)) (proj1 (proj2 (proj2 P))))) _).
  vm_compute. reflexivity.
Defined.

Lemma list_pages_are_fetched_in_order_witness :
  APIPages.fetch_data json_of list_server 2 shop_client idle
  = Some (Return (full_page ++ short_page)%list,
          APIExtractor._record_success shop_client,
          {| APIExtractor.clock := 0; APIExtractor.requests := 2 |}).
Proof.
  assert (Hfull : Forall (fun page => (100 <= List.length page)%nat)
                    [full_page]).
  { constructor; [|constructor]. apply Nat.leb_le. reflexivity. }
  assert (Hshort : (List.length short_page < 100)%nat)
    by (apply Nat.ltb_lt; reflexivity).
  assert (Hserves : serves json_of list_server (APIExtractor.requests idle)
                      (map JList [full_page] ++ [JList short_page])%list).
  { intros [|[|[|i]]] data H; try discriminate H;
      injection H as <-; eexists;
      (split; [reflexivity|]); (split; [|reflexivity]);
      (split; [|split; [reflexivity | reflexivity]]);
      intros [G|[G|[G|[G|[]]]]]; discriminate G. }
  exact (list_pages_are_fetched_in_order json_of list_server [full_page]
           short_page 2 shop_client idle eq_refl
           (le_S _ _ (le_S _ _ (le_n 1))) (le_n 2) Hfull Hshort Hserves).
Defined.

Lemma object_pages_follow_has_next_witness :
  APIPages.fetch_data json_of object_server 2 shop_client idle
  = Some (Return [JInt 1; JInt 2],
          APIExtractor._record_success shop_client,
          {| APIExtractor.clock := 0; APIExtractor.requests := 2 |}).
Proof.
  assert (Hpages :
            Forall (fun p : pydict * list json =>
                      dict_lookup "data" (fst p) = Some (JList (snd p))
                      /\ snd p <> []
                      /\ truthy (get_or "has_next" (fst p) (JBool false))
                         = true)
                   [(more_object, [JInt 1])]).
  { constructor; [|constructor].
    split; [reflexivity|]. split; [discriminate | reflexivity]. }
  assert (Hserves :
            serves json_of object_server (APIExtractor.requests idle)
              (map (fun p : pydict * list json => JDict (fst p))
                   [(more_object, [JInt 1])] ++ [JDict end_object])%list).
  { intros [|[|[|i]]] data H; try discriminate H;
      injection H as <-; eexists;
      (split; [reflexivity|]); (split; [|reflexivity]);
      (split; [|split; [reflexivity | reflexivity]]);
      intros [G|[G|[G|[G|[]]]]]; discriminate G. }
  exact (object_pages_follow_has_next json_of object_server
           [(more_object, [JInt 1])] end_object [JInt 2] 2 shop_client idle
           eq_refl (le_S _ _ (le_S _ _ (le_n 1))) (le_n 2) Hpages eq_refl
           eq_refl Hserves).
Defined.

Lemma fetch_errors_are_extraction_errors_witness :
  exists e self' w',
    APIPages.fetch_data json_of garbled_server 1 shop_client idle
    = Some (Raise e, self', w')
    /\ isinstance e ExtractionError = true.
Proof.
  do 3 eexists.
  refine ((fun H =>
             conj H (fetch_errors_are_extraction_errors _ _ _ _ _ _ _ _ H))
            _).
  vm_compute. reflexivity.
Defined.

(** A body that is not JSON ends the fetch with the parse error, which
    names the page. *)
Example garbled_body_is_reported :
  option_map
    (fun outcome =>
       match fst (fst outcome) with
       | Raise e =>
           (exn_message e, ctx_lookup "page" (exn_context e))
       | Return _ => ("", None)
       end)
    (APIPages.fetch_data json_of garbled_server 1 shop_client idle)
  = Some ("Failed to parse JSON response", Some "1").
Proof. vm_compute. reflexivity. Qed.
